(** * image_2_pdf: the page-layout and scaling engine

    A shallow embedding of the two converter threads of the repository,

    - [V2]  : [ImageToPDFConverter] of img2pdf_v2.py (no margin, SVG and raster),
    - [Svg] : [SVGToPDFConverter] of image_2_pdf.py (20 pt margin, SVG only),

    and of the main window that starts them ([Window]), together with the
    properties of the layout engine and of the window.

    Modelling conventions.
    - Python floats and ints that take part in true division are exact
      rationals ([Q]); [int(...)] truncates toward zero.
    - A Python exception is its message [str(e)]; [except Exception] catches
      every one of them.
    - The Qt signals and the calls on the reportlab canvas are recorded, in
      program order, in one trace of events.
    - pathlib, os.path, svglib and reportlab are the environment ([Env]). *)

From Stdlib Require Import ZArith QArith Qminmax Qround List String Bool Lia Lqa.
From Stdlib Require Import Sorting.Sorted.
From Stdlib Require Import NArith Ascii DecimalString DecimalN.
Import ListNotations.

Open Scope string_scope.
Open Scope list_scope.
Open Scope Z_scope.

(** ** Results and events *)

Inductive result (A : Type) : Type :=
| Ok (a : A)
| Raise (msg : string).
Arguments Ok {A} a.
Arguments Raise {A} msg.

(** The f-strings sent on [status_updated], one constructor per template. *)
Inductive StatusMsg : Type :=
| Warnung (n : Z)
    (* "Warnung: 'Bilder pro Seite' ist nicht {n}. Layout könnte unerwartet sein." *)
| VerarbeiteSeite (k : Z)
    (* "Verarbeite Seite {k}..." *)
| Uebersprungen (base : string)
    (* "Übersprungen: {base} (Nicht unterstütztes Format)" *)
| Verarbeitet (base : string) (label : string) (scale : Q)
    (* "Verarbeitet: {base} ({label}: {scale:.2f}x)" *)
| Fehler (base : string) (cause : string).
    (* "Fehler bei {base}: {cause}" *)

Inductive Event : Type :=
| CanvasNew (path : string) (pagesize : Q * Q) (pageCompression : option Z)
| ShowPage
| SetPageCompression (n : Z)
| RenderDraw (file : string) (scale x y : Q)
    (* drawing.scale(scale, scale); renderPDF.draw(drawing, c, x, y) *)
| DrawImage (file : string) (x y w h : Q)
| Save
| status_updated (m : StatusMsg)
| progress_updated (p : Z)
| finished_signal (ok : bool) (msg : string).

(** ** A writer monad with exceptions

    A computation yields the events it emitted and either a value or the
    exception that stopped it; the events emitted before a raise are kept. *)

Definition M (A : Type) : Type := (list Event * result A)%type.

Definition ret {A} (a : A) : M A := ([], Ok a).

Definition bind {A B} (m : M A) (f : A -> M B) : M B :=
  match m with
  | (t, Ok a) => let (t', r) := f a in (t ++ t', r)
  | (t, Raise e) => (t, Raise e)
  end.

Definition emit (e : Event) : M unit := ([e], Ok tt).

Definition raise {A} (msg : string) : M A := ([], Raise msg).

Definition lift {A} (r : result A) : M A := ([], r).

(** [try: m  except Exception as e: h e] *)
Definition try_except {A} (m : M A) (h : string -> M A) : M A :=
  match m with
  | (t, Ok a) => (t, Ok a)
  | (t, Raise e) => let (t', r) := h e in (t ++ t', r)
  end.

Declare Scope monad_scope.
Delimit Scope monad_scope with monad.
Notation "x <- m ;; k" := (bind m (fun x => k))
  (at level 61, m at next level, right associativity) : monad_scope.
Notation "m ;; k" := (bind m (fun _ => k))
  (at level 61, right associativity) : monad_scope.
Open Scope monad_scope.

Definition events {A} (m : M A) : list Event := fst m.
Definition outcome {A} (m : M A) : result A := snd m.

(** ** Python primitives *)

Definition ZeroDivisionError : string := "float division by zero".

(** [a / b] on numbers. *)
Definition py_truediv (a b : Q) : M Q :=
  if Qeq_bool b 0 then raise ZeroDivisionError else ret (a / b)%Q.

(** [int(q)]: truncation toward zero. *)
Definition py_int (q : Q) : Z := Z.quot (Qnum q) (Zpos (Qden q)).

(** [min(a, b)] and [max(a, b)]: the first argument wins a tie. *)
Definition py_min (a b : Q) : Q :=
  match (b ?= a)%Q with Lt => b | _ => a end.
Definition py_max (a b : Q) : Q :=
  match (b ?= a)%Q with Gt => b | _ => a end.

(** [not x] on a number. *)
Definition falsy (x : Q) : bool := Qeq_bool x 0.

(** [range(start, stop, step)], as the list a [for] loop walks through. *)
Fixpoint range_up (fuel : nat) (start stop step : Z) : list Z :=
  match fuel with
  | O => []
  | S fuel' =>
      if start <? stop then start :: range_up fuel' (start + step) stop step
      else []
  end.

Fixpoint range_down (fuel : nat) (start stop step : Z) : list Z :=
  match fuel with
  | O => []
  | S fuel' =>
      if stop <? start then start :: range_down fuel' (start + step) stop step
      else []
  end.

Definition py_range (start stop step : Z) : M (list Z) :=
  if step =? 0 then raise "range() arg 3 must not be zero"
  else if 0 <? step then ret (range_up (Z.to_nat (stop - start)) start stop step)
  else ret (range_down (Z.to_nat (start - stop)) start stop step).

(** [l[a:b]] for [0 <= a]; the only slices the converters take. *)
Definition py_slice {A} (l : list A) (a b : Z) : list A :=
  firstn (Z.to_nat (b - a)) (skipn (Z.to_nat a) l).

Fixpoint enumerate_from {A} (i : Z) (l : list A) : list (Z * A) :=
  match l with
  | [] => []
  | x :: l' => (i, x) :: enumerate_from (i + 1) l'
  end.

Definition enumerate {A} (l : list A) : list (Z * A) := enumerate_from 0 l.

Definition py_len {A} (l : list A) : Z := Z.of_nat (List.length l).

Definition in_list (s : string) (l : list string) : bool :=
  existsb (String.eqb s) l.

(** ** The environment: library calls whose results depend on the files *)

Record Drawing : Type := { width : Q; height : Q }.

Record Env : Type := {
  suffix_lower : string -> string;
    (* Path(f).suffix.lower() *)
  basename : string -> string;
    (* os.path.basename(f) *)
  svg2rlg : string -> result (option Drawing);
    (* None: no drawing object *)
  ImageReader_getSize : string -> result (Z * Z);
    (* ImageReader(f).getSize() *)
  renderPDF_draw : string -> Q -> Q -> Q -> result unit;
    (* file, scale, x, y *)
  drawImage : string -> Q -> Q -> Q -> Q -> result unit;
    (* file, x, y, width, height *)
  canvas_save : string -> result unit
}.

(** reportlab.lib.pagesizes *)
Definition mm : Q := (720 # 254)%Q.
Definition A4 : Q * Q := ((210 * mm)%Q, (297 * mm)%Q).

(** A library call on the canvas: its event is recorded when it returns. *)
Definition call (r : result unit) (e : Event) : M unit :=
  lift r ;; emit e.

(** ** The page loop

    Lines 75-157 of img2pdf_v2.py and lines 64-128 of image_2_pdf.py are the
    same two nested loops around a [try] statement; they are embedded once,
    over the body of that [try]. *)

Inductive control : Type := Normal | Continue.

Section PageLoop.
Variable env : Env.
(** the body of the [try], for the grid slot and the file *)
Variable try_body : Z -> Z -> string -> M control.
Variable files : list string.
Variable images_per_page : Z.

Definition cols : Z := 3.
Definition rows : Z := 3.

Definition total_files : Z := py_len files.

(** Lines 84-85: the grid slot of the image with in-batch index [i]. *)
Definition grid_slot (i : Z) : Z * Z :=
  let row := i / cols in
  let col := i mod cols in
  (row, col).

Definition progress (files_processed : Z) : M Z :=
  q <- py_truediv (inject_Z files_processed) (inject_Z total_files) ;;
  ret (py_int (q * 100)%Q).

(** One turn of [for i, image_file in enumerate(page_files)]; the value is
    [files_processed] after it. *)
Definition loop_body (i : Z) (image_file : string) (files_processed : Z) : M Z :=
  let '(row, col) := grid_slot i in
  c <- try_except (try_body row col image_file)
         (fun e =>
            emit (status_updated (Fehler (basename env image_file) e)) ;;
            ret Continue) ;;
  match c with
  | Continue => ret files_processed
  | Normal =>
      let files_processed := files_processed + 1 in
      p <- progress files_processed ;;
      emit (progress_updated p) ;;
      ret files_processed
  end.

Fixpoint image_loop (page_files : list (Z * string)) (files_processed : Z) : M Z :=
  match page_files with
  | [] => ret files_processed
  | (i, image_file) :: rest =>
      files_processed <- loop_body i image_file files_processed ;;
      image_loop rest files_processed
  end.

Definition page_body (page_num : Z) (files_processed : Z) : M Z :=
  let page_files := py_slice files page_num (page_num + images_per_page) in
  emit (status_updated (VerarbeiteSeite (page_num / images_per_page + 1))) ;;
  (if 0 <? page_num then emit ShowPage else ret tt) ;;
  image_loop (enumerate page_files) files_processed.

Fixpoint page_loop (page_nums : list Z) (files_processed : Z) : M Z :=
  match page_nums with
  | [] => ret files_processed
  | page_num :: rest =>
      files_processed <- page_body page_num files_processed ;;
      page_loop rest files_processed
  end.

Definition convert_loop : M Z :=
  page_nums <- py_range 0 total_files images_per_page ;;
  page_loop page_nums 0.

(** The grid slots the loop visits, in order: in-batch index and file. *)
Definition slots_of (page_nums : list Z) : list (Z * string) :=
  flat_map (fun page_num =>
              enumerate (py_slice files page_num (page_num + images_per_page)))
           page_nums.

Definition slots : list (Z * string) :=
  slots_of (range_up (Z.to_nat total_files) 0 total_files images_per_page).

End PageLoop.

(** The geometry of one placement. *)
Record Placement : Type := {
  scale : Q;
  scaled_width : Q;
  scaled_height : Q;
  centered_x : Q;
  centered_y : Q
}.

(** ** img2pdf_v2.py: [ImageToPDFConverter] *)

Module V2.

Record ImageToPDFConverter : Type := {
  image_files : list string;
  output_path : string;
  images_per_page : Z;
  page_size : Q * Q;
  high_quality : bool
}.

Section Convert.
Variable env : Env.
Variable self : ImageToPDFConverter.

Definition page_width : Q := fst (page_size self).
Definition page_height : Q := snd (page_size self).

(* KEIN RAND MEHR *)
Definition available_width : Q := page_width.
Definition available_height : Q := page_height.

Definition cell_width : Q := (available_width / inject_Z cols)%Q.
Definition cell_height : Q := (available_height / inject_Z rows)%Q.

(** Lower left corner of the cell of a slot (lines 134-137). *)
Definition cell_x (col : Z) : Q := (inject_Z col * cell_width)%Q.
Definition cell_y (row : Z) : Q :=
  (page_height - (inject_Z row + 1) * cell_height)%Q.

(** Lines 116-137: scale and centred position. *)
Definition place (row col : Z) (img_width img_height : Q) : M Placement :=
  scale_x <- py_truediv cell_width img_width ;;
  scale_y <- py_truediv cell_height img_height ;;
  let scale := py_min scale_x scale_y in
  let scaled_width := (img_width * scale)%Q in
  let scaled_height := (img_height * scale)%Q in
  let centered_x :=
    (inject_Z col * cell_width + (cell_width - scaled_width) / 2)%Q in
  let centered_y :=
    ((page_height - (inject_Z row + 1) * cell_height)
     + (cell_height - scaled_height) / 2)%Q in
  ret {| scale := scale;
         scaled_width := scaled_width; scaled_height := scaled_height;
         centered_x := centered_x; centered_y := centered_y |}.

Definition raster_suffixes : list string := [".png"; ".jpg"; ".jpeg"; ".webp"].

(** Lines 116-149, after the image was loaded. *)
Definition scale_and_draw (file_extension : string) (row col : Z)
    (image_file : string) (drawing : option Drawing)
    (img_width img_height : Q) : M control :=
  p <- place row col img_width img_height ;;
  (if high_quality self then emit (SetPageCompression 1) else ret tt) ;;
  (if String.eqb file_extension ".svg" then
     match drawing with
     | Some _ =>
         call (renderPDF_draw env image_file (scale p) (centered_x p) (centered_y p))
              (RenderDraw image_file (scale p) (centered_x p) (centered_y p)) ;;
         emit (status_updated
                 (Verarbeitet (basename env image_file) "SVG Skalierung" (scale p)))
     | None => raise "'NoneType' object has no attribute 'scale'"
     end
   else if in_list file_extension raster_suffixes then
     call (drawImage env image_file (centered_x p) (centered_y p)
             (scaled_width p) (scaled_height p))
          (DrawImage image_file (centered_x p) (centered_y p)
             (scaled_width p) (scaled_height p)) ;;
     emit (status_updated
             (Verarbeitet (basename env image_file) "Rasterbild Skalierung" (scale p)))
   else ret tt) ;;
  ret Normal.

(** Lines 96-149: the body of the [try]. *)
Definition try_body (row col : Z) (image_file : string) : M control :=
  let file_extension := suffix_lower env image_file in
  if String.eqb file_extension ".svg" then
    drawing <- lift (svg2rlg env image_file) ;;
    let '(img_width, img_height) :=
      match drawing with
      | Some d =>
          if falsy (width d) || falsy (height d)
          then (cell_width, cell_height)
          else (width d, height d)
      | None => (0%Q, 0%Q)
      end in
    scale_and_draw file_extension row col image_file drawing img_width img_height
  else if in_list file_extension raster_suffixes then
    size <- lift (ImageReader_getSize env image_file) ;;
    let '(img_width, img_height) := size in
    scale_and_draw file_extension row col image_file None
      (inject_Z img_width) (inject_Z img_height)
  else
    emit (status_updated (Uebersprungen (basename env image_file))) ;;
    ret Continue.

Definition convert_images_to_pdf : M unit :=
  match image_files self with
  | [] => raise "Keine Bilddateien ausgewählt"
  | _ :: _ =>
      emit (CanvasNew (output_path self) (page_size self)
              (if high_quality self then Some 1 else None)) ;;
      (if negb (images_per_page self =? cols * rows)
       then emit (status_updated (Warnung (cols * rows)))
       else ret tt) ;;
      convert_loop env try_body (image_files self) (images_per_page self) ;;
      call (canvas_save env (output_path self)) Save
  end.

Definition run : M unit :=
  try_except
    (convert_images_to_pdf ;;
     emit (finished_signal true "Konvertierung erfolgreich abgeschlossen!"))
    (fun e => emit (finished_signal false ("Fehler bei der Konvertierung: " ++ e)%string)).

End Convert.
End V2.

(** ** image_2_pdf.py: [SVGToPDFConverter] *)

Module Svg.

Record SVGToPDFConverter : Type := {
  svg_files : list string;
  output_path : string;
  images_per_page : Z;
  page_size : Q * Q;
  high_quality : bool
}.

Section Convert.
Variable env : Env.
Variable self : SVGToPDFConverter.

Definition page_width : Q := fst (page_size self).
Definition page_height : Q := snd (page_size self).

Definition margin : Q := 20.
Definition available_width : Q := (page_width - 2 * margin)%Q.
Definition available_height : Q := (page_height - 2 * margin)%Q.

Definition cell_width : Q := (available_width / inject_Z cols)%Q.
Definition cell_height : Q := (available_height / inject_Z rows)%Q.

(** Lines 78-79. *)
Definition cell_x (col : Z) : Q := (margin + inject_Z col * cell_width)%Q.
Definition cell_y (row : Z) : Q :=
  (page_height - margin - (inject_Z row + 1) * cell_height)%Q.

(** Lines 96-109: scale, the high quality adjustment and the centred
    position, for the cell at [(x, y)]. *)
Definition place (x y : Q) (svg_width svg_height : Q) : M Placement :=
  scale_x <- py_truediv (cell_width - 10) svg_width ;;
  scale_y <- py_truediv (cell_height - 10) svg_height ;;
  let scale := py_min scale_x scale_y in
  let scale :=
    if high_quality self then
      let max_scale := py_min 2 scale in
      py_max scale max_scale
    else scale in
  let scaled_width := (svg_width * scale)%Q in
  let scaled_height := (svg_height * scale)%Q in
  let centered_x := (x + (cell_width - scaled_width) / 2)%Q in
  let centered_y := (y + (cell_height - scaled_height) / 2)%Q in
  ret {| scale := scale;
         scaled_width := scaled_width; scaled_height := scaled_height;
         centered_x := centered_x; centered_y := centered_y |}.

(** Lines 83-120: the body of the [try]; [x] and [y] are computed just
    before it (lines 78-79). *)
Definition try_body (row col : Z) (svg_file : string) : M control :=
  let x := cell_x col in
  let y := cell_y row in
  drawing <- lift (svg2rlg env svg_file) ;;
  match drawing with
  | Some d =>
      let '(svg_width, svg_height) :=
        if falsy (width d) || falsy (height d)
        then ((cell_width - 10)%Q, (cell_height - 10)%Q)
        else (width d, height d) in
      p <- place x y svg_width svg_height ;;
      (if high_quality self then emit (SetPageCompression 1) else ret tt) ;;
      call (renderPDF_draw env svg_file (scale p) (centered_x p) (centered_y p))
           (RenderDraw svg_file (scale p) (centered_x p) (centered_y p)) ;;
      emit (status_updated
              (Verarbeitet (basename env svg_file) "Skalierung" (scale p))) ;;
      ret Normal
  | None => ret Normal
  end.

Definition convert_svgs_to_pdf : M unit :=
  match svg_files self with
  | [] => raise "Keine SVG-Dateien ausgewählt"
  | _ :: _ =>
      emit (CanvasNew (output_path self) (page_size self)
              (if high_quality self then Some 1 else None)) ;;
      convert_loop env try_body (svg_files self) (images_per_page self) ;;
      call (canvas_save env (output_path self)) Save
  end.

Definition run : M unit :=
  try_except
    (convert_svgs_to_pdf ;;
     emit (finished_signal true "Konvertierung erfolgreich abgeschlossen!"))
    (fun e => emit (finished_signal false ("Fehler bei der Konvertierung: " ++ e)%string)).

End Convert.
End Svg.

(** ** Reading a trace *)

Definition is_ShowPage (e : Event) : bool :=
  match e with ShowPage => true | _ => false end.

Definition progress_of (t : list Event) : list Z :=
  flat_map (fun e => match e with progress_updated p => [p] | _ => [] end) t.

(** The canvas as the document writer of section 4.4 of the specification,
    as far as pages go: a new canvas is on its first page, [showPage] moves
    to the next one, [save] ends the document. *)
Inductive Writer : Type :=
| Empty
| HasPage (n : Z)
| Saved (n : Z).

Definition writer_step (w : Writer) (e : Event) : Writer :=
  match e, w with
  | CanvasNew _ _ _, Empty => HasPage 1
  | ShowPage, HasPage n => HasPage (n + 1)
  | Save, HasPage n => Saved n
  | _, _ => w
  end.

Definition writer_of (t : list Event) : Writer := fold_left writer_step t Empty.

(** Test environment: every file is an SVG of 100 x 50 unless its name says
    otherwise. *)
Definition env0 : Env := {|
  suffix_lower := fun f =>
    if (f =? "b.txt")%string then ".txt"
    else if (f =? "p.png")%string then ".png" else ".svg";
  basename := fun f => f;
  svg2rlg := fun f =>
    if (f =? "bad.svg")%string then Raise "syntax error"
    else if (f =? "none.svg")%string then Ok None
    else Ok (Some {| width := 100; height := 50 |});
  ImageReader_getSize := fun _ => Ok (40, 30);
  renderPDF_draw := fun _ _ _ _ => Ok tt;
  drawImage := fun _ _ _ _ _ => Ok tt;
  canvas_save := fun _ => Ok tt
|}.

(** A placement lies inside the rectangle with lower left corner [(x, y)]
    and size [w] by [h]. *)
Definition inside (p : Placement) (x y w h : Q) : Prop :=
  (x <= centered_x p)%Q /\ (centered_x p + scaled_width p <= x + w)%Q /\
  (y <= centered_y p)%Q /\ (centered_y p + scaled_height p <= y + h)%Q.

(** Converters used in the examples. *)
Definition v2_a4 (files : list string) (per_page : Z) : V2.ImageToPDFConverter :=
  {| V2.image_files := files; V2.output_path := "out.pdf";
     V2.images_per_page := per_page; V2.page_size := A4;
     V2.high_quality := true |}.

Definition svg_a4 (files : list string) (per_page : Z) (hq : bool)
  : Svg.SVGToPDFConverter :=
  {| Svg.svg_files := files; Svg.output_path := "out.pdf";
     Svg.images_per_page := per_page; Svg.page_size := A4;
     Svg.high_quality := hq |}.

(** The value sent on [progress_updated] after [k] of [total] files. *)
Definition percent (total k : Z) : Z :=
  py_int (inject_Z k / inject_Z total * 100)%Q.

Fixpoint zseq (start : Z) (len : nat) : list Z :=
  match len with
  | O => []
  | S len' => start :: zseq (start + 1) len'
  end.

(** Events of the body of the [try]: drawing calls and status messages. *)
Definition body_event (e : Event) : bool :=
  match e with
  | SetPageCompression _ | RenderDraw _ _ _ _ | DrawImage _ _ _ _ _
  | status_updated _ => true
  | _ => false
  end.

(** A slot completes when the body of the [try] reaches its end: neither an
    exception nor [continue]. *)
Definition completes (try_body : Z -> Z -> string -> M control)
    (slot : Z * string) : bool :=
  let '(i, f) := slot in
  let '(row, col) := grid_slot i in
  match outcome (try_body row col f) with
  | Ok Normal => true
  | _ => false
  end.

(** [ceil(n / d)] for positive [d]. *)
Definition ceil_div (n d : Z) : Z := (n + d - 1) / d.

Definition completed (try_body : Z -> Z -> string -> M control)
    (l : list (Z * string)) : Z :=
  Z.of_nat (List.length (filter (completes try_body) l)).

(** The trace of the two loops, written out as lists: what one turn emits,
    then the turns of a batch, then the batches. *)
Section Traces.
Variable env : Env.
Variable try_body : Z -> Z -> string -> M control.
Variable files : list string.
Variable images_per_page : Z.

Definition turn_trace (slot : Z * string) (files_processed : Z) : list Event :=
  events (loop_body env try_body files (fst slot) (snd slot) files_processed).

Fixpoint loop_trace (l : list (Z * string)) (files_processed : Z) : list Event :=
  match l with
  | [] => []
  | slot :: rest =>
      turn_trace slot files_processed
      ++ loop_trace rest (files_processed + completed try_body [slot])
  end.

Definition batch (page_num : Z) : list (Z * string) :=
  enumerate (py_slice files page_num (page_num + images_per_page)).

Fixpoint pages_trace (page_nums : list Z) (files_processed : Z) : list Event :=
  match page_nums with
  | [] => []
  | page_num :: rest =>
      status_updated (VerarbeiteSeite (page_num / images_per_page + 1))
      :: (if 0 <? page_num then [ShowPage] else [])
      ++ loop_trace (batch page_num) files_processed
      ++ pages_trace rest (files_processed + completed try_body (batch page_num))
  end.
End Traces.

Definition body_only {A} (m : M A) : Prop :=
  Forall (fun e => body_event e = true) (events m).

(** How a run ends: [c.save()] and the signal of [run]. *)
Definition tail_trace (saved : result unit) : list Event :=
  match saved with
  | Ok _ => [Save; finished_signal true "Konvertierung erfolgreich abgeschlossen!"]
  | Raise e => [finished_signal false ("Fehler bei der Konvertierung: " ++ e)%string]
  end.

Definition success : Event :=
  finished_signal true "Konvertierung erfolgreich abgeschlossen!".

(** What the progress channel carries in a run over [files]: one value
    [floor(100 k / N)] for each of the [done] files that completed, in
    order; 100 at the end exactly when all of them completed. *)
Definition progress_report (try_body : Z -> Z -> string -> M control)
    (files : list string) (images_per_page : Z) (ps : list Z) : Prop :=
  let N := py_len files in
  let visited := slots files images_per_page in
  let done := completed try_body visited in
  ps = map (fun k => 100 * k / N) (zseq 1 (Z.to_nat done)) /\
  StronglySorted Z.le ps /\
  0 <= done <= N /\
  (forallb (completes try_body) visited = true -> last ps 0 = 100) /\
  (forallb (completes try_body) visited = false -> Forall (fun p => p < 100) ps).

(** Failures of single images in a run with trace [t]: the run ends with
    success, every file has its turn, and the turn of a file whose
    processing raises [e] ends with the status message naming the file and
    [e]. *)
Definition failures_caught (env : Env) (try_body : Z -> Z -> string -> M control)
    (files : list string) (images_per_page : Z) (t : list Event) : Prop :=
  last t Save = success /\
  map snd (slots files images_per_page) = files /\
  forall i f,
    In (i, f) (slots files images_per_page) ->
    (exists fp pre post,
        t = pre ++ turn_trace env try_body files (i, f) fp ++ post) /\
    forall e,
      outcome (try_body (i / 3) (i mod 3) f) = Raise e ->
      (forall fp,
          turn_trace env try_body files (i, f) fp
          = events (try_body (i / 3) (i mod 3) f)
            ++ [status_updated (Fehler (basename env f) e)]) /\
      In (status_updated (Fehler (basename env f) e)) t.

Definition ten : list string :=
  ["1.svg"; "2.svg"; "3.svg"; "4.svg"; "5.svg";
   "6.svg"; "7.svg"; "8.svg"; "9.svg"; "10.svg"].

(** Every batch starts with its page message, then [showPage] unless it is
    the first batch ([page_num = 0]), then the turns of its images, none of
    which calls [showPage]. *)
Definition batch_starts_page (env : Env)
    (try_body : Z -> Z -> string -> M control)
    (files : list string) (images_per_page : Z) : Prop :=
  forall page_num fp,
    events (page_body env try_body files images_per_page page_num fp)
    = status_updated (VerarbeiteSeite (page_num / images_per_page + 1))
      :: (if 0 <? page_num then [ShowPage] else [])
      ++ loop_trace env try_body files (batch files images_per_page page_num) fp /\
    filter is_ShowPage
      (loop_trace env try_body files (batch files images_per_page page_num) fp) = [].

(** ** The main window

    [MainWindow] of img2pdf_v2.py (lines 162-412) and of image_2_pdf.py
    (lines 133-279) differ in the file patterns of [select_folder] and in the
    default name of the output file; they are embedded once, over these two.
    The widgets are the fields of the window; what a dialog returns is an
    argument of the slot that opens it. *)

(** The file system, as the window sees it. *)
Record Fs : Type := {
  glob : string -> string -> list string;
    (* [str(f) for f in Path(folder).glob(pattern)] *)
  path_exists : string -> bool;
    (* os.path.exists *)
  path_join : string -> string -> string
    (* os.path.join *)
}.

(** reportlab.lib.pagesizes, in points. *)
Definition inch : Q := 72.
Definition A3 : Q * Q := ((297 * mm)%Q, (420 * mm)%Q).
Definition A2 : Q * Q := ((420 * mm)%Q, (594 * mm)%Q).
Definition A1 : Q * Q := ((594 * mm)%Q, (841 * mm)%Q).
Definition A0 : Q * Q := ((841 * mm)%Q, (1189 * mm)%Q).
Definition letter : Q * Q := (((85 # 10) * inch)%Q, (11 * inch)%Q).
Definition legal : Q * Q := (((85 # 10) * inch)%Q, (14 * inch)%Q).

(** [list(dict.fromkeys(l))]: the keys of a dict come in the order of their
    first insertion; inserting a key that is present leaves the order. *)
Definition dict_add_key (d : list string) (k : string) : list string :=
  if in_list k d then d else d ++ [k].

Definition dict_fromkeys (l : list string) : list string :=
  fold_left dict_add_key l [].

(** [s[-n:]] *)
Definition py_last (n : nat) (s : string) : string :=
  substring (String.length s - n) n s.

(** [f"{counter:03d}"] for a counter that is not negative. *)
Fixpoint zeros (k : nat) : string :=
  match k with
  | O => ""
  | S k' => String "0" (zeros k')
  end.

Definition zero_pad (width : nat) (s : string) : string :=
  zeros (width - String.length s) ++ s.

Definition format_03d (counter : N) : string :=
  zero_pad 3 (NilEmpty.string_of_uint (N.to_uint counter)).

(** Reading a decimal numeral back, leading zeros allowed. *)
Definition parse_decimal (s : string) : option N :=
  option_map N.of_uint (NilEmpty.uint_of_string s).

Inductive LogMsg : Type :=
| AusgabeordnerGesetzt (folder : string)
    (* "Ausgabeordner gesetzt: {folder}" *)
| DateienHinzugefuegt (n : Z)
    (* "{n} Dateien hinzugefügt" *)
| AusOrdnerHinzugefuegt (n : Z)
    (* "{n} Bilddateien aus Ordner hinzugefügt", in image_2_pdf.py
       "{n} SVG-Dateien aus Ordner hinzugefügt" *)
| DateilisteGeleert
    (* "Dateiliste geleert" *)
| Ausgabedatei (base : string)
    (* "Ausgabedatei: {base}" *)
| Meldung (m : StatusMsg)
    (* a message of the converter, through [update_status] *)
| Abschluss (message : string).
    (* the message of [finished_signal], through [conversion_finished] *)

Inductive MessageBox : Type :=
| InfoKeineDateienImOrdner
| WarnungKeineDateien
| FrageOrdnerOeffnen (message : string)
| Kritisch (message : string).

Module Window.

Record MainWindow : Type := {
  image_files : list string;
  output_folder : string;
  file_list : list string;            (* the items of the QListWidget *)
  output_folder_label : string;
  output_folder_tooltip : string;
  status_text : list LogMsg;          (* the lines of the QTextEdit *)
  boxes : list MessageBox;            (* the message boxes shown so far *)
  convert_btn_enabled : bool;
  progress_bar_visible : bool;
  progress_bar_value : Z
}.

(** [__init__] and the widgets as [setup_ui] leaves them. *)
Definition init : MainWindow := {|
  image_files := [];
  output_folder := "";
  file_list := [];
  output_folder_label := "Nicht ausgewählt";
  output_folder_tooltip := "";
  status_text := [];
  boxes := [];
  convert_btn_enabled := true;
  progress_bar_visible := false;
  progress_bar_value := 0
|}.

Definition set_image_files (w : MainWindow) (l : list string) : MainWindow :=
  {| image_files := l;
     output_folder := output_folder w;
     file_list := file_list w;
     output_folder_label := output_folder_label w;
     output_folder_tooltip := output_folder_tooltip w;
     status_text := status_text w;
     boxes := boxes w;
     convert_btn_enabled := convert_btn_enabled w;
     progress_bar_visible := progress_bar_visible w;
     progress_bar_value := progress_bar_value w |}.

Definition set_file_list (w : MainWindow) (l : list string) : MainWindow :=
  {| image_files := image_files w;
     output_folder := output_folder w;
     file_list := l;
     output_folder_label := output_folder_label w;
     output_folder_tooltip := output_folder_tooltip w;
     status_text := status_text w;
     boxes := boxes w;
     convert_btn_enabled := convert_btn_enabled w;
     progress_bar_visible := progress_bar_visible w;
     progress_bar_value := progress_bar_value w |}.

Definition log_message (w : MainWindow) (m : LogMsg) : MainWindow :=
  {| image_files := image_files w;
     output_folder := output_folder w;
     file_list := file_list w;
     output_folder_label := output_folder_label w;
     output_folder_tooltip := output_folder_tooltip w;
     status_text := status_text w ++ [m];
     boxes := boxes w;
     convert_btn_enabled := convert_btn_enabled w;
     progress_bar_visible := progress_bar_visible w;
     progress_bar_value := progress_bar_value w |}.

Definition show_box (w : MainWindow) (b : MessageBox) : MainWindow :=
  {| image_files := image_files w;
     output_folder := output_folder w;
     file_list := file_list w;
     output_folder_label := output_folder_label w;
     output_folder_tooltip := output_folder_tooltip w;
     status_text := status_text w;
     boxes := boxes w ++ [b];
     convert_btn_enabled := convert_btn_enabled w;
     progress_bar_visible := progress_bar_visible w;
     progress_bar_value := progress_bar_value w |}.

Section Slots.
Variable env : Env.
Variable fs : Fs.
(** ["*.svg"; "*.png"; ...] or ["*.svg"] *)
Variable patterns : list string.
(** "converted_images" or "converted_svgs" *)
Variable base_name : string.

(** The file list is shown as it is, then made free of duplicates. *)
Definition update_file_list (w : MainWindow) : MainWindow :=
  let w := set_file_list w (map (basename env) (image_files w)) in
  set_image_files w (dict_fromkeys (image_files w)).

(** [files]: what [getOpenFileNames] returned. *)
Definition select_files (w : MainWindow) (files : list string) : MainWindow :=
  match files with
  | [] => w
  | _ :: _ =>
      let w := set_image_files w (image_files w ++ files) in
      let w := update_file_list w in
      log_message w (DateienHinzugefuegt (py_len files))
  end.

(** [folder]: what [getExistingDirectory] returned. *)
Definition select_folder (w : MainWindow) (folder : string) : MainWindow :=
  if String.eqb folder "" then w
  else
    let image_files_in_folder := flat_map (fun ext => glob fs folder ext) patterns in
    match image_files_in_folder with
    | _ :: _ =>
        let w := set_image_files w (image_files w ++ image_files_in_folder) in
        let w := update_file_list w in
        log_message w (AusOrdnerHinzugefuegt (py_len image_files_in_folder))
    | [] => show_box w InfoKeineDateienImOrdner
    end.

Definition clear_files (w : MainWindow) : MainWindow :=
  let w := set_image_files w [] in
  let w := update_file_list w in
  log_message w DateilisteGeleert.

Definition display_path (folder : string) : string :=
  if (60 <? String.length folder)%nat then "..." ++ py_last 57 folder
  else folder.

Definition select_output_folder (w : MainWindow) (folder : string) : MainWindow :=
  if String.eqb folder "" then w
  else
    log_message
      {| image_files := image_files w;
         output_folder := folder;
         file_list := file_list w;
         output_folder_label := display_path folder;
         output_folder_tooltip := folder;
         status_text := status_text w;
         boxes := boxes w;
         convert_btn_enabled := convert_btn_enabled w;
         progress_bar_visible := progress_bar_visible w;
         progress_bar_value := progress_bar_value w |}
      (AusgabeordnerGesetzt folder).

(** The name tried when the counter stands at [counter]. *)
Definition numbered (folder : string) (counter : N) : string :=
  path_join fs folder (base_name ++ "_" ++ format_03d counter ++ ".pdf").

(** [while os.path.exists(output_file): ...]; one unit of fuel for each test
    of the condition. *)
Fixpoint free_output_file (fuel : nat) (folder : string) (counter : N)
    (output_file : string) : option string :=
  match fuel with
  | O => None
  | S fuel' =>
      if path_exists fs output_file
      then free_output_file fuel' folder (counter + 1) (numbered folder counter)
      else Some output_file
  end.

(** The names the loop tries, in order: the plain one, then the numbered
    ones from 1 on. *)
Definition candidate (folder : string) (k : nat) : string :=
  match k with
  | O => path_join fs folder (base_name ++ ".pdf")
  | S _ => numbered folder (N.of_nat k)
  end.

(** [page_sizes.get(index, A4)] *)
Definition page_sizes (index : Z) : Q * Q :=
  if index =? 0 then A4
  else if index =? 1 then A3
  else if index =? 2 then A2
  else if index =? 3 then A1
  else if index =? 4 then A0
  else if index =? 5 then letter
  else if index =? 6 then legal
  else A4.

(** What the widgets and the save dialog hold when the button is pressed. *)
Record Settings : Type := {
  save_file_name : string;      (* what [getSaveFileName] returns, if asked *)
  images_per_page_spin : Z;
  page_size_combo : Z;
  high_quality_cb : bool
}.

(** The arguments of the converter thread that is started. *)
Record Started : Type := {
  started_files : list string;
  started_output : string;
  started_per_page : Z;
  started_page_size : Q * Q;
  started_high_quality : bool
}.

Definition prepare (w : MainWindow) : MainWindow :=
  {| image_files := image_files w;
     output_folder := output_folder w;
     file_list := file_list w;
     output_folder_label := output_folder_label w;
     output_folder_tooltip := output_folder_tooltip w;
     status_text := [];
     boxes := boxes w;
     convert_btn_enabled := false;
     progress_bar_visible := true;
     progress_bar_value := 0 |}.

Definition start (w : MainWindow) (s : Settings) (output_file : string)
  : MainWindow * option Started :=
  (prepare w,
   Some {| started_files := image_files w;
           started_output := output_file;
           started_per_page := images_per_page_spin s;
           started_page_size := page_sizes (page_size_combo s);
           started_high_quality := high_quality_cb s |}).

(** [None]: the fuel did not suffice for the search of a free name. *)
Definition convert_files (fuel : nat) (w : MainWindow) (s : Settings)
  : option (MainWindow * option Started) :=
  match image_files w with
  | [] => Some (show_box w WarnungKeineDateien, None)
  | _ :: _ =>
      if negb (String.eqb (output_folder w) "") then
        match free_output_file fuel (output_folder w) 1
                (path_join fs (output_folder w) (base_name ++ ".pdf")) with
        | None => None
        | Some output_file =>
            let w := log_message w (Ausgabedatei (basename env output_file)) in
            Some (start w s output_file)
        end
      else
        let output_file := save_file_name s in
        if String.eqb output_file "" then Some (w, None)
        else Some (start w s output_file)
  end.

(** What the user does with the window before pressing the button. *)
Inductive Action : Type :=
| SelectFiles (files : list string)
| SelectFolder (folder : string)
| ClearFiles
| SelectOutputFolder (folder : string).

Definition perform (w : MainWindow) (a : Action) : MainWindow :=
  match a with
  | SelectFiles files => select_files w files
  | SelectFolder folder => select_folder w folder
  | ClearFiles => clear_files w
  | SelectOutputFolder folder => select_output_folder w folder
  end.

Definition after (actions : list Action) : MainWindow :=
  fold_left perform actions init.

End Slots.
End Window.

Definition v2_patterns : list string := ["*.svg"; "*.png"; "*.jpg"; "*.jpeg"; "*.webp"].
Definition svg_patterns : list string := ["*.svg"].

Definition v2_converter (s : Window.Started) : V2.ImageToPDFConverter :=
  {| V2.image_files := Window.started_files s;
     V2.output_path := Window.started_output s;
     V2.images_per_page := Window.started_per_page s;
     V2.page_size := Window.started_page_size s;
     V2.high_quality := Window.started_high_quality s |}.

Definition svg_converter (s : Window.Started) : Svg.SVGToPDFConverter :=
  {| Svg.svg_files := Window.started_files s;
     Svg.output_path := Window.started_output s;
     Svg.images_per_page := Window.started_per_page s;
     Svg.page_size := Window.started_page_size s;
     Svg.high_quality := Window.started_high_quality s |}.

(** A file system for the examples: two files exist in the output folder. *)
Definition fs0 : Fs := {|
  glob := fun folder pattern =>
    if String.eqb pattern "*.svg" then ["in/a.svg"; "in/b.svg"]
    else if String.eqb pattern "*.png" then ["in/p.png"] else [];
  path_exists := fun p =>
    in_list p ["out/converted_images.pdf"; "out/converted_images_001.pdf"];
  path_join := fun a b => (a ++ "/" ++ b)%string
|}.

(** The list without its repetitions, by recursion on the list: the head
    stays, its later copies go. [dict_fromkeys] is compared with it. *)
Fixpoint first_seen (l : list string) : list string :=
  match l with
  | [] => []
  | x :: l' => x :: filter (fun y => negb (String.eqb y x)) (first_seen l')
  end.

Definition absent (acc : list string) (y : string) : bool := negb (in_list y acc).

(** The widget and the file list agree: no file twice, at least as many
    names shown as files listed, the names shown being the base names of
    the files. *)
Definition shown_as_listed (env : Env) (w : Window.MainWindow) : Prop :=
  NoDup (Window.image_files w) /\
  (List.length (Window.image_files w) <= List.length (Window.file_list w))%nat /\
  forall b, In b (Window.file_list w)
            <-> exists f, In f (Window.image_files w) /\ b = basename env f.

(** ** More ways to read a trace *)

Definition only (P : Event -> bool) {A} (m : M A) : Prop :=
  Forall (fun e => P e = true) (events m).

(** What the turn of one image may emit: drawing calls, the three messages
    about a file, a progress value. *)
Definition turn_event (e : Event) : bool :=
  match e with
  | SetPageCompression _ | RenderDraw _ _ _ _ | DrawImage _ _ _ _ _ => true
  | status_updated (Verarbeitet _ _ _) | status_updated (Uebersprungen _)
  | status_updated (Fehler _ _) => true
  | progress_updated _ => true
  | _ => false
  end.

(** What the two loops may emit: the above, the page messages, [showPage]. *)
Definition loop_event (e : Event) : bool :=
  match e with
  | ShowPage | status_updated (VerarbeiteSeite _) => true
  | _ => turn_event e
  end.

Definition is_finished (e : Event) : bool :=
  match e with finished_signal _ _ => true | _ => false end.

(** The page numbers announced on the status channel. *)
Definition page_msgs_of (t : list Event) : list Z :=
  flat_map (fun e => match e with
                     | status_updated (VerarbeiteSeite k) => [k]
                     | _ => []
                     end) t.

(** The files drawn, in the order of the drawing calls. *)
Definition drawn_files (t : list Event) : list string :=
  flat_map (fun e => match e with
                     | RenderDraw f _ _ _ | DrawImage f _ _ _ _ => [f]
                     | _ => []
                     end) t.

Definition drawn (try_body : Z -> Z -> string -> M control)
    (slot : Z * string) : bool :=
  let '(i, f) := slot in
  let '(row, col) := grid_slot i in
  match drawn_files (events (try_body row col f)) with
  | [] => false
  | _ :: _ => true
  end.

(** The page numbers where the page loop starts its turns. *)
Definition page_starts (files : list string) (images_per_page : Z) : list Z :=
  if 0 <? images_per_page
  then range_up (Z.to_nat (total_files files)) 0 (total_files files) images_per_page
  else range_down (Z.to_nat (0 - total_files files)) 0 (total_files files)
         images_per_page.

(** How [run] ends when [range] rejects a step of 0. *)
Definition range_failure : Event :=
  finished_signal false
    "Fehler bei der Konvertierung: range() arg 3 must not be zero".

(** A run returns normally and sends the completion signal once, as the
    last thing it does. *)
Definition ends_with_one_signal (m : M unit) : Prop :=
  outcome m = Ok tt /\
  exists t b msg,
    events m = t ++ [finished_signal b msg] /\ filter is_finished t = [].

(** A drawing call of the turn of file [f] at [place]ment [p]. *)
Definition draws_at (f : string) (p : Placement) (e : Event) : Prop :=
  e = RenderDraw f (scale p) (centered_x p) (centered_y p) \/
  e = DrawImage f (centered_x p) (centered_y p) (scaled_width p) (scaled_height p).

Definition is_draw (e : Event) : bool :=
  match e with
  | RenderDraw _ _ _ _ | DrawImage _ _ _ _ _ => true
  | _ => false
  end.

(** The drawing calls of a trace: none, or one call for [f] at the placement
    that [place] computed. *)
Definition one_draw (f : string) (placed : result Placement) (t : list Event)
  : Prop :=
  filter is_draw t = [] \/
  exists p e, placed = Ok p /\ draws_at f p e /\ filter is_draw t = [e].

(** An environment in which every SVG reports a width of 0. *)
Definition env_flat : Env := {|
  suffix_lower := fun _ => ".svg";
  basename := fun f => f;
  svg2rlg := fun _ => Ok (Some {| width := 0; height := 50 |});
  ImageReader_getSize := fun _ => Ok (40, 30);
  renderPDF_draw := fun _ _ _ _ => Ok tt;
  drawImage := fun _ _ _ _ _ => Ok tt;
  canvas_save := fun _ => Ok tt
|}.

(** The files named by the status messages about single files (processed,
    skipped, failed), in order. *)
Definition file_msgs_of (t : list Event) : list string :=
  flat_map (fun e => match e with
                     | status_updated (Verarbeitet b _ _)
                     | status_updated (Uebersprungen b)
                     | status_updated (Fehler b _) => [b]
                     | _ => []
                     end) t.

(** In image_2_pdf.py a file is reported unless [svg2rlg] returns no
    drawing object. *)
Definition reported (env : Env) (f : string) : bool :=
  match svg2rlg env f with
  | Ok None => false
  | _ => true
  end.

(** * Properties *)

(** ** The monad *)

Lemma events_bind {A B} (m : M A) (f : A -> M B) :
  events (bind m f) =
  events m ++ match outcome m with Ok a => events (f a) | Raise _ => [] end.
Proof.
  destruct m as [t [a | e]]; simpl.
  - destruct (f a); reflexivity.
  - now rewrite app_nil_r.
Qed.

Lemma outcome_bind {A B} (m : M A) (f : A -> M B) :
  outcome (bind m f) =
  match outcome m with Ok a => outcome (f a) | Raise e => Raise e end.
Proof.
  destruct m as [t [a | e]]; simpl; [destruct (f a) |]; reflexivity.
Qed.

Lemma M_eta {A} (m : M A) : m = (events m, outcome m).
Proof. now destruct m. Qed.

Lemma bind_Ok {A B} (m : M A) (f : A -> M B) (a : A) :
  outcome m = Ok a ->
  bind m f = (events m ++ events (f a), outcome (f a)).
Proof.
  intros H. rewrite (M_eta (bind m f)), events_bind, outcome_bind, H. reflexivity.
Qed.

(** ** Rational arithmetic of the scale *)

Lemma py_min_Qmin (a b : Q) : py_min a b = Qmin a b.
Proof.
  unfold py_min, Qmin, GenericMinMax.gmin.
  rewrite <- (Qcompare_antisym a b). now destruct (a ?= b)%Q.
Qed.

Lemma py_max_Qmax (a b : Q) : py_max a b = Qmax a b.
Proof.
  unfold py_max, Qmax, GenericMinMax.gmax.
  rewrite <- (Qcompare_antisym a b). now destruct (a ?= b)%Q.
Qed.

(** The high quality adjustment of image_2_pdf.py leaves the scale as it is. *)
Lemma upscale_adjustment_id (s : Q) : py_max s (py_min 2 s) = s.
Proof.
  unfold py_max, py_min.
  destruct (s ?= 2)%Q eqn:E.
  - now rewrite <- (Qcompare_antisym s 2), E.
  - now destruct (s ?= s)%Q.
  - now rewrite <- (Qcompare_antisym s 2), E.
Qed.

Lemma truediv_ok (a b : Q) : ~ (b == 0)%Q -> py_truediv a b = ([], Ok (a / b)%Q).
Proof.
  intros H. unfold py_truediv.
  destruct (Qeq_bool b 0) eqn:E; [|reflexivity].
  apply Qeq_bool_iff in E. contradiction.
Qed.

(** Halves and thirds are written as divisions in the code; [lra] wants
    them as constants. *)
Ltac qdiv_consts :=
  unfold Qdiv in *;
  change (/ 2)%Q with (1 # 2)%Q in *;
  change (/ inject_Z cols)%Q with (1 # 3)%Q in *;
  change (/ inject_Z rows)%Q with (1 # 3)%Q in *.

Ltac qlra := qdiv_consts; lra.

Section FitScale.
Variables a b w h : Q.
Hypothesis Hw : (0 < w)%Q.
Hypothesis Hh : (0 < h)%Q.

Let s : Q := Qmin (a / w) (b / h).

Lemma fit_width : (w * s <= a)%Q.
Proof.
  assert (E : (w * (a / w) == a)%Q) by (apply Qmult_div_r; lra).
  apply Qle_trans with (w * (a / w))%Q; [| rewrite E; apply Qle_refl].
  apply Qmult_le_l; [assumption | apply Q.le_min_l].
Qed.

Lemma fit_height : (h * s <= b)%Q.
Proof.
  assert (E : (h * (b / h) == b)%Q) by (apply Qmult_div_r; lra).
  apply Qle_trans with (h * (b / h))%Q; [| rewrite E; apply Qle_refl].
  apply Qmult_le_l; [assumption | apply Q.le_min_r].
Qed.

Lemma fit_positive : (0 < a)%Q -> (0 < b)%Q -> (0 < s)%Q.
Proof.
  intros Ha Hb. unfold s.
  assert (0 < a / w)%Q by (apply Qlt_shift_div_l; lra).
  assert (0 < b / h)%Q by (apply Qlt_shift_div_l; lra).
  destruct (Q.min_spec (a / w) (b / h)) as [[_ E] | [_ E]]; rewrite E; assumption.
Qed.
End FitScale.

(** What [place] computes when both intrinsic sizes are not zero. *)
Lemma V2_place_eq (self : V2.ImageToPDFConverter) (row col : Z) (w h : Q) :
  ~ (w == 0)%Q -> ~ (h == 0)%Q ->
  V2.place self row col w h =
  ([], Ok (let s := Qmin (V2.cell_width self / w) (V2.cell_height self / h) in
           {| scale := s;
              scaled_width := (w * s)%Q;
              scaled_height := (h * s)%Q;
              centered_x :=
                (inject_Z col * V2.cell_width self
                 + (V2.cell_width self - w * s) / 2)%Q;
              centered_y :=
                ((V2.page_height self - (inject_Z row + 1) * V2.cell_height self)
                 + (V2.cell_height self - h * s) / 2)%Q |})).
Proof.
  intros Hw Hh. unfold V2.place.
  rewrite (truediv_ok _ _ Hw), (truediv_ok _ _ Hh). simpl.
  now rewrite py_min_Qmin.
Qed.

Lemma Svg_place_eq (self : Svg.SVGToPDFConverter) (x y : Q) (w h : Q) :
  ~ (w == 0)%Q -> ~ (h == 0)%Q ->
  Svg.place self x y w h =
  ([], Ok (let s := Qmin ((Svg.cell_width self - 10) / w)
                         ((Svg.cell_height self - 10) / h) in
           {| scale := s;
              scaled_width := (w * s)%Q;
              scaled_height := (h * s)%Q;
              centered_x := (x + (Svg.cell_width self - w * s) / 2)%Q;
              centered_y := (y + (Svg.cell_height self - h * s) / 2)%Q |})).
Proof.
  intros Hw Hh. unfold Svg.place.
  rewrite (truediv_ok _ _ Hw), (truediv_ok _ _ Hh). simpl.
  destruct (Svg.high_quality self).
  - now rewrite upscale_adjustment_id, py_min_Qmin.
  - now rewrite py_min_Qmin.
Qed.

(** ** Scale and fit *)



(** C4, evaluated: in image_2_pdf.py with high quality set, a 10 x 10 image
    on an A4 page is drawn at its fit scale, about 17.5 and not at most 2;
    [max(scale, min(2.0, scale))] is [scale]. *)
Theorem C4_upscale_adjustment_does_not_clamp :
  let sv := svg_a4 ["a.svg"] 9 true in
  let fit := Qmin ((Svg.cell_width sv - 10) / 10) ((Svg.cell_height sv - 10) / 10) in
  (1 < fit)%Q /\
  exists p,
    Svg.place sv (Svg.cell_x sv 0) (Svg.cell_y sv 0) 10 10 = ([], Ok p) /\
    (scale p == fit)%Q /\ (2 < scale p)%Q /\ (17 < scale p)%Q.
Proof.
  intros sv fit. split; [reflexivity |].
  eexists. split; [apply Svg_place_eq; discriminate |].
  cbn [scale]. repeat split; reflexivity.
Qed.

(** ** Centring *)

Lemma V2_place_centered (self : V2.ImageToPDFConverter) (row col : Z) (w h : Q)
    (p : Placement) :
  V2.place self row col w h = ([], Ok p) ->
  centered_x p = (V2.cell_x self col + (V2.cell_width self - scaled_width p) / 2)%Q /\
  centered_y p = (V2.cell_y self row + (V2.cell_height self - scaled_height p) / 2)%Q.
Proof.
  unfold V2.place, py_truediv.
  destruct (Qeq_bool w 0); [discriminate |].
  destruct (Qeq_bool h 0); [discriminate |].
  simpl. intros E. injection E as <-. split; reflexivity.
Qed.

Lemma Svg_place_centered (self : Svg.SVGToPDFConverter) (x y w h : Q)
    (p : Placement) :
  Svg.place self x y w h = ([], Ok p) ->
  centered_x p = (x + (Svg.cell_width self - scaled_width p) / 2)%Q /\
  centered_y p = (y + (Svg.cell_height self - scaled_height p) / 2)%Q.
Proof.
  unfold Svg.place, py_truediv.
  destruct (Qeq_bool w 0); [discriminate |].
  destruct (Qeq_bool h 0); [discriminate |].
  simpl. intros E. injection E as <-. split; reflexivity.
Qed.

(** C5. Every placement is centred in its cell on each axis: the middle of
    the scaled image is the middle of the cell, exactly, in rational
    arithmetic; in both converters. *)
Theorem C5_placement_centered_in_cell :
  forall (v2 : V2.ImageToPDFConverter) (sv : Svg.SVGToPDFConverter)
         (row col : Z) (w h : Q) (p q : Placement),
    V2.place v2 row col w h = ([], Ok p) ->
    Svg.place sv (Svg.cell_x sv col) (Svg.cell_y sv row) w h = ([], Ok q) ->
    ((centered_x p + scaled_width p / 2 ==
      V2.cell_x v2 col + V2.cell_width v2 / 2)%Q /\
     (centered_y p + scaled_height p / 2 ==
      V2.cell_y v2 row + V2.cell_height v2 / 2)%Q) /\
    ((centered_x q + scaled_width q / 2 ==
      Svg.cell_x sv col + Svg.cell_width sv / 2)%Q /\
     (centered_y q + scaled_height q / 2 ==
      Svg.cell_y sv row + Svg.cell_height sv / 2)%Q).
Proof.
  intros v2 sv row col w h p q Hp Hq.
  destruct (V2_place_centered _ _ _ _ _ _ Hp) as [Ex Ey].
  destruct (Svg_place_centered _ _ _ _ _ _ Hq) as [Fx Fy].
  rewrite Ex, Ey, Fx, Fy. repeat split; qlra.
Qed.

Lemma C5_witness :
  exists p q,
    V2.place (v2_a4 ["a.svg"] 9) 0 1 100 50 = ([], Ok p) /\
    (centered_x p + scaled_width p / 2 ==
     V2.cell_x (v2_a4 ["a.svg"] 9) 1 + V2.cell_width (v2_a4 ["a.svg"] 9) / 2)%Q /\
    (centered_y q + scaled_height q / 2 ==
     Svg.cell_y (svg_a4 ["a.svg"] 9 true) 0
     + Svg.cell_height (svg_a4 ["a.svg"] 9 true) / 2)%Q.
Proof.
  assert (Hp := V2_place_eq (v2_a4 ["a.svg"] 9) 0 1 100 50
                  ltac:(discriminate) ltac:(discriminate)).
  assert (Hq := Svg_place_eq (svg_a4 ["a.svg"] 9 true)
                  (Svg.cell_x (svg_a4 ["a.svg"] 9 true) 1)
                  (Svg.cell_y (svg_a4 ["a.svg"] 9 true) 0) 100 50
                  ltac:(discriminate) ltac:(discriminate)).
  destruct (C5_placement_centered_in_cell _ _ _ _ _ _ _ _ Hp Hq) as [[Vx _] [_ Sy]].
  eexists. eexists. split; [exact Hp |]. split; [exact Vx | exact Sy].
Defined.

(** ** Slots beyond the 3 x 3 grid *)

Lemma inject_Z_bounds (lo hi n : Z) :
  lo <= n <= hi -> (inject_Z lo <= inject_Z n <= inject_Z hi)%Q.
Proof. intros [H1 H2]. split; rewrite <- Zle_Qle; assumption. Qed.

Section V2Grid.
Variable self : V2.ImageToPDFConverter.
Variables (row col : Z) (w h : Q) (p : Placement).
Hypothesis Hpw : (0 < V2.page_width self)%Q.
Hypothesis Hph : (0 < V2.page_height self)%Q.
Hypothesis Hw : (0 < w)%Q.
Hypothesis Hh : (0 < h)%Q.
Hypothesis Hp : V2.place self row col w h = ([], Ok p).

Let cw := V2.cell_width self.
Let ch := V2.cell_height self.

Lemma V2_cell_sizes :
  (3 * cw == V2.page_width self)%Q /\ (3 * ch == V2.page_height self)%Q.
Proof.
  unfold cw, ch, V2.cell_width, V2.cell_height, V2.available_width,
    V2.available_height.
  split; qlra.
Qed.

Lemma V2_scaled_bounds :
  (0 < scaled_width p <= cw)%Q /\ (0 < scaled_height p <= ch)%Q.
Proof.
  destruct V2_cell_sizes as [Ew Eh].
  rewrite V2_place_eq in Hp by lra.
  injection Hp as <-. cbn [scaled_width scaled_height].
  pose proof (fit_width cw ch w h Hw).
  pose proof (fit_height cw ch w h Hh).
  assert (0 < Qmin (cw / w) (ch / h))%Q by (apply fit_positive; lra).
  repeat split; try assumption; apply Qmult_lt_0_compat; assumption.
Qed.

Lemma V2_cell_y_below : 3 <= row -> (V2.cell_y self row <= - ch)%Q.
Proof.
  intros Hr. destruct V2_cell_sizes as [_ Eh].
  rewrite Zle_Qle in Hr. change (inject_Z 3) with 3%Q in Hr.
  assert (0 <= (inject_Z row - 3) * ch)%Q
    by (apply Qmult_le_0_compat; fold ch in Eh; lra).
  unfold V2.cell_y. fold ch. lra.
Qed.

Lemma V2_cell_y_above : 0 <= row <= 2 -> (0 <= V2.cell_y self row)%Q.
Proof.
  intros Hr. destruct V2_cell_sizes as [_ Eh].
  apply (inject_Z_bounds 0 2) in Hr. change (inject_Z 2) with 2%Q in Hr.
  assert (0 <= (2 - inject_Z row) * ch)%Q
    by (apply Qmult_le_0_compat; fold ch in Eh; lra).
  unfold V2.cell_y. fold ch. lra.
Qed.

Lemma V2_overflow_below_page : 3 <= row -> (centered_y p < 0)%Q.
Proof.
  intros Hr. pose proof (V2_cell_y_below Hr).
  destruct V2_scaled_bounds as [_ [Hs _]].
  destruct (V2_place_centered _ _ _ _ _ _ Hp) as [_ Ey]. rewrite Ey.
  fold ch. destruct V2_cell_sizes as [_ Eh]. qlra.
Qed.

Lemma V2_in_grid_area :
  0 <= row <= 2 -> 0 <= col <= 2 ->
  inside p 0 0 (V2.available_width self) (V2.available_height self).
Proof.
  intros Hr Hc.
  destruct V2_scaled_bounds as [[Hs1 Hs2] [Hs3 Hs4]].
  destruct V2_cell_sizes as [Ew Eh].
  destruct (V2_place_centered _ _ _ _ _ _ Hp) as [Ex Ey].
  apply (inject_Z_bounds 0 2) in Hr, Hc.
  change (inject_Z 2) with 2%Q in *. change (inject_Z 0) with 0%Q in *.
  assert (0 <= (2 - inject_Z row) * ch)%Q by (apply Qmult_le_0_compat; lra).
  assert (0 <= inject_Z row * ch)%Q by (apply Qmult_le_0_compat; lra).
  assert (0 <= (2 - inject_Z col) * cw)%Q by (apply Qmult_le_0_compat; lra).
  assert (0 <= inject_Z col * cw)%Q by (apply Qmult_le_0_compat; lra).
  unfold inside. rewrite Ex, Ey.
  unfold V2.cell_x, V2.cell_y, V2.available_width, V2.available_height.
  fold cw ch. repeat split; qlra.
Qed.
End V2Grid.

Section SvgGrid.
Variable self : Svg.SVGToPDFConverter.
Variables (row col : Z) (w h : Q) (p : Placement).
Hypothesis Hpw : (70 < Svg.page_width self)%Q.
Hypothesis Hph : (70 < Svg.page_height self)%Q.
Hypothesis Hw : (0 < w)%Q.
Hypothesis Hh : (0 < h)%Q.
Hypothesis Hp :
  Svg.place self (Svg.cell_x self col) (Svg.cell_y self row) w h = ([], Ok p).

Let cw := Svg.cell_width self.
Let ch := Svg.cell_height self.

Lemma Svg_cell_sizes :
  (3 * cw == Svg.page_width self - 40)%Q /\
  (3 * ch == Svg.page_height self - 40)%Q.
Proof.
  unfold cw, ch, Svg.cell_width, Svg.cell_height, Svg.available_width,
    Svg.available_height, Svg.margin.
  split; qlra.
Qed.

Lemma Svg_scaled_bounds :
  (0 < scaled_width p <= cw - 10)%Q /\ (0 < scaled_height p <= ch - 10)%Q.
Proof.
  destruct Svg_cell_sizes as [Ew Eh].
  rewrite Svg_place_eq in Hp by lra.
  injection Hp as <-. cbn [scaled_width scaled_height].
  pose proof (fit_width (cw - 10) (ch - 10) w h Hw).
  pose proof (fit_height (cw - 10) (ch - 10) w h Hh).
  assert (0 < Qmin ((cw - 10) / w) ((ch - 10) / h))%Q
    by (apply fit_positive; lra).
  repeat split; try assumption; apply Qmult_lt_0_compat; assumption.
Qed.

Lemma Svg_cell_y_below :
  3 <= row -> (Svg.cell_y self row <= Svg.margin - ch)%Q.
Proof.
  intros Hr. destruct Svg_cell_sizes as [_ Eh].
  rewrite Zle_Qle in Hr. change (inject_Z 3) with 3%Q in Hr.
  assert (0 <= (inject_Z row - 3) * ch)%Q
    by (apply Qmult_le_0_compat; fold ch in Eh; lra).
  unfold Svg.cell_y, Svg.margin. fold ch. lra.
Qed.

Lemma Svg_cell_y_above : 0 <= row <= 2 -> (Svg.margin <= Svg.cell_y self row)%Q.
Proof.
  intros Hr. destruct Svg_cell_sizes as [_ Eh].
  apply (inject_Z_bounds 0 2) in Hr. change (inject_Z 2) with 2%Q in Hr.
  assert (0 <= (2 - inject_Z row) * ch)%Q
    by (apply Qmult_le_0_compat; fold ch in Eh; lra).
  unfold Svg.cell_y, Svg.margin. fold ch. lra.
Qed.

Lemma Svg_overflow_below_grid : 3 <= row -> (centered_y p < Svg.margin)%Q.
Proof.
  intros Hr. pose proof (Svg_cell_y_below Hr).
  destruct Svg_scaled_bounds as [_ [Hs _]].
  destruct (Svg_place_centered _ _ _ _ _ _ Hp) as [_ Ey]. rewrite Ey.
  fold ch. destruct Svg_cell_sizes as [_ Eh]. qlra.
Qed.

Lemma Svg_in_grid_area :
  0 <= row <= 2 -> 0 <= col <= 2 ->
  inside p Svg.margin Svg.margin
    (Svg.available_width self) (Svg.available_height self).
Proof.
  intros Hr Hc.
  destruct Svg_scaled_bounds as [[Hs1 Hs2] [Hs3 Hs4]].
  destruct Svg_cell_sizes as [Ew Eh].
  destruct (Svg_place_centered _ _ _ _ _ _ Hp) as [Ex Ey].
  apply (inject_Z_bounds 0 2) in Hr, Hc.
  change (inject_Z 2) with 2%Q in *. change (inject_Z 0) with 0%Q in *.
  assert (0 <= (2 - inject_Z row) * ch)%Q by (apply Qmult_le_0_compat; lra).
  assert (0 <= inject_Z row * ch)%Q by (apply Qmult_le_0_compat; lra).
  assert (0 <= (2 - inject_Z col) * cw)%Q by (apply Qmult_le_0_compat; lra).
  assert (0 <= inject_Z col * cw)%Q by (apply Qmult_le_0_compat; lra).
  unfold inside. rewrite Ex, Ey.
  unfold Svg.cell_x, Svg.cell_y, Svg.available_width, Svg.available_height,
    Svg.margin in *.
  fold cw ch. repeat split; qlra.
Qed.
End SvgGrid.

Lemma grid_slot_in_grid (i : Z) :
  0 <= i <= 8 -> 0 <= i / cols <= 2 /\ 0 <= i mod cols <= 2.
Proof.
  intros H. unfold cols. split.
  - split; [apply Z.div_pos; lia |].
    assert (i / 3 < 3) by (apply Z.div_lt_upper_bound; lia). lia.
  - pose proof (Z.mod_pos_bound i 3). lia.
Qed.



(** ** Grid slots *)

Lemma enumerate_from_nth {A} (l : list A) :
  forall (s : Z) (n : nat) (i : Z) (x : A),
    nth_error (enumerate_from s l) n = Some (i, x) ->
    i = s + Z.of_nat n /\ nth_error l n = Some x.
Proof.
  induction l as [| y l IH]; intros s n i x H.
  - destruct n; discriminate.
  - destruct n as [| n]; simpl in H.
    + injection H as <- <-. split; [lia | reflexivity].
    + apply IH in H. destruct H as [-> H]. split; [lia | exact H].
Qed.

Lemma grid_slot_injective (i j : Z) : grid_slot i = grid_slot j -> i = j.
Proof.
  unfold grid_slot, cols. intros H. injection H as Hd Hm.
  rewrite (Z.div_mod i 3), (Z.div_mod j 3) by lia. now rewrite Hd, Hm.
Qed.

(** C6. The image at position [n] of a page batch has in-batch index [n]
    and is assigned the slot [row = n div 3], [col = n mod 3]; two images of
    one batch with the same slot are the same image. *)
Theorem C6_slot_assignment_injective :
  forall (page_files : list string) (n m : nat) (i j : Z) (f g : string),
    nth_error (enumerate page_files) n = Some (i, f) ->
    nth_error (enumerate page_files) m = Some (j, g) ->
    i = Z.of_nat n /\
    grid_slot i = (i / 3, i mod 3) /\
    (grid_slot i = grid_slot j -> n = m).
Proof.
  intros page_files n m i j f g Hn Hm.
  apply enumerate_from_nth in Hn. apply enumerate_from_nth in Hm.
  destruct Hn as [-> _]. destruct Hm as [-> _].
  split; [reflexivity |]. split; [reflexivity |].
  intros H. apply grid_slot_injective in H. lia.
Qed.

Lemma C6_witness :
  grid_slot 4 = (4 / 3, 4 mod 3) /\ (grid_slot 4 = grid_slot 1 -> 4%nat = 1%nat).
Proof.
  exact (proj2 (C6_slot_assignment_injective ["a"; "b"; "c"; "d"; "e"]
                  4 1 4 1 "e" "b" eq_refl eq_refl)).
Defined.

(** ** The loops *)

Lemma bind_pair_Ok {A B} (t : list Event) (a : A) (f : A -> M B) :
  bind (t, Ok a) f = (t ++ events (f a), outcome (f a)).
Proof. simpl. now destruct (f a). Qed.

Lemma completed_cons tb (slot : Z * string) (l : list (Z * string)) :
  completed tb (slot :: l) = completed tb [slot] + completed tb l.
Proof.
  unfold completed. cbn [filter]. destruct (completes tb slot); cbn [List.length]; lia.
Qed.

Lemma completed_app tb (l l' : list (Z * string)) :
  completed tb (l ++ l') = completed tb l + completed tb l'.
Proof.
  unfold completed. rewrite filter_app, length_app. lia.
Qed.

Lemma completed_bounds tb (l : list (Z * string)) :
  0 <= completed tb l <= Z.of_nat (List.length l).
Proof.
  unfold completed. pose proof (filter_length_le (completes tb) l). lia.
Qed.

Section LoopFacts.
Variable env : Env.
Variable try_body : Z -> Z -> string -> M control.
Variable files : list string.
Variable images_per_page : Z.
Hypothesis Hfiles : files <> [].

Lemma total_files_pos : 0 < total_files files.
Proof.
  unfold total_files, py_len. destruct files; [contradiction | simpl; lia].
Qed.

Lemma progress_eq (k : Z) :
  progress files k = ([], Ok (percent (total_files files) k)).
Proof.
  unfold progress. rewrite truediv_ok; [reflexivity |].
  pose proof total_files_pos as H. intros E.
  rewrite Zlt_Qlt in H. rewrite E in H. revert H. apply Qlt_irrefl.
Qed.

(** The three ways one turn of the image loop ends. *)
Lemma loop_body_eq (i : Z) (f : string) (fp : Z) :
  loop_body env try_body files i f fp =
  match outcome (try_body (i / cols) (i mod cols) f) with
  | Ok Normal =>
      (events (try_body (i / cols) (i mod cols) f)
       ++ [progress_updated (percent (total_files files) (fp + 1))],
       Ok (fp + 1))
  | Ok Continue => (events (try_body (i / cols) (i mod cols) f), Ok fp)
  | Raise e =>
      (events (try_body (i / cols) (i mod cols) f)
       ++ [status_updated (Fehler (basename env f) e)],
       Ok fp)
  end.
Proof.
  unfold loop_body, grid_slot.
  destruct (try_body (i / cols) (i mod cols) f) as [t [[|] | e]];
    cbn [try_except outcome events fst snd].
  - rewrite bind_pair_Ok, progress_eq. reflexivity.
  - rewrite bind_pair_Ok. cbn. now rewrite app_nil_r.
  - cbn. now rewrite app_nil_r.
Qed.

Lemma loop_body_outcome (i : Z) (f : string) (fp : Z) :
  outcome (loop_body env try_body files i f fp)
  = Ok (fp + completed try_body [(i, f)]).
Proof.
  rewrite loop_body_eq. unfold completed. cbn [filter completes grid_slot].
  destruct (outcome (try_body (i / cols) (i mod cols) f)) as [[|] | e];
    cbn; f_equal; lia.
Qed.

Lemma image_loop_eq (l : list (Z * string)) :
  forall fp,
    image_loop env try_body files l fp
    = (loop_trace env try_body files l fp, Ok (fp + completed try_body l)).
Proof.
  induction l as [| [i f] l IH]; intros fp.
  - cbn [image_loop loop_trace]. unfold ret.
    change (completed try_body []) with 0. now rewrite Z.add_0_r.
  - cbn [image_loop loop_trace].
    rewrite (bind_Ok _ _ _ (loop_body_outcome i f fp)), IH.
    cbn [events outcome fst snd turn_trace].
    rewrite (completed_cons try_body (i, f) l). do 2 f_equal. lia.
Qed.

Lemma page_body_eq (page_num fp : Z) :
  page_body env try_body files images_per_page page_num fp
  = (status_updated (VerarbeiteSeite (page_num / images_per_page + 1))
     :: (if 0 <? page_num then [ShowPage] else [])
     ++ loop_trace env try_body files (batch files images_per_page page_num) fp,
     Ok (fp + completed try_body (batch files images_per_page page_num))).
Proof.
  unfold page_body, batch. rewrite image_loop_eq.
  destruct (0 <? page_num); reflexivity.
Qed.

Lemma page_loop_eq (page_nums : list Z) :
  forall fp,
    page_loop env try_body files images_per_page page_nums fp
    = (pages_trace env try_body files images_per_page page_nums fp,
       Ok (fp + completed try_body (slots_of files images_per_page page_nums))).
Proof.
  induction page_nums as [| page_num rest IH]; intros fp.
  - cbn [page_loop pages_trace slots_of flat_map]. unfold ret.
    change (completed try_body []) with 0. now rewrite Z.add_0_r.
  - cbn [page_loop pages_trace slots_of flat_map].
    rewrite page_body_eq, bind_pair_Ok, IH.
    cbn [events outcome fst snd].
    fold (batch files images_per_page page_num).
    rewrite completed_app. f_equal.
    + rewrite <- app_comm_cons. f_equal. now rewrite <- app_assoc.
    + f_equal. fold (slots_of files images_per_page rest). lia.
Qed.

Lemma convert_loop_eq :
  0 < images_per_page ->
  convert_loop env try_body files images_per_page
  = (pages_trace env try_body files images_per_page
       (range_up (Z.to_nat (total_files files)) 0 (total_files files)
          images_per_page) 0,
     Ok (completed try_body (slots files images_per_page))).
Proof.
  intros Hpos. unfold convert_loop, py_range.
  destruct (Z.eqb_spec images_per_page 0) as [E | _]; [lia |].
  destruct (Z.ltb_spec 0 images_per_page) as [_ | E]; [| lia].
  rewrite Z.sub_0_r. unfold ret at 1. rewrite bind_pair_Ok, page_loop_eq.
  reflexivity.
Qed.
End LoopFacts.

(** ** Progress values *)

Lemma py_int_floor (q : Q) : (0 <= q)%Q -> py_int q = Qfloor q.
Proof.
  destruct q as [n d]. unfold Qle, py_int, Qfloor. cbn [Qnum Qden].
  intros H. apply Z.quot_div_nonneg; lia.
Qed.

Lemma percent_eq (total k : Z) :
  0 < total -> 0 <= k -> percent total k = 100 * k / total.
Proof.
  intros Ht Hk. unfold percent.
  rewrite Zlt_Qlt in Ht. rewrite Zle_Qle in Hk.
  change (inject_Z 0) with 0%Q in *.
  rewrite py_int_floor.
  - rewrite Zdiv_Qdiv. apply Qfloor_comp.
    rewrite inject_Z_mult. change (inject_Z 100) with 100%Q. field. lra.
  - apply Qmult_le_0_compat; [| discriminate].
    apply Qle_shift_div_l; [assumption | lra].
Qed.

Lemma percent_mono (total k k' : Z) :
  0 < total -> 0 <= k <= k' -> percent total k <= percent total k'.
Proof.
  intros Ht Hk. rewrite !percent_eq by lia.
  apply Z.div_le_mono; lia.
Qed.

Lemma percent_all (total : Z) : 0 < total -> percent total total = 100.
Proof.
  intros Ht. rewrite percent_eq by lia. apply Z.div_mul. lia.
Qed.

Lemma percent_below (total k : Z) :
  0 < total -> 0 <= k < total -> percent total k < 100.
Proof.
  intros Ht Hk. rewrite percent_eq by lia.
  apply Z.div_lt_upper_bound; lia.
Qed.

Lemma zseq_In (x : Z) (n : nat) :
  forall s, In x (zseq s n) -> s <= x < s + Z.of_nat n.
Proof.
  induction n as [| n IH]; intros s H; [contradiction |].
  destruct H as [<- | H]; [lia |]. apply IH in H. lia.
Qed.

Lemma zseq_snoc (n : nat) :
  forall s, zseq s (S n) = zseq s n ++ [s + Z.of_nat n].
Proof.
  induction n as [| n IH]; intros s.
  - cbn. now rewrite Z.add_0_r.
  - change (zseq s (S (S n))) with (s :: zseq (s + 1) (S n)).
    rewrite IH. cbn [zseq app]. do 3 f_equal. lia.
Qed.

Lemma zseq_app (n m : nat) :
  forall s, zseq s (n + m) = zseq s n ++ zseq (s + Z.of_nat n) m.
Proof.
  induction n as [| n IH]; intros s.
  - cbn. now rewrite Z.add_0_r.
  - cbn [Nat.add zseq app]. rewrite IH. do 3 f_equal. lia.
Qed.

Lemma percent_zseq_sorted (total : Z) (n : nat) :
  0 < total ->
  forall s, 0 <= s -> StronglySorted Z.le (map (percent total) (zseq s n)).
Proof.
  intros Ht. induction n as [| n IH]; intros s Hs; cbn; constructor.
  - apply IH. lia.
  - apply Forall_forall. intros y Hy. apply in_map_iff in Hy.
    destruct Hy as [x [<- Hx]]. apply zseq_In in Hx.
    apply percent_mono; lia.
Qed.

(** ** Reading the trace of the loops *)

Lemma progress_of_app (a b : list Event) :
  progress_of (a ++ b) = progress_of a ++ progress_of b.
Proof. apply flat_map_app. Qed.

Lemma body_events_quiet (t : list Event) :
  Forall (fun e => body_event e = true) t ->
  progress_of t = [] /\ filter is_ShowPage t = [] /\
  forall w, fold_left writer_step t w = w.
Proof.
  induction 1 as [| e t He _ [IH1 [IH2 IH3]]]; [repeat split |].
  destruct e; try discriminate; cbn; repeat split; try assumption;
    intros w; rewrite <- (IH3 w) at 2; now destruct w.
Qed.

Section TraceFacts.
Variable env : Env.
Variable try_body : Z -> Z -> string -> M control.
Variable files : list string.
Variable images_per_page : Z.
Hypothesis Hfiles : files <> [].
Hypothesis Hbody :
  forall row col f, Forall (fun e => body_event e = true) (events (try_body row col f)).

Let N := total_files files.
Let cnt (l : list (Z * string)) : nat := List.length (filter (completes try_body) l).

Lemma turn_trace_shape (slot : Z * string) (fp : Z) :
  exists t,
    Forall (fun e => body_event e = true) t /\
    turn_trace env try_body files slot fp
    = t ++ (if completes try_body slot
            then [progress_updated (percent N (fp + 1))] else []).
Proof.
  destruct slot as [i f]. unfold turn_trace. cbn [fst snd].
  rewrite loop_body_eq by assumption. unfold completes, grid_slot.
  pose proof (Hbody (i / cols) (i mod cols) f) as Hb.
  destruct (outcome (try_body (i / cols) (i mod cols) f)) as [[|] | e];
    cbn [events fst].
  - eexists. split; [exact Hb | reflexivity].
  - eexists. split; [exact Hb | now rewrite app_nil_r].
  - eexists. split; [| now rewrite app_nil_r].
    apply Forall_app. split; [exact Hb | now constructor].
Qed.

Lemma turn_trace_facts (slot : Z * string) (fp : Z) :
  progress_of (turn_trace env try_body files slot fp)
  = map (percent N) (zseq (fp + 1) (cnt [slot])) /\
  filter is_ShowPage (turn_trace env try_body files slot fp) = [] /\
  forall w, fold_left writer_step (turn_trace env try_body files slot fp) w = w.
Proof.
  destruct (turn_trace_shape slot fp) as [t [Ht ->]].
  destruct (body_events_quiet t Ht) as [P [S W]].
  rewrite progress_of_app, filter_app, P, S. unfold cnt. cbn [filter].
  destruct (completes try_body slot); cbn; repeat split;
    intros w; rewrite fold_left_app, W; now destruct w.
Qed.

Lemma loop_trace_facts (l : list (Z * string)) :
  forall fp,
    progress_of (loop_trace env try_body files l fp)
    = map (percent N) (zseq (fp + 1) (cnt l)) /\
    filter is_ShowPage (loop_trace env try_body files l fp) = [] /\
    forall w, fold_left writer_step (loop_trace env try_body files l fp) w = w.
Proof.
  induction l as [| slot l IH]; intros fp; [repeat split |].
  cbn [loop_trace].
  destruct (turn_trace_facts slot fp) as [P [S W]].
  destruct (IH (fp + completed try_body [slot])) as [P' [S' W']].
  rewrite progress_of_app, filter_app, P, S, P', S'. repeat split.
  - change (cnt (slot :: l)) with (cnt ([slot] ++ l)).
    unfold cnt. rewrite filter_app, length_app, zseq_app, map_app.
    do 3 f_equal. unfold completed. lia.
  - intros w. now rewrite fold_left_app, W, W'.
Qed.

Lemma pages_trace_facts (page_nums : list Z) :
  forall fp,
    progress_of (pages_trace env try_body files images_per_page page_nums fp)
    = map (percent N) (zseq (fp + 1) (cnt (slots_of files images_per_page page_nums))) /\
    filter is_ShowPage (pages_trace env try_body files images_per_page page_nums fp)
    = repeat ShowPage (List.length (filter (Z.ltb 0) page_nums)) /\
    forall n,
      fold_left writer_step
        (pages_trace env try_body files images_per_page page_nums fp) (HasPage n)
      = HasPage (n + Z.of_nat (List.length (filter (Z.ltb 0) page_nums))).
Proof.
  induction page_nums as [| page_num rest IH]; intros fp.
  - repeat split. intros n. cbn. now rewrite Z.add_0_r.
  - cbn [pages_trace slots_of flat_map filter].
    fold (batch files images_per_page page_num).
    fold (slots_of files images_per_page rest).
    destruct (loop_trace_facts (batch files images_per_page page_num) fp)
      as [P [S W]].
    destruct (IH (fp + completed try_body (batch files images_per_page page_num)))
      as [P' [S' W']].
    repeat split.
    + change (status_updated ?m :: ?t) with ([status_updated m] ++ t).
      rewrite !progress_of_app, P, P'.
      replace (progress_of (if 0 <? page_num then [ShowPage] else [])) with (@nil Z)
        by now destruct (0 <? page_num).
      cbn [progress_of flat_map app].
      unfold cnt. rewrite filter_app, length_app, zseq_app, map_app.
      do 3 f_equal. unfold completed. lia.
    + cbn [filter is_ShowPage]. rewrite !filter_app, S, S'.
      now destruct (0 <? page_num).
    + intros n. cbn [fold_left writer_step].
      rewrite !fold_left_app.
      destruct (0 <? page_num); cbn [fold_left writer_step List.length];
        rewrite W, W'; f_equal; lia.
Qed.

(** Every slot gets its turn, whatever happened in the turns before. *)
Lemma loop_trace_turn (slot : Z * string) (l : list (Z * string)) :
  In slot l ->
  forall fp, exists fp' pre post,
    loop_trace env try_body files l fp
    = pre ++ turn_trace env try_body files slot fp' ++ post.
Proof.
  induction l as [| s l IH]; intros H fp; [contradiction |].
  cbn [loop_trace]. destruct H as [-> | H].
  - exists fp, [], (loop_trace env try_body files l (fp + completed try_body [slot])).
    reflexivity.
  - destruct (IH H (fp + completed try_body [s])) as [fp' [pre [post E]]].
    exists fp', (turn_trace env try_body files s fp ++ pre), post.
    rewrite E. now rewrite app_assoc.
Qed.

Lemma pages_trace_turn (slot : Z * string) (page_nums : list Z) :
  In slot (slots_of files images_per_page page_nums) ->
  forall fp, exists fp' pre post,
    pages_trace env try_body files images_per_page page_nums fp
    = pre ++ turn_trace env try_body files slot fp' ++ post.
Proof.
  induction page_nums as [| page_num rest IH]; intros H fp; [contradiction |].
  cbn [slots_of flat_map] in H. apply in_app_or in H.
  cbn [pages_trace]. destruct H as [H | H].
  - destruct (loop_trace_turn slot _ H fp) as [fp' [pre [post E]]].
    fold (batch files images_per_page page_num) in E. rewrite E.
    exists fp',
      (status_updated (VerarbeiteSeite (page_num / images_per_page + 1))
       :: (if 0 <? page_num then [ShowPage] else []) ++ pre).
    exists (post ++ pages_trace env try_body files images_per_page rest
                      (fp + completed try_body (batch files images_per_page page_num))).
    rewrite <- app_comm_cons, <- !app_assoc. reflexivity.
  - destruct (IH H (fp + completed try_body (batch files images_per_page page_num)))
      as [fp' [pre [post E]]].
    rewrite E.
    exists fp',
      (status_updated (VerarbeiteSeite (page_num / images_per_page + 1))
       :: (if 0 <? page_num then [ShowPage] else [])
       ++ loop_trace env try_body files (batch files images_per_page page_num) fp
       ++ pre).
    exists post. rewrite <- app_comm_cons, <- !app_assoc. reflexivity.
Qed.
End TraceFacts.

(** ** Page batches *)

Lemma ceil_div_nonpos (n d : Z) : 0 < d -> n <= 0 -> ceil_div n d <= 0.
Proof.
  intros Hd Hn. unfold ceil_div.
  assert ((n + d - 1) / d < 1) by (apply Z.div_lt_upper_bound; lia). lia.
Qed.

Lemma ceil_div_step (n d : Z) :
  0 < d -> 0 < n -> ceil_div n d = ceil_div (n - d) d + 1 /\ 0 <= ceil_div (n - d) d.
Proof.
  intros Hd Hn. unfold ceil_div. split.
  - replace (n + d - 1) with (n - d + d - 1 + 1 * d) by lia.
    now rewrite Z.div_add by lia.
  - apply Z.div_pos; lia.
Qed.

Lemma range_up_length (step stop : Z) (fuel : nat) :
  0 < step ->
  forall start,
    (Z.to_nat (stop - start) <= fuel)%nat ->
    List.length (range_up fuel start stop step)
    = Z.to_nat (ceil_div (stop - start) step).
Proof.
  intros Hs. induction fuel as [| fuel IH]; intros start Hf.
  - cbn. pose proof (ceil_div_nonpos (stop - start) step Hs). lia.
  - cbn [range_up]. destruct (Z.ltb_spec start stop) as [Hlt | Hge].
    + cbn [List.length]. rewrite IH by lia.
      destruct (ceil_div_step (stop - start) step Hs) as [E P]; [lia |].
      replace (stop - (start + step)) with (stop - start - step) by lia. lia.
    + cbn. pose proof (ceil_div_nonpos (stop - start) step Hs). lia.
Qed.

Lemma range_up_lower (step stop : Z) (fuel : nat) :
  0 < step ->
  forall start, Forall (fun x => start <= x) (range_up fuel start stop step).
Proof.
  intros Hs. induction fuel as [| fuel IH]; intros start; [constructor |].
  cbn [range_up]. destruct (start <? stop); constructor; [lia |].
  eapply Forall_impl; [| apply (IH (start + step))]. cbn. intros; lia.
Qed.

Lemma filter_true {A} (f : A -> bool) (l : list A) :
  Forall (fun x => f x = true) l -> filter f l = l.
Proof.
  induction 1 as [| x l Hx _ IH]; [reflexivity |]. cbn. now rewrite Hx, IH.
Qed.

(** The page loop runs [ceil(total / step)] times, and all its turns but
    the first start at a positive [page_num]. *)
Lemma range_pages (total step : Z) :
  0 < total -> 0 < step ->
  List.length (range_up (Z.to_nat total) 0 total step)
  = Z.to_nat (ceil_div total step) /\
  List.length (filter (Z.ltb 0) (range_up (Z.to_nat total) 0 total step))
  = Z.to_nat (ceil_div total step - 1) /\
  1 <= ceil_div total step.
Proof.
  intros Ht Hs.
  pose proof (range_up_length step total (Z.to_nat total) Hs 0) as L.
  rewrite Z.sub_0_r in L. specialize (L (Nat.le_refl _)).
  destruct (ceil_div_step total step Hs Ht) as [E P].
  split; [exact L |]. split; [| lia].
  destruct (Z.to_nat total) as [| fuel] eqn:F; [lia |].
  cbn [range_up] in *. destruct (Z.ltb_spec 0 total) as [_ | ?]; [| lia].
  cbn [filter]. change (0 <? 0) with false. cbn iota.
  rewrite filter_true.
  - cbn [List.length] in L. lia.
  - eapply Forall_impl; [| apply (range_up_lower step total fuel Hs (0 + step))].
    cbn. intros x Hx. apply Z.ltb_lt. lia.
Qed.

Lemma enumerate_from_snd {A} (l : list A) :
  forall s, map snd (enumerate_from s l) = l.
Proof.
  induction l as [| x l IH]; intros s; [reflexivity |]. cbn. now rewrite IH.
Qed.

Lemma slots_of_files (files : list string) (step : Z) (fuel : nat) :
  0 < step ->
  forall start,
    0 <= start ->
    (Z.to_nat (total_files files - start) <= fuel)%nat ->
    map snd (slots_of files step (range_up fuel start (total_files files) step))
    = skipn (Z.to_nat start) files.
Proof.
  intros Hs. unfold total_files, py_len.
  induction fuel as [| fuel IH]; intros start H0 Hf.
  - cbn. symmetry. apply skipn_all2. lia.
  - cbn [range_up].
    destruct (Z.ltb_spec start (Z.of_nat (List.length files))) as [Hlt | Hge].
    + cbn [slots_of flat_map]. rewrite map_app.
      fold (slots_of files step
              (range_up fuel (start + step) (Z.of_nat (List.length files)) step)).
      rewrite IH by lia.
      unfold enumerate. rewrite enumerate_from_snd. unfold py_slice.
      replace (start + step - start) with step by lia.
      replace (Z.to_nat (start + step)) with (Z.to_nat step + Z.to_nat start)%nat
        by lia.
      rewrite <- skipn_skipn. apply firstn_skipn.
    + cbn. symmetry. apply skipn_all2. lia.
Qed.

(** The slots visited are the files, each once and in order. *)
Lemma slots_files (files : list string) (step : Z) :
  0 < step -> map snd (slots files step) = files.
Proof.
  intros Hs. unfold slots.
  rewrite (slots_of_files files step _ Hs 0) by lia. reflexivity.
Qed.

(** ** The bodies of the two [try] statements *)

Lemma body_only_bind {A B} (m : M A) (f : A -> M B) :
  body_only m -> (forall a, body_only (f a)) -> body_only (bind m f).
Proof.
  unfold body_only. intros Hm Hf. rewrite events_bind. apply Forall_app.
  split; [exact Hm |]. destruct (outcome m); [apply Hf | constructor].
Qed.

Lemma body_only_silent {A} (m : M A) : events m = [] -> body_only m.
Proof. unfold body_only. intros ->. constructor. Qed.

Lemma body_only_emit (e : Event) : body_event e = true -> body_only (emit e).
Proof. intros H. repeat constructor. exact H. Qed.

Lemma body_only_call (r : result unit) (e : Event) :
  body_event e = true -> body_only (call r e).
Proof.
  intros H. unfold call. apply body_only_bind; [now apply body_only_silent |].
  intros _. now apply body_only_emit.
Qed.

Lemma truediv_silent (a b : Q) : events (py_truediv a b) = [].
Proof. unfold py_truediv. now destruct (Qeq_bool b 0). Qed.

Ltac body_step :=
  first
    [ apply body_only_bind; [| intros ? ]
    | apply body_only_call; reflexivity
    | apply body_only_emit; reflexivity
    | apply body_only_silent; first [ reflexivity | apply truediv_silent ] ].

Lemma V2_place_body (self : V2.ImageToPDFConverter) (row col : Z) (w h : Q) :
  body_only (V2.place self row col w h).
Proof. unfold V2.place. repeat body_step. Qed.

Lemma Svg_place_body (self : Svg.SVGToPDFConverter) (x y w h : Q) :
  body_only (Svg.place self x y w h).
Proof. unfold Svg.place. repeat body_step. Qed.

Lemma V2_scale_and_draw_body env self ext row col f d w h :
  body_only (V2.scale_and_draw env self ext row col f d w h).
Proof.
  unfold V2.scale_and_draw.
  apply body_only_bind; [apply V2_place_body | intros p].
  apply body_only_bind; [destruct (V2.high_quality self); body_step | intros _].
  apply body_only_bind; [| intros _; body_step].
  destruct (String.eqb ext ".svg").
  - destruct d; repeat body_step.
  - destruct (in_list ext V2.raster_suffixes); repeat body_step.
Qed.

Lemma V2_try_body_body env self row col f :
  body_only (V2.try_body env self row col f).
Proof.
  unfold V2.try_body.
  destruct (String.eqb (suffix_lower env f) ".svg").
  - apply body_only_bind; [body_step | intros d].
    destruct d as [d |]; [destruct (falsy (width d) || falsy (height d)) |];
      apply V2_scale_and_draw_body.
  - destruct (in_list (suffix_lower env f) V2.raster_suffixes).
    + apply body_only_bind; [body_step | intros [w h]].
      apply V2_scale_and_draw_body.
    + repeat body_step.
Qed.

Lemma Svg_try_body_body env self row col f :
  body_only (Svg.try_body env self row col f).
Proof.
  unfold Svg.try_body.
  apply body_only_bind; [body_step | intros d].
  destruct d as [d |]; [| body_step].
  destruct (falsy (width d) || falsy (height d)).
  - apply body_only_bind; [apply Svg_place_body | intros p].
    apply body_only_bind; [destruct (Svg.high_quality self); body_step | intros _].
    repeat body_step.
  - apply body_only_bind; [apply Svg_place_body | intros p].
    apply body_only_bind; [destruct (Svg.high_quality self); body_step | intros _].
    repeat body_step.
Qed.

(** ** The whole run *)

Lemma V2_run_eq (env : Env) (self : V2.ImageToPDFConverter) :
  V2.image_files self <> [] -> 0 < V2.images_per_page self ->
  V2.run env self =
  (CanvasNew (V2.output_path self) (V2.page_size self)
     (if V2.high_quality self then Some 1 else None)
   :: (if negb (V2.images_per_page self =? cols * rows)
       then [status_updated (Warnung (cols * rows))] else [])
   ++ pages_trace env (V2.try_body env self) (V2.image_files self)
        (V2.images_per_page self)
        (range_up (Z.to_nat (total_files (V2.image_files self))) 0
           (total_files (V2.image_files self)) (V2.images_per_page self)) 0
   ++ tail_trace (canvas_save env (V2.output_path self)),
   Ok tt).
Proof.
  intros Hf Hp. unfold V2.run, V2.convert_images_to_pdf.
  pose proof (convert_loop_eq env (V2.try_body env self) _ _ Hf Hp) as E.
  destruct (V2.image_files self) as [| f0 fs]; [contradiction |].
  rewrite E. unfold call, emit, lift, ret.
  destruct (negb (V2.images_per_page self =? cols * rows));
    destruct (canvas_save env (V2.output_path self)) as [[] | e];
    cbn [bind try_except app]; rewrite ?app_nil_r, <- ?app_assoc; reflexivity.
Qed.

Lemma Svg_run_eq (env : Env) (self : Svg.SVGToPDFConverter) :
  Svg.svg_files self <> [] -> 0 < Svg.images_per_page self ->
  Svg.run env self =
  (CanvasNew (Svg.output_path self) (Svg.page_size self)
     (if Svg.high_quality self then Some 1 else None)
   :: pages_trace env (Svg.try_body env self) (Svg.svg_files self)
        (Svg.images_per_page self)
        (range_up (Z.to_nat (total_files (Svg.svg_files self))) 0
           (total_files (Svg.svg_files self)) (Svg.images_per_page self)) 0
   ++ tail_trace (canvas_save env (Svg.output_path self)),
   Ok tt).
Proof.
  intros Hf Hp. unfold Svg.run, Svg.convert_svgs_to_pdf.
  pose proof (convert_loop_eq env (Svg.try_body env self) _ _ Hf Hp) as E.
  destruct (Svg.svg_files self) as [| f0 fs]; [contradiction |].
  rewrite E. unfold call, emit, lift, ret.
  destruct (canvas_save env (Svg.output_path self)) as [[] | e];
    cbn [bind try_except app]; rewrite ?app_nil_r, <- ?app_assoc; reflexivity.
Qed.

(** ** Pages *)

Section RunFacts.
Variable env : Env.
Variable try_body : Z -> Z -> string -> M control.
Variable files : list string.
Variable images_per_page : Z.
Hypothesis Hfiles : files <> [].
Hypothesis Hpos : 0 < images_per_page.
Hypothesis Hbody : forall row col f, body_only (try_body row col f).

Let N := total_files files.
Let pages := pages_trace env try_body files images_per_page
               (range_up (Z.to_nat N) 0 N images_per_page) 0.
Let done := completed try_body (slots files images_per_page).

Lemma run_show_pages :
  filter is_ShowPage pages
  = repeat ShowPage (Z.to_nat (ceil_div N images_per_page - 1)).
Proof.
  destruct (pages_trace_facts env try_body files images_per_page Hfiles Hbody
              (range_up (Z.to_nat N) 0 N images_per_page) 0) as [_ [S _]].
  destruct (range_pages N images_per_page (total_files_pos files Hfiles) Hpos)
    as [_ [L _]].
  unfold pages. now rewrite S, L.
Qed.

Lemma run_writer (n : Z) :
  fold_left writer_step pages (HasPage n)
  = HasPage (n + (ceil_div N images_per_page - 1)).
Proof.
  destruct (pages_trace_facts env try_body files images_per_page Hfiles Hbody
              (range_up (Z.to_nat N) 0 N images_per_page) 0) as [_ [_ W]].
  destruct (range_pages N images_per_page (total_files_pos files Hfiles) Hpos)
    as [_ [L P]].
  unfold pages. rewrite W, L. f_equal. lia.
Qed.

Lemma run_done_bounds : 0 <= done <= N.
Proof.
  unfold done. pose proof (completed_bounds try_body (slots files images_per_page)) as B.
  rewrite <- (length_map snd), slots_files in B by assumption. exact B.
Qed.

Lemma run_progress :
  progress_of pages = map (fun k => 100 * k / N) (zseq 1 (Z.to_nat done)) /\
  StronglySorted Z.le (progress_of pages) /\
  (done = N -> last (progress_of pages) 0 = 100) /\
  (done < N -> Forall (fun p => p < 100) (progress_of pages)).
Proof.
  destruct (pages_trace_facts env try_body files images_per_page Hfiles Hbody
              (range_up (Z.to_nat N) 0 N images_per_page) 0) as [P _].
  pose proof (total_files_pos files Hfiles) as HN. fold N in HN, P.
  pose proof run_done_bounds as B.
  assert (E : progress_of pages = map (percent N) (zseq 1 (Z.to_nat done))).
  { unfold pages, done, completed. rewrite P, Nat2Z.id. reflexivity. }
  rewrite E. repeat split.
  - apply map_ext_in. intros k Hk. apply zseq_In in Hk.
    apply percent_eq; lia.
  - apply percent_zseq_sorted; lia.
  - intros D. destruct (Z.to_nat done) as [| m] eqn:Em; [lia |].
    rewrite zseq_snoc, map_app. cbn [map]. rewrite last_last.
    replace (1 + Z.of_nat m) with N by lia. now apply percent_all.
  - intros D. apply Forall_forall. intros p Hp. apply in_map_iff in Hp.
    destruct Hp as [k [<- Hk]]. apply zseq_In in Hk.
    apply percent_below; lia.
Qed.

Lemma run_done_all :
  done = N <-> forallb (completes try_body) (slots files images_per_page) = true.
Proof.
  assert (L : Z.of_nat (List.length (slots files images_per_page)) = N).
  { rewrite <- (length_map snd), slots_files by assumption. reflexivity. }
  unfold done, completed. rewrite <- L. clear L.
  induction (slots files images_per_page) as [| s l IH]; [now split |].
  cbn [filter forallb]. pose proof (filter_length_le (completes try_body) l).
  destruct (completes try_body s); cbn [List.length andb].
  - rewrite <- IH. lia.
  - split; [lia | discriminate].
Qed.

Lemma run_turn (slot : Z * string) :
  In slot (slots files images_per_page) ->
  exists fp pre post,
    pages = pre ++ turn_trace env try_body files slot fp ++ post.
Proof.
  intros H. apply (pages_trace_turn env try_body files images_per_page slot _ H 0).
Qed.
End RunFacts.

Lemma writer_tail (saved : result unit) (n : Z) :
  fold_left writer_step (tail_trace saved) (HasPage n)
  = match saved with Ok _ => Saved n | Raise _ => HasPage n end.
Proof. now destruct saved. Qed.

Lemma show_pages_tail (saved : result unit) :
  filter is_ShowPage (tail_trace saved) = [].
Proof. now destruct saved. Qed.

Section PageCount.
Variable env : Env.
Variable try_body : Z -> Z -> string -> M control.
Variable files : list string.
Variable images_per_page : Z.
Hypothesis Hfiles : files <> [].
Hypothesis Hpos : 0 < images_per_page.
Hypothesis Hbody : forall row col f, body_only (try_body row col f).
Variables (canvas_new : Event) (warn : list Event) (saved : result unit).
Hypothesis Hnew : writer_step Empty canvas_new = HasPage 1.
Hypothesis Hnew' : is_ShowPage canvas_new = false.
Hypothesis Hwarn : Forall (fun e => body_event e = true) warn.

Let n := ceil_div (py_len files) images_per_page.
Let t := canvas_new
         :: warn
         ++ pages_trace env try_body files images_per_page
              (range_up (Z.to_nat (total_files files)) 0 (total_files files)
                 images_per_page) 0
         ++ tail_trace saved.

Lemma page_count :
  1 <= n /\
  Z.of_nat (List.length (filter is_ShowPage t)) = n - 1 /\
  writer_of t = match saved with Ok _ => Saved n | Raise _ => HasPage n end.
Proof.
  destruct (range_pages _ _ (total_files_pos _ Hfiles) Hpos) as [_ [_ P]].
  destruct (body_events_quiet warn Hwarn) as [_ [S W]].
  change (1 <= n) in P. split; [exact P |]. unfold t, writer_of.
  cbn [filter fold_left]. rewrite Hnew, Hnew'.
  rewrite !filter_app, !fold_left_app, S, W, show_pages_tail.
  rewrite (run_show_pages env try_body files images_per_page Hfiles Hpos Hbody).
  rewrite (run_writer env try_body files images_per_page Hfiles Hpos Hbody).
  rewrite writer_tail, app_nil_r. cbn [app]. rewrite repeat_length.
  unfold total_files. fold n.
  replace (1 + (n - 1)) with n by lia. split; [lia | reflexivity].
Qed.
Lemma run_batch_starts_page :
  batch_starts_page env try_body files images_per_page.
Proof.
  intros page_num fp. split.
  - now rewrite page_body_eq.
  - apply (loop_trace_facts env try_body files Hfiles Hbody).
Qed.
End PageCount.



(** ** Progress *)

Lemma progress_of_tail (saved : result unit) : progress_of (tail_trace saved) = [].
Proof. now destruct saved. Qed.

Lemma forallb_false_filter {A} (f : A -> bool) (l : list A) :
  forallb f l = false -> (List.length (filter f l) < List.length l)%nat.
Proof.
  induction l as [| x l IH]; [discriminate |].
  cbn [forallb filter]. pose proof (filter_length_le f l).
  destruct (f x); cbn [andb List.length]; [intros F; apply IH in F |]; lia.
Qed.

Section ProgressReport.
Variable env : Env.
Variable try_body : Z -> Z -> string -> M control.
Variable files : list string.
Variable images_per_page : Z.
Hypothesis Hfiles : files <> [].
Hypothesis Hpos : 0 < images_per_page.
Hypothesis Hbody : forall row col f, body_only (try_body row col f).
Variables (canvas_new : Event) (warn : list Event) (saved : result unit).
Hypothesis Hnew : progress_of [canvas_new] = [].
Hypothesis Hwarn : Forall (fun e => body_event e = true) warn.

Lemma run_progress_report :
  progress_report try_body files images_per_page
    (progress_of
       (canvas_new
        :: warn
        ++ pages_trace env try_body files images_per_page
             (range_up (Z.to_nat (total_files files)) 0 (total_files files)
                images_per_page) 0
        ++ tail_trace saved)).
Proof.
  destruct (body_events_quiet warn Hwarn) as [P _].
  destruct (run_progress env try_body files images_per_page Hfiles Hpos Hbody)
    as [E [Sorted [All Below]]].
  pose proof (run_done_bounds try_body files images_per_page Hpos) as B.
  pose proof (run_done_all try_body files images_per_page Hpos) as D.
  change (canvas_new :: ?l) with ([canvas_new] ++ l).
  rewrite !progress_of_app, Hnew, P, progress_of_tail, app_nil_r.
  cbn [app]. unfold progress_report. fold (total_files files).
  split; [exact E |]. split; [exact Sorted |]. split; [exact B |]. split.
  - intros F. apply All, D, F.
  - intros F. apply Below.
    apply forallb_false_filter in F. unfold completed.
    assert (L : Z.of_nat (List.length (slots files images_per_page))
                = total_files files).
    { rewrite <- (length_map snd), slots_files by assumption. reflexivity. }
    lia.
Qed.
End ProgressReport.




(** ** Empty input *)

(** C7. With no input file, [run] emits the failure signal and nothing
    else: no canvas is created, no page is started, no status or progress
    value is sent. In both converters. *)
Theorem C7_empty_input_fails_before_any_page :
  forall (env : Env) (v2 : V2.ImageToPDFConverter) (sv : Svg.SVGToPDFConverter),
    V2.image_files v2 = [] -> Svg.svg_files sv = [] ->
    V2.run env v2
    = ([finished_signal false
          "Fehler bei der Konvertierung: Keine Bilddateien ausgewählt"], Ok tt) /\
    Svg.run env sv
    = ([finished_signal false
          "Fehler bei der Konvertierung: Keine SVG-Dateien ausgewählt"], Ok tt) /\
    writer_of (events (V2.run env v2)) = Empty /\
    writer_of (events (Svg.run env sv)) = Empty.
Proof.
  intros env v2 sv H2 Hs.
  assert (E2 : V2.run env v2
               = ([finished_signal false
                     "Fehler bei der Konvertierung: Keine Bilddateien ausgewählt"],
                  Ok tt))
    by (unfold V2.run, V2.convert_images_to_pdf; now rewrite H2).
  assert (Es : Svg.run env sv
               = ([finished_signal false
                     "Fehler bei der Konvertierung: Keine SVG-Dateien ausgewählt"],
                  Ok tt))
    by (unfold Svg.run, Svg.convert_svgs_to_pdf; now rewrite Hs).
  rewrite E2, Es. repeat split.
Qed.

Lemma C7_witness :
  events (V2.run env0 (v2_a4 [] 9))
  = [finished_signal false
       "Fehler bei der Konvertierung: Keine Bilddateien ausgewählt"] /\
  writer_of (events (Svg.run env0 (svg_a4 [] 9 true))) = Empty.
Proof.
  destruct (C7_empty_input_fails_before_any_page env0 (v2_a4 [] 9)
              (svg_a4 [] 9 true) eq_refl eq_refl) as [E [_ [_ W]]].
  split; [now rewrite E | exact W].
Defined.

(** ** Failures of single images *)

Lemma last_two {A} (l : list A) (a b d : A) : last (l ++ [a; b]) d = b.
Proof.
  change [a; b] with ([a] ++ [b]). rewrite app_assoc. apply last_last.
Qed.

Section FailuresCaught.
Variable env : Env.
Variable try_body : Z -> Z -> string -> M control.
Variable files : list string.
Variable images_per_page : Z.
Hypothesis Hfiles : files <> [].
Hypothesis Hpos : 0 < images_per_page.
Variables (canvas_new : Event) (warn : list Event).

Lemma turn_trace_raise (i : Z) (f : string) (e : string) (fp : Z) :
  outcome (try_body (i / 3) (i mod 3) f) = Raise e ->
  turn_trace env try_body files (i, f) fp
  = events (try_body (i / 3) (i mod 3) f)
    ++ [status_updated (Fehler (basename env f) e)].
Proof.
  intros H. unfold turn_trace. cbn [fst snd].
  rewrite loop_body_eq by assumption. unfold cols. now rewrite H.
Qed.

Lemma run_failures_caught :
  failures_caught env try_body files images_per_page
    (canvas_new
     :: warn
     ++ pages_trace env try_body files images_per_page
          (range_up (Z.to_nat (total_files files)) 0 (total_files files)
             images_per_page) 0
     ++ tail_trace (Ok tt)).
Proof.
  unfold failures_caught. split; [| split].
  - cbn [tail_trace]. rewrite app_comm_cons, app_assoc. apply last_two.
  - now apply slots_files.
  - intros i f Hin.
    destruct (run_turn env try_body files images_per_page (i, f) Hin)
      as [fp [pre [post E]]].
    assert (T : exists fp pre post,
               canvas_new
               :: warn
               ++ pages_trace env try_body files images_per_page
                    (range_up (Z.to_nat (total_files files)) 0
                       (total_files files) images_per_page) 0
               ++ tail_trace (Ok tt)
               = pre ++ turn_trace env try_body files (i, f) fp ++ post).
    { exists fp, (canvas_new :: warn ++ pre), (post ++ tail_trace (Ok tt)).
      rewrite E, <- app_comm_cons, <- !app_assoc. reflexivity. }
    split; [exact T |]. intros e He. split.
    + intros fp'. now apply turn_trace_raise.
    + destruct T as [fp' [pre' [post' ->]]].
      rewrite (turn_trace_raise i f e fp' He).
      apply in_or_app. right. apply in_or_app. left.
      apply in_or_app. right. now left.
Qed.
End FailuresCaught.

(** C8. In a run whose [save] succeeds, an exception raised while an image
    is loaded or drawn is caught in the turn of that image: the turn ends
    with the status message naming the file and the cause, every file of
    the list still has its turn, and the run ends with the success signal.
    In both converters. *)
Theorem C8_image_failure_is_caught :
  forall (env : Env) (v2 : V2.ImageToPDFConverter) (sv : Svg.SVGToPDFConverter),
    V2.image_files v2 <> [] -> 0 < V2.images_per_page v2 ->
    Svg.svg_files sv <> [] -> 0 < Svg.images_per_page sv ->
    canvas_save env (V2.output_path v2) = Ok tt ->
    canvas_save env (Svg.output_path sv) = Ok tt ->
    failures_caught env (V2.try_body env v2) (V2.image_files v2)
      (V2.images_per_page v2) (events (V2.run env v2)) /\
    failures_caught env (Svg.try_body env sv) (Svg.svg_files sv)
      (Svg.images_per_page sv) (events (Svg.run env sv)).
Proof.
  intros env v2 sv Hf2 Hp2 Hfs Hps S2 Ss. split.
  - rewrite V2_run_eq, S2 by assumption. cbn [events fst].
    now apply run_failures_caught.
  - rewrite Svg_run_eq, Ss by assumption. cbn [events fst].
    now apply (run_failures_caught env (Svg.try_body env sv) _ _ Hfs Hps _ []).
Qed.

Lemma C8_witness :
  last (events (V2.run env0 (v2_a4 ["a.svg"; "bad.svg"; "p.png"] 2))) Save = success /\
  In (status_updated (Fehler "bad.svg" "syntax error"))
     (events (V2.run env0 (v2_a4 ["a.svg"; "bad.svg"; "p.png"] 2))) /\
  In (status_updated (Fehler "bad.svg" "syntax error"))
     (events (Svg.run env0 (svg_a4 ["bad.svg"; "a.svg"] 9 true))).
Proof.
  destruct (C8_image_failure_is_caught env0
              (v2_a4 ["a.svg"; "bad.svg"; "p.png"] 2)
              (svg_a4 ["bad.svg"; "a.svg"] 9 true)
              ltac:(discriminate) eq_refl ltac:(discriminate) eq_refl
              eq_refl eq_refl)
    as [[L [_ C2]] [_ [_ Cs]]].
  split; [exact L |]. split.
  - exact (proj2 (proj2 (C2 1 "bad.svg" ltac:(right; left; reflexivity))
                    "syntax error" eq_refl)).
  - exact (proj2 (proj2 (Cs 0 "bad.svg" ltac:(left; reflexivity))
                    "syntax error" eq_refl)).
Defined.

(** ** A file without a drawing object *)

(** C9. In image_2_pdf.py, a file for which [svg2rlg] returns no drawing
    object takes a turn that emits one progress value and nothing else: no
    status message, no drawing call; and the file is counted as processed. *)
Theorem C9_missing_drawing_is_silent :
  forall (env : Env) (sv : Svg.SVGToPDFConverter) (i : Z) (f : string) (fp : Z),
    Svg.svg_files sv <> [] -> 0 <= fp ->
    svg2rlg env f = Ok None ->
    loop_body env (Svg.try_body env sv) (Svg.svg_files sv) i f fp
    = ([progress_updated (100 * (fp + 1) / py_len (Svg.svg_files sv))],
       Ok (fp + 1)) /\
    completes (Svg.try_body env sv) (i, f) = true.
Proof.
  intros env sv i f fp Hf Hfp Hd.
  assert (E : Svg.try_body env sv (i / cols) (i mod cols) f = ([], Ok Normal))
    by (unfold Svg.try_body; now rewrite Hd).
  split.
  - rewrite loop_body_eq, E by assumption. cbn [outcome events fst snd app].
    rewrite percent_eq; [reflexivity | now apply total_files_pos | lia].
  - unfold completes, grid_slot. now rewrite E.
Qed.

Lemma C9_witness :
  loop_body env0 (Svg.try_body env0 (svg_a4 ["a.svg"; "none.svg"] 9 true))
    ["a.svg"; "none.svg"] 1 "none.svg" 1
  = ([progress_updated 100], Ok 2).
Proof.
  exact (proj1 (C9_missing_drawing_is_silent env0
                  (svg_a4 ["a.svg"; "none.svg"] 9 true) 1 "none.svg" 1
                  ltac:(discriminate) ltac:(lia) eq_refl)).
Defined.

(** * The main window *)

(** ** The file list without duplicates *)

Lemma in_list_In (x : string) (l : list string) : in_list x l = true <-> In x l.
Proof.
  unfold in_list. rewrite existsb_exists. split.
  - intros [y [Hy E]]. apply String.eqb_eq in E. now subst.
  - intros H. exists x. split; [exact H | apply String.eqb_refl].
Qed.

Lemma in_list_app (x : string) (l l' : list string) :
  in_list x (l ++ l') = in_list x l || in_list x l'.
Proof. unfold in_list. apply existsb_app. Qed.

Lemma filter_twice {A} (f g : A -> bool) (l : list A) :
  filter f (filter g l) = filter (fun x => g x && f x) l.
Proof.
  induction l as [| x l IH]; [reflexivity |]. cbn [filter].
  destruct (g x); cbn [filter andb]; [destruct (f x) |]; now rewrite IH.
Qed.

Lemma fromkeys_acc (l : list string) :
  forall acc,
    fold_left dict_add_key l acc = acc ++ filter (absent acc) (first_seen l).
Proof.
  induction l as [| x l IH]; intros acc; [cbn; now rewrite app_nil_r |].
  cbn [fold_left first_seen filter]. rewrite IH. unfold dict_add_key, absent.
  destruct (in_list x acc) eqn:E; cbn [negb].
  - f_equal. rewrite filter_twice. apply filter_ext. intros y.
    destruct (String.eqb_spec y x) as [-> | _]; [now rewrite E | reflexivity].
  - rewrite <- app_assoc. cbn [app]. do 2 f_equal.
    rewrite filter_twice. apply filter_ext. intros y.
    rewrite in_list_app. cbn [in_list existsb]. rewrite orb_false_r, negb_orb.
    apply andb_comm.
Qed.

Lemma fromkeys_first_seen (l : list string) : dict_fromkeys l = first_seen l.
Proof.
  unfold dict_fromkeys. rewrite fromkeys_acc. cbn [app].
  rewrite <- (filter_true (absent []) (first_seen l)) at 2; [reflexivity |].
  apply Forall_forall. reflexivity.
Qed.

Lemma first_seen_In (x : string) (l : list string) :
  In x (first_seen l) <-> In x l.
Proof.
  induction l as [| y l IH]; [reflexivity |]. cbn [first_seen In].
  rewrite filter_In, IH. destruct (String.eqb_spec x y) as [-> | N].
  - split; [now left | intros _; now left].
  - split.
    + intros [E | [H _]]; [now left | now right].
    + intros [E | H]; [now left | right; now split].
Qed.

Lemma first_seen_NoDup (l : list string) : NoDup (first_seen l).
Proof.
  induction l as [| y l IH]; [constructor |]. cbn [first_seen]. constructor.
  - rewrite filter_In. intros [_ E]. now rewrite String.eqb_refl in E.
  - now apply NoDup_filter.
Qed.

Lemma first_seen_fixed (l : list string) : NoDup l -> first_seen l = l.
Proof.
  induction 1 as [| x l Hx _ IH]; [reflexivity |]. cbn [first_seen]. rewrite IH.
  f_equal. apply filter_true. apply Forall_forall. intros y Hy.
  destruct (String.eqb_spec y x) as [-> | _]; [contradiction | reflexivity].
Qed.

Lemma first_seen_length (l : list string) :
  (List.length (first_seen l) <= List.length l)%nat /\
  (List.length (first_seen l) = List.length l -> NoDup l).
Proof.
  induction l as [| x l [IH1 IH2]]; [split; [cbn; lia | constructor] |].
  cbn [first_seen List.length].
  pose proof (filter_length_le (fun y => negb (String.eqb y x)) (first_seen l)) as F.
  split; [lia |]. intros E. constructor; [| apply IH2; lia].
  intros Hx. apply first_seen_In in Hx.
  assert (In x (filter (fun y => negb (String.eqb y x)) (first_seen l))) as Hf.
  { rewrite filter_true; [exact Hx |].
    clear - E IH1 F. assert (L : List.length
             (filter (fun y => negb (String.eqb y x)) (first_seen l))
           = List.length (first_seen l)) by lia.
    revert L. generalize (first_seen l) as m. clear.
    induction m as [| y m IH]; [constructor |]. cbn [filter].
    pose proof (filter_length_le (fun y => negb (String.eqb y x)) m).
    destruct (negb (String.eqb y x)) eqn:Ey; cbn [List.length]; intros L.
    - constructor; [exact Ey | apply IH; lia].
    - lia. }
  apply filter_In in Hf. destruct Hf as [_ Hf]. now rewrite String.eqb_refl in Hf.
Qed.

Lemma first_seen_app (l l' : list string) :
  first_seen (l ++ l') = first_seen l ++ filter (absent l) (first_seen l').
Proof.
  rewrite <- (fromkeys_first_seen (l ++ l')). unfold dict_fromkeys.
  rewrite fold_left_app, fromkeys_acc.
  change (fold_left dict_add_key l []) with (dict_fromkeys l).
  rewrite fromkeys_first_seen. f_equal.
  apply filter_ext. intros y. unfold absent. f_equal.
  apply eq_true_iff_eq. rewrite !in_list_In. apply first_seen_In.
Qed.

Ltac window_cbn :=
  cbn [Window.select_files Window.log_message Window.update_file_list
       Window.set_image_files Window.set_file_list Window.show_box
       Window.image_files Window.file_list Window.init].

(** X1. After [update_file_list] the file list has no duplicates and the
    same members as before. *)
Theorem X1_update_file_list_removes_duplicates :
  forall (env : Env) (w : Window.MainWindow) (x : string),
    NoDup (Window.image_files (Window.update_file_list env w)) /\
    (In x (Window.image_files (Window.update_file_list env w))
     <-> In x (Window.image_files w)).
Proof.
  intros env w x. window_cbn. rewrite fromkeys_first_seen. split.
  - apply first_seen_NoDup.
  - apply first_seen_In.
Qed.

(** X2. [list(dict.fromkeys(l))] keeps the first copy of every file in its
    place: the head of the list stays the head, and its later copies are
    taken out of what follows. *)
Theorem X2_fromkeys_keeps_first_copy :
  forall (x : string) (l : list string),
    dict_fromkeys (x :: l)
    = x :: filter (fun y => negb (String.eqb y x)) (dict_fromkeys l).
Proof.
  intros x l. now rewrite !fromkeys_first_seen.
Qed.

Lemma select_files_files (env : Env) (w : Window.MainWindow) (files : list string) :
  NoDup (Window.image_files w) ->
  Window.image_files (Window.select_files env w files)
  = Window.image_files w
    ++ filter (absent (Window.image_files w)) (dict_fromkeys files).
Proof.
  intros H. destruct files as [| f files]; [window_cbn; cbn; now rewrite app_nil_r |].
  cbn [Window.select_files Window.log_message Window.update_file_list
       Window.set_image_files Window.set_file_list Window.image_files].
  rewrite !fromkeys_first_seen, first_seen_app. now rewrite first_seen_fixed.
Qed.

(** X3. Adding files to a list without duplicates leaves the files already
    listed where they are and appends the new ones that are not yet listed,
    once each, in the order given. The same holds for the files found by
    [select_folder] in a folder that was chosen. *)
Theorem X3_adding_files_appends_new_ones :
  forall (env : Env) (fs : Fs) (patterns : list string)
         (w : Window.MainWindow) (files : list string) (folder : string),
    NoDup (Window.image_files w) ->
    folder <> "" ->
    Window.image_files (Window.select_files env w files)
    = Window.image_files w
      ++ filter (absent (Window.image_files w)) (dict_fromkeys files) /\
    Window.image_files (Window.select_folder env fs patterns w folder)
    = Window.image_files w
      ++ filter (absent (Window.image_files w))
           (dict_fromkeys (flat_map (glob fs folder) patterns)).
Proof.
  intros env fs patterns w files folder H Hf. split.
  - now apply select_files_files.
  - unfold Window.select_folder.
    destruct (String.eqb_spec folder "") as [E | _]; [contradiction |].
    destruct (flat_map (fun ext => glob fs folder ext) patterns) as [| f found] eqn:E.
    + replace (flat_map (glob fs folder) patterns) with (@nil string).
      cbn. now rewrite app_nil_r.
    + replace (flat_map (glob fs folder) patterns) with (f :: found).
      cbn [Window.log_message Window.update_file_list
           Window.set_image_files Window.set_file_list Window.image_files].
      rewrite !fromkeys_first_seen, first_seen_app. now rewrite first_seen_fixed.
Qed.

Lemma X3_witness :
  Window.image_files
    (Window.select_files env0 (Window.after env0 fs0 v2_patterns
                                  [Window.SelectFiles ["a.svg"; "b.svg"]])
       ["c.svg"; "a.svg"; "c.svg"])
  = ["a.svg"; "b.svg"; "c.svg"] /\
  Window.image_files
    (Window.select_folder env0 fs0 v2_patterns Window.init "in")
  = ["in/a.svg"; "in/b.svg"; "in/p.png"].
Proof.
  split.
  - exact (proj1 (X3_adding_files_appends_new_ones env0 fs0 v2_patterns
                    (Window.after env0 fs0 v2_patterns
                       [Window.SelectFiles ["a.svg"; "b.svg"]])
                    ["c.svg"; "a.svg"; "c.svg"] "in"
                    ltac:(repeat constructor; simpl; intuition discriminate)
                    ltac:(discriminate))).
  - exact (proj2 (X3_adding_files_appends_new_ones env0 fs0 v2_patterns
                    Window.init [] "in" ltac:(constructor) ltac:(discriminate))).
Defined.

(** X4. [update_file_list] fills the list widget before it removes the
    duplicates: the widget shows one name for every entry of the old list,
    so it shows at least as many names as files remain, and exactly as many
    only when the old list had no duplicates. *)
Theorem X4_widget_shows_the_list_before_deduplication :
  forall (env : Env) (w : Window.MainWindow),
    let w' := Window.update_file_list env w in
    Window.file_list w' = map (basename env) (Window.image_files w) /\
    (List.length (Window.image_files w') <= List.length (Window.file_list w'))%nat /\
    (List.length (Window.image_files w') = List.length (Window.file_list w')
     <-> NoDup (Window.image_files w)).
Proof.
  intros env w. window_cbn. rewrite fromkeys_first_seen, length_map.
  destruct (first_seen_length (Window.image_files w)) as [L D].
  split; [reflexivity |]. split; [exact L |]. split; [exact D |].
  intros H. now rewrite first_seen_fixed.
Qed.

(** ** The states of the window *)

Section Reachable.
Variable env : Env.
Variable fs : Fs.
Variable patterns : list string.

Lemma update_shown_as_listed (w : Window.MainWindow) :
  shown_as_listed env (Window.update_file_list env w).
Proof.
  unfold shown_as_listed. window_cbn. rewrite fromkeys_first_seen, length_map.
  split; [apply first_seen_NoDup |].
  split; [apply first_seen_length |].
  intros b. rewrite in_map_iff. split.
  - intros [f [<- Hf]]. exists f. now rewrite first_seen_In.
  - intros [f [Hf ->]]. exists f. now rewrite first_seen_In in Hf.
Qed.

Lemma perform_shown_as_listed (w : Window.MainWindow) (a : Window.Action) :
  shown_as_listed env w -> shown_as_listed env (Window.perform env fs patterns w a).
Proof.
  intros H. destruct a as [files | folder | | folder]; cbn [Window.perform].
  - destruct files as [| f files]; [exact H |].
    apply (update_shown_as_listed
             (Window.set_image_files w (Window.image_files w ++ f :: files))).
  - unfold Window.select_folder. destruct (String.eqb folder ""); [exact H |].
    destruct (flat_map (fun ext => glob fs folder ext) patterns) as [| f found];
      [exact H |].
    apply (update_shown_as_listed
             (Window.set_image_files w (Window.image_files w ++ f :: found))).
  - apply (update_shown_as_listed (Window.set_image_files w [])).
  - unfold Window.select_output_folder. destruct (String.eqb folder ""); exact H.
Qed.

Lemma after_shown_as_listed (actions : list Window.Action) :
  shown_as_listed env (Window.after env fs patterns actions).
Proof.
  unfold Window.after.
  assert (G : forall w, shown_as_listed env w ->
                        shown_as_listed env
                          (fold_left (Window.perform env fs patterns) actions w)).
  { induction actions as [| a actions IH]; intros w H; [exact H |].
    cbn [fold_left]. apply IH. now apply perform_shown_as_listed. }
  apply G. unfold shown_as_listed. cbn. split; [constructor |]. split; [lia |].
  intros b. split; [contradiction | intros [f [[] _]]].
Qed.
End Reachable.

(** X5. Whatever the user does with the window (adding files, adding a
    folder, clearing the list, choosing an output folder, in any order), the
    file list has no duplicates, the widget shows at least as many names as
    there are files, and the names shown are exactly the base names of the
    files listed. *)
Theorem X5_window_file_list_invariant :
  forall (env : Env) (fs : Fs) (patterns : list string)
         (actions : list Window.Action),
    let w := Window.after env fs patterns actions in
    NoDup (Window.image_files w) /\
    (List.length (Window.image_files w) <= List.length (Window.file_list w))%nat /\
    forall b, In b (Window.file_list w)
              <-> exists f, In f (Window.image_files w) /\ b = basename env f.
Proof.
  intros env fs patterns actions. apply after_shown_as_listed.
Qed.

(** ** The label of the output folder *)

Lemma string_length_append (s t : string) :
  String.length (s ++ t) = (String.length s + String.length t)%nat.
Proof. induction s as [| c s IH]; cbn; [reflexivity | now rewrite IH]. Qed.

Lemma substring_whole (s : string) : substring 0 (String.length s) s = s.
Proof. induction s as [| c s IH]; cbn; [reflexivity | now rewrite IH]. Qed.

Lemma substring_tail (n : nat) :
  forall s,
    (n <= String.length s)%nat ->
    exists head,
      s = (head ++ substring n (String.length s - n) s)%string /\
      String.length head = n.
Proof.
  induction n as [| n IH]; intros s H.
  - exists ""%string. rewrite Nat.sub_0_r, substring_whole. now split.
  - destruct s as [| c s]; [cbn in H; lia |]. cbn in H.
    destruct (IH s ltac:(lia)) as [head [E L]].
    exists (String c head). cbn. split; [now rewrite <- E | now rewrite L].
Qed.

Lemma substring_length (n m : nat) :
  forall s,
    (n + m <= String.length s)%nat -> String.length (substring n m s) = m.
Proof.
  induction n as [| n IH]; intros s.
  - revert s. induction m as [| m IHm]; intros s H; [now destruct s |].
    destruct s as [| c s]; [cbn in H; lia |]. cbn in *. rewrite IHm; lia.
  - intros H. destruct s as [| c s]; [cbn in H; lia |]. cbn in *. apply IH. lia.
Qed.

(** X6. The label of the output folder never shows more than 60 characters:
    a path of at most 60 characters is shown as it is, a longer one as three
    dots followed by its last 57 characters; the tool tip carries the whole
    path. A cancelled dialog (empty path) changes nothing. *)
Theorem X6_output_folder_label_is_bounded :
  forall (w : Window.MainWindow) (folder : string),
    folder <> "" ->
    let w' := Window.select_output_folder w folder in
    let shown := Window.output_folder_label w' in
    (String.length shown <= 60)%nat /\
    Window.output_folder_tooltip w' = folder /\
    Window.output_folder w' = folder /\
    ((String.length folder <= 60)%nat -> shown = folder) /\
    ((60 < String.length folder)%nat ->
       String.length shown = 60%nat /\
       exists head tail,
         folder = (head ++ tail)%string /\ String.length tail = 57%nat /\
         shown = ("..." ++ tail)%string) /\
    Window.select_output_folder w "" = w.
Proof.
  intros w folder Hf w' shown. subst w' shown. unfold Window.select_output_folder.
  destruct (String.eqb_spec folder "") as [E | _]; [contradiction |].
  cbn [Window.log_message Window.output_folder_label Window.output_folder_tooltip
       Window.output_folder String.eqb].
  unfold Window.display_path, py_last.
  destruct (Nat.ltb_spec 60 (String.length folder)) as [L | L].
  - assert (T : String.length
                  (substring (String.length folder - 57) 57 folder) = 57%nat)
      by (apply substring_length; lia).
    destruct (substring_tail (String.length folder - 57) folder ltac:(lia))
      as [head [E _]].
    replace (String.length folder - (String.length folder - 57))%nat with 57%nat
      in E by lia.
    rewrite string_length_append, T.
    split; [cbn; lia |]. split; [reflexivity |]. split; [reflexivity |].
    split; [intros; lia |]. split; [| reflexivity].
    intros _. split; [reflexivity |].
    exists head, (substring (String.length folder - 57) 57 folder).
    repeat split; assumption.
  - split; [lia |]. split; [reflexivity |]. split; [reflexivity |].
    split; [reflexivity |]. split; [intros; lia | reflexivity].
Qed.

Lemma X6_witness :
  String.length
    (Window.output_folder_label
       (Window.select_output_folder Window.init
          "/home/user/documents/projects/2024/customers/northern-region/exports"))
  = 60%nat.
Proof.
  destruct (X6_output_folder_label_is_bounded Window.init
              "/home/user/documents/projects/2024/customers/northern-region/exports"
              ltac:(discriminate)) as [_ [_ [_ [_ [Long _]]]]].
  exact (proj1 (Long ltac:(cbn; lia))).
Defined.

(** ** The name of the output file *)

Lemma parse_leading_zero (s : string) :
  parse_decimal (String "0" s) = parse_decimal s.
Proof.
  unfold parse_decimal. cbn [NilEmpty.uint_of_string].
  now destruct (NilEmpty.uint_of_string s).
Qed.

Lemma parse_zeros (k : nat) (s : string) :
  parse_decimal (zeros k ++ s) = parse_decimal s.
Proof.
  induction k as [| k IH]; [reflexivity |].
  cbn [zeros append]. now rewrite parse_leading_zero.
Qed.

Lemma zeros_length (k : nat) : String.length (zeros k) = k.
Proof. induction k as [| k IH]; cbn; [reflexivity | now rewrite IH]. Qed.

Lemma format_03d_parse (n : N) : parse_decimal (format_03d n) = Some n.
Proof.
  unfold format_03d, zero_pad. rewrite parse_zeros.
  unfold parse_decimal. rewrite NilEmpty.usu. cbn [option_map].
  now rewrite DecimalN.Unsigned.of_to.
Qed.

Lemma format_03d_injective (n m : N) : format_03d n = format_03d m -> n = m.
Proof.
  intros E. pose proof (format_03d_parse n) as R.
  rewrite E, format_03d_parse in R. now injection R.
Qed.

(** X7. The three-digit counter can be read back: parsing [f"{n:03d}"] as a
    decimal numeral gives [n]; so two counters never give the same text. The
    text has at least three characters. *)
Theorem X7_counter_format_round_trip :
  forall n m : N,
    parse_decimal (format_03d n) = Some n /\
    (3 <= String.length (format_03d n))%nat /\
    (format_03d n = format_03d m -> n = m).
Proof.
  intros n m. split; [apply format_03d_parse |]. split.
  - unfold format_03d, zero_pad. rewrite string_length_append, zeros_length. lia.
  - apply format_03d_injective.
Qed.

Lemma append_cancel_l (s t t' : string) : (s ++ t = s ++ t')%string -> t = t'.
Proof.
  induction s as [| c s IH]; cbn; [trivial |]. intros E. injection E as E. auto.
Qed.

Lemma append_cancel_r (t : string) :
  forall s s', (s ++ t = s' ++ t)%string -> s = s'.
Proof.
  induction s as [| c s IH]; intros s' E.
  - destruct s' as [| c' s']; [reflexivity |].
    apply (f_equal String.length) in E. cbn in E.
    rewrite string_length_append in E. lia.
  - destruct s' as [| c' s'].
    + apply (f_equal String.length) in E. cbn in E.
      rewrite string_length_append in E. lia.
    + cbn in E. injection E as -> E. f_equal. now apply IH.
Qed.

Section OutputFile.
Variable fs : Fs.
Variable base_name : string.
Variable folder : string.

Let cand := Window.candidate fs base_name folder.

Lemma free_output_file_step (fuel k : nat) :
  Window.free_output_file fs base_name (S fuel) folder (N.of_nat (S k)) (cand k)
  = if path_exists fs (cand k)
    then Window.free_output_file fs base_name fuel folder (N.of_nat (S (S k)))
           (cand (S k))
    else Some (cand k).
Proof.
  cbn [Window.free_output_file]. destruct (path_exists fs (cand k)); [| reflexivity].
  f_equal. lia.
Qed.

Lemma free_output_file_some (fuel : nat) :
  forall k p,
    Window.free_output_file fs base_name fuel folder (N.of_nat (S k)) (cand k)
    = Some p ->
    exists j,
      (k <= j < k + fuel)%nat /\ p = cand j /\ path_exists fs (cand j) = false /\
      forall i, (k <= i < j)%nat -> path_exists fs (cand i) = true.
Proof.
  induction fuel as [| fuel IH]; intros k p H; [discriminate |].
  rewrite free_output_file_step in H.
  destruct (path_exists fs (cand k)) eqn:E.
  - apply IH in H. destruct H as [j [B [-> [F A]]]].
    exists j. split; [lia |]. split; [reflexivity |]. split; [exact F |].
    intros i Hi. destruct (Nat.eq_dec i k) as [-> | N]; [exact E | apply A; lia].
  - injection H as <-. exists k. split; [lia |]. split; [reflexivity |].
    split; [exact E |]. intros i Hi. lia.
Qed.

Lemma free_output_file_none (fuel : nat) :
  forall k,
    Window.free_output_file fs base_name fuel folder (N.of_nat (S k)) (cand k)
    = None ->
    forall i, (k <= i < k + fuel)%nat -> path_exists fs (cand i) = true.
Proof.
  induction fuel as [| fuel IH]; intros k H i Hi; [lia |].
  rewrite free_output_file_step in H.
  destruct (path_exists fs (cand k)) eqn:E; [| discriminate].
  destruct (Nat.eq_dec i k) as [-> | N]; [exact E |].
  apply (IH (S k) H). lia.
Qed.

Lemma candidate_injective :
  (forall a b, path_join fs folder a = path_join fs folder b -> a = b) ->
  forall i j, cand i = cand j -> i = j.
Proof.
  intros J i j E. unfold cand, Window.candidate, Window.numbered in E.
  destruct i as [| i], j as [| j]; [reflexivity | | |];
    apply J, append_cancel_l in E.
  - discriminate E.
  - discriminate E.
  - injection E as E. apply append_cancel_r in E.
    apply format_03d_injective in E.
    change (N.of_nat (S i) = N.of_nat (S j)) in E. now apply Nat2N.inj in E.
Qed.
End OutputFile.

Lemma convert_files_with_folder (env : Env) (fs : Fs) (base_name : string)
    (fuel : nat) (w : Window.MainWindow) (s : Window.Settings) :
  Window.image_files w <> [] -> Window.output_folder w <> "" ->
  Window.convert_files env fs base_name fuel w s
  = match Window.free_output_file fs base_name fuel (Window.output_folder w) 1
            (Window.candidate fs base_name (Window.output_folder w) 0) with
    | None => None
    | Some output_file =>
        Some (Window.start
                (Window.log_message w (Ausgabedatei (basename env output_file)))
                s output_file)
    end.
Proof.
  intros Hf Ho. unfold Window.convert_files.
  destruct (Window.image_files w) as [| f files]; [contradiction |].
  destruct (String.eqb_spec (Window.output_folder w) "") as [E | _];
    [contradiction | reflexivity].
Qed.

(** X8. When an output folder is set, the file the conversion is started
    with does not exist yet, and it is the first free name of the series
    [base.pdf, base_001.pdf, base_002.pdf, ...]: every earlier name of the
    series exists. *)
Theorem X8_output_file_is_first_free_name :
  forall (env : Env) (fs : Fs) (base_name : string) (fuel : nat)
         (w w' : Window.MainWindow) (s : Window.Settings) (st : Window.Started),
    Window.image_files w <> [] -> Window.output_folder w <> "" ->
    Window.convert_files env fs base_name fuel w s = Some (w', Some st) ->
    path_exists fs (Window.started_output st) = false /\
    exists j,
      Window.started_output st
      = Window.candidate fs base_name (Window.output_folder w) j /\
      forall i, (i < j)%nat ->
        path_exists fs (Window.candidate fs base_name (Window.output_folder w) i)
        = true.
Proof.
  intros env fs base_name fuel w w' s st Hf Ho H.
  rewrite convert_files_with_folder in H by assumption.
  destruct (Window.free_output_file fs base_name fuel (Window.output_folder w) 1
              (Window.candidate fs base_name (Window.output_folder w) 0))
    as [p |] eqn:E; [| discriminate].
  apply (free_output_file_some fs base_name (Window.output_folder w) fuel 0) in E.
  destruct E as [j [_ [-> [F A]]]].
  injection H as _ <-. cbn [Window.started_output].
  split; [exact F |]. exists j. split; [reflexivity |].
  intros i Hi. apply A. lia.
Qed.

Lemma X8_witness :
  exists w' st,
    Window.convert_files env0 fs0 "converted_images" 5
      (Window.after env0 fs0 v2_patterns
         [Window.SelectFolder "in"; Window.SelectOutputFolder "out"])
      {| Window.save_file_name := ""; Window.images_per_page_spin := 9;
         Window.page_size_combo := 0; Window.high_quality_cb := true |}
    = Some (w', Some st) /\
    Window.started_output st = "out/converted_images_002.pdf" /\
    path_exists fs0 (Window.started_output st) = false.
Proof.
  eexists. eexists. split; [reflexivity |]. split; [reflexivity |].
  apply (X8_output_file_is_first_free_name env0 fs0 "converted_images" 5
           (Window.after env0 fs0 v2_patterns
              [Window.SelectFolder "in"; Window.SelectOutputFolder "out"])
           _ _ _ ltac:(discriminate) ltac:(discriminate) eq_refl).
Defined.

Lemma NoDup_map_injective {A B} (f : A -> B) (l : list A) :
  (forall x y, f x = f y -> x = y) -> NoDup l -> NoDup (map f l).
Proof.
  intros Hf. induction 1 as [| x l Hx _ IH]; cbn; constructor; [| exact IH].
  intros H. apply in_map_iff in H. destruct H as [y [E Hy]].
  apply Hf in E. now subst.
Qed.

(** X9. The search for a free name ends: when the files that exist are
    finitely many ([existing]) and [os.path.join] maps different names to
    different paths, a free name is found after at most one test more than
    there are files, and the conversion is started. *)
Theorem X9_free_name_search_terminates :
  forall (env : Env) (fs : Fs) (base_name : string) (existing : list string)
         (w : Window.MainWindow) (s : Window.Settings),
    Window.image_files w <> [] -> Window.output_folder w <> "" ->
    (forall p, path_exists fs p = in_list p existing) ->
    (forall a b,
        path_join fs (Window.output_folder w) a
        = path_join fs (Window.output_folder w) b -> a = b) ->
    exists w' st,
      Window.convert_files env fs base_name (S (List.length existing)) w s
      = Some (w', Some st) /\
      ~ In (Window.started_output st) existing.
Proof.
  intros env fs base_name existing w s Hf Ho Hex Hjoin.
  rewrite convert_files_with_folder by assumption.
  destruct (Window.free_output_file fs base_name (S (List.length existing))
              (Window.output_folder w) 1
              (Window.candidate fs base_name (Window.output_folder w) 0))
    as [p |] eqn:E.
  - eexists. eexists. split; [reflexivity |].
    cbn [Window.start Window.started_output snd]. intros H.
    apply (free_output_file_some fs base_name _ _ 0) in E.
    destruct E as [j [_ [-> [F _]]]].
    rewrite Hex in F. apply in_list_In in H. congruence.
  - exfalso.
    pose proof (free_output_file_none fs base_name _ _ 0 E) as A.
    set (names := map (Window.candidate fs base_name (Window.output_folder w))
                      (seq 0 (S (List.length existing)))).
    assert (D : NoDup names).
    { apply NoDup_map_injective; [| apply seq_NoDup].
      intros i j. now apply candidate_injective. }
    assert (I : incl names existing).
    { intros p Hp. apply in_map_iff in Hp. destruct Hp as [i [<- Hi]].
      apply in_seq in Hi. apply in_list_In. rewrite <- Hex. apply A. lia. }
    pose proof (NoDup_incl_length D I) as L.
    unfold names in L. rewrite length_map, length_seq in L. lia.
Qed.

Lemma X9_witness :
  exists w' st,
    Window.convert_files env0 fs0 "converted_images" 3
      (Window.after env0 fs0 v2_patterns
         [Window.SelectFolder "in"; Window.SelectOutputFolder "out"])
      {| Window.save_file_name := ""; Window.images_per_page_spin := 9;
         Window.page_size_combo := 0; Window.high_quality_cb := true |}
    = Some (w', Some st).
Proof.
  destruct (X9_free_name_search_terminates env0 fs0 "converted_images"
              ["out/converted_images.pdf"; "out/converted_images_001.pdf"]
              (Window.after env0 fs0 v2_patterns
                 [Window.SelectFolder "in"; Window.SelectOutputFolder "out"])
              {| Window.save_file_name := ""; Window.images_per_page_spin := 9;
                 Window.page_size_combo := 0; Window.high_quality_cb := true |}
              ltac:(discriminate) ltac:(discriminate)
              ltac:(intros; reflexivity)
              ltac:(intros a b H; cbn in H; now injection H))
    as [w' [st [E _]]].
  exists w', st. exact E.
Defined.

(** ** Starting a conversion *)

Lemma page_sizes_large (index : Z) :
  (70 < fst (Window.page_sizes index))%Q /\ (70 < snd (Window.page_sizes index))%Q.
Proof.
  unfold Window.page_sizes.
  repeat match goal with
         | |- context [if ?b then _ else _] => destruct b
         end; split; reflexivity.
Qed.

Lemma convert_files_started (env : Env) (fs : Fs) (base_name : string)
    (fuel : nat) (w w' : Window.MainWindow) (s : Window.Settings)
    (st : Window.Started) :
  Window.convert_files env fs base_name fuel w s = Some (w', Some st) ->
  Window.image_files w <> [] /\
  Window.started_files st = Window.image_files w /\
  Window.started_per_page st = Window.images_per_page_spin s /\
  Window.started_page_size st = Window.page_sizes (Window.page_size_combo s) /\
  Window.status_text w' = [] /\
  Window.convert_btn_enabled w' = false /\
  Window.progress_bar_visible w' = true /\
  Window.progress_bar_value w' = 0.
Proof.
  unfold Window.convert_files. intros H.
  destruct (Window.image_files w) as [| f files] eqn:E; [discriminate |].
  split; [discriminate |].
  destruct (negb (String.eqb (Window.output_folder w) "")).
  - destruct (Window.free_output_file fs base_name fuel (Window.output_folder w) 1
                (path_join fs (Window.output_folder w) (base_name ++ ".pdf")))
      as [p |]; [| discriminate].
    injection H as <- <-. cbn. rewrite E. repeat split.
  - destruct (String.eqb (Window.save_file_name s) ""); [discriminate |].
    injection H as <- <-. cbn. rewrite E. repeat split.
Qed.

(** X10. A conversion the window starts, after whatever the user did with
    it, meets what the layout engine needs: the files of the converter are
    the files of the window, at least one and none twice; with a spin box
    value between 1 and 12 the number of images per page is positive; both
    sides of the page exceed 70 points; and the run of the converter begins
    with the creation of the canvas, not with the failure for an empty list.
    With an empty list the window only shows a warning and starts nothing. *)
Theorem X10_started_conversion_is_well_formed :
  forall (env : Env) (fs : Fs) (patterns : list string) (base_name : string)
         (actions : list Window.Action) (fuel : nat) (s : Window.Settings)
         (w' : Window.MainWindow) (st : Window.Started),
    let w := Window.after env fs patterns actions in
    1 <= Window.images_per_page_spin s <= 12 ->
    Window.convert_files env fs base_name fuel w s = Some (w', Some st) ->
    Window.started_files st = Window.image_files w /\
    Window.started_files st <> [] /\
    NoDup (Window.started_files st) /\
    0 < Window.started_per_page st /\
    (70 < fst (Window.started_page_size st))%Q /\
    (70 < snd (Window.started_page_size st))%Q /\
    (exists t,
        events (V2.run env (v2_converter st))
        = CanvasNew (Window.started_output st) (Window.started_page_size st)
            (if Window.started_high_quality st then Some 1 else None) :: t) /\
    (exists t,
        events (Svg.run env (svg_converter st))
        = CanvasNew (Window.started_output st) (Window.started_page_size st)
            (if Window.started_high_quality st then Some 1 else None) :: t) /\
    forall w0,
      Window.image_files w0 = [] ->
      Window.convert_files env fs base_name fuel w0 s
      = Some (Window.show_box w0 WarnungKeineDateien, None).
Proof.
  intros env fs patterns base_name actions fuel s w' st w Hspin H.
  apply convert_files_started in H.
  destruct H as [Hne [Ef [Ep [Es _]]]].
  destruct (after_shown_as_listed env fs patterns actions) as [D _].
  fold w in D. rewrite Ef, Ep, Es.
  split; [reflexivity |]. split; [exact Hne |]. split; [exact D |].
  split; [lia |].
  split; [apply page_sizes_large |]. split; [apply page_sizes_large |].
  split; [| split].
  - rewrite V2_run_eq; cbn [v2_converter V2.image_files V2.images_per_page
                              V2.output_path V2.page_size V2.high_quality];
      [| now rewrite Ef | lia].
    rewrite Es. eexists. reflexivity.
  - rewrite Svg_run_eq; cbn [svg_converter Svg.svg_files Svg.images_per_page
                               Svg.output_path Svg.page_size Svg.high_quality];
      [| now rewrite Ef | lia].
    rewrite Es. eexists. reflexivity.
  - intros w0 E0. unfold Window.convert_files. now rewrite E0.
Qed.

Lemma X10_witness :
  exists w' st,
    Window.convert_files env0 fs0 "converted_images" 5
      (Window.after env0 fs0 v2_patterns
         [Window.SelectFiles ["a.svg"; "a.svg"]; Window.SelectOutputFolder "out"])
      {| Window.save_file_name := ""; Window.images_per_page_spin := 12;
         Window.page_size_combo := 4; Window.high_quality_cb := false |}
    = Some (w', Some st) /\
    Window.started_files st = ["a.svg"] /\
    0 < Window.started_per_page st.
Proof.
  eexists. eexists. split; [reflexivity |].
  destruct (X10_started_conversion_is_well_formed env0 fs0 v2_patterns
              "converted_images"
              [Window.SelectFiles ["a.svg"; "a.svg"]; Window.SelectOutputFolder "out"]
              5
              {| Window.save_file_name := ""; Window.images_per_page_spin := 12;
                 Window.page_size_combo := 4; Window.high_quality_cb := false |}
              _ _ ltac:(cbn; lia) eq_refl) as [F [_ [_ [P _]]]].
  split; [exact F | exact P].
Defined.

(** * More on the converters *)

(** ** What the loops emit *)

Section Only.
Variable P : Event -> bool.

Lemma only_bind {A B} (m : M A) (f : A -> M B) :
  only P m -> (forall a, only P (f a)) -> only P (bind m f).
Proof.
  unfold only. intros Hm Hf. rewrite events_bind. apply Forall_app.
  split; [exact Hm |]. destruct (outcome m); [apply Hf | constructor].
Qed.

Lemma only_try_except {A} (m : M A) (h : string -> M A) :
  only P m -> (forall e, only P (h e)) -> only P (try_except m h).
Proof.
  unfold only. intros Hm Hh. destruct m as [t [a | e]]; cbn in *; [exact Hm |].
  specialize (Hh e). destruct (h e) as [t' r]. cbn in *.
  apply Forall_app. now split.
Qed.

Lemma only_silent {A} (m : M A) : events m = [] -> only P m.
Proof. unfold only. intros ->. constructor. Qed.

Lemma only_emit (e : Event) : P e = true -> only P (emit e).
Proof. intros H. repeat constructor. exact H. Qed.

Lemma only_call (r : result unit) (e : Event) : P e = true -> only P (call r e).
Proof.
  intros H. unfold call. apply only_bind; [now apply only_silent |].
  intros _. now apply only_emit.
Qed.
End Only.

Ltac only_step :=
  first
    [ apply only_bind; [| intros ? ]
    | apply only_call; reflexivity
    | apply only_emit; reflexivity
    | apply only_silent; first [ reflexivity | apply truediv_silent ] ].

Lemma V2_try_body_turn (env : Env) (self : V2.ImageToPDFConverter)
    (row col : Z) (f : string) :
  only turn_event (V2.try_body env self row col f).
Proof.
  assert (D : forall ext d w h,
             only turn_event (V2.scale_and_draw env self ext row col f d w h)).
  { intros ext d w h. unfold V2.scale_and_draw, V2.place.
    apply only_bind; [repeat only_step | intros p].
    apply only_bind; [destruct (V2.high_quality self); only_step | intros _].
    apply only_bind; [| intros _; only_step].
    destruct (String.eqb ext ".svg").
    - destruct d; repeat only_step.
    - destruct (in_list ext V2.raster_suffixes); repeat only_step. }
  unfold V2.try_body.
  destruct (String.eqb (suffix_lower env f) ".svg").
  - apply only_bind; [only_step | intros d].
    destruct d as [d |]; [destruct (falsy (width d) || falsy (height d)) |]; apply D.
  - destruct (in_list (suffix_lower env f) V2.raster_suffixes).
    + apply only_bind; [only_step | intros [w h]]. apply D.
    + repeat only_step.
Qed.

Lemma Svg_try_body_turn (env : Env) (self : Svg.SVGToPDFConverter)
    (row col : Z) (f : string) :
  only turn_event (Svg.try_body env self row col f).
Proof.
  unfold Svg.try_body, Svg.place.
  apply only_bind; [only_step | intros d].
  destruct d as [d |]; [| only_step].
  destruct (falsy (width d) || falsy (height d));
    (apply only_bind; [repeat only_step | intros p]);
    (apply only_bind; [destruct (Svg.high_quality self); only_step | intros _]);
    repeat only_step.
Qed.

Section LoopsEmit.
Variable env : Env.
Variable try_body : Z -> Z -> string -> M control.
Variable files : list string.
Variable images_per_page : Z.
Hypothesis Hturn : forall row col f, only turn_event (try_body row col f).

Lemma loop_body_turn (i : Z) (f : string) (fp : Z) :
  only turn_event (loop_body env try_body files i f fp).
Proof.
  unfold loop_body, grid_slot, progress.
  apply only_bind.
  - apply only_try_except; [apply Hturn | intros e; repeat only_step].
  - intros [|]; repeat only_step.
Qed.

Lemma loop_trace_turn_events (l : list (Z * string)) :
  forall fp,
    Forall (fun e => turn_event e = true) (loop_trace env try_body files l fp).
Proof.
  induction l as [| [i f] l IH]; intros fp; [constructor |].
  cbn [loop_trace]. apply Forall_app. split; [| apply IH].
  apply loop_body_turn.
Qed.

Lemma pages_trace_loop_events (page_nums : list Z) :
  forall fp,
    Forall (fun e => loop_event e = true)
      (pages_trace env try_body files images_per_page page_nums fp).
Proof.
  induction page_nums as [| page_num rest IH]; intros fp; [constructor |].
  cbn [pages_trace]. constructor; [reflexivity |].
  apply Forall_app. split; [destruct (0 <? page_num); repeat constructor |].
  apply Forall_app. split; [| apply IH].
  eapply Forall_impl; [| apply loop_trace_turn_events].
  intros e He. unfold loop_event. now destruct e as [| | | | | | [] | |].
Qed.
End LoopsEmit.

(** ** The run for any number of images per page *)

Lemma page_starts_negative (files : list string) (images_per_page : Z) :
  files <> [] -> images_per_page < 0 -> page_starts files images_per_page = [].
Proof.
  intros Hf Hn. unfold page_starts.
  destruct (Z.ltb_spec 0 images_per_page) as [? | _]; [lia |].
  pose proof (total_files_pos files Hf).
  replace (Z.to_nat (0 - total_files files)) with 0%nat by lia. reflexivity.
Qed.

Lemma convert_loop_general (env : Env) (try_body : Z -> Z -> string -> M control)
    (files : list string) (images_per_page : Z) :
  files <> [] ->
  convert_loop env try_body files images_per_page
  = if images_per_page =? 0
    then ([], Raise "range() arg 3 must not be zero")
    else (pages_trace env try_body files images_per_page
            (page_starts files images_per_page) 0,
          Ok (completed try_body
                (slots_of files images_per_page
                   (page_starts files images_per_page)))).
Proof.
  intros Hf. unfold convert_loop, py_range, page_starts.
  destruct (images_per_page =? 0); [reflexivity |].
  rewrite Z.sub_0_r.
  destruct (0 <? images_per_page); unfold ret at 1;
    rewrite bind_pair_Ok, page_loop_eq by assumption; reflexivity.
Qed.

Lemma V2_run_general (env : Env) (self : V2.ImageToPDFConverter) :
  V2.image_files self <> [] ->
  V2.run env self =
  (CanvasNew (V2.output_path self) (V2.page_size self)
     (if V2.high_quality self then Some 1 else None)
   :: (if negb (V2.images_per_page self =? cols * rows)
       then [status_updated (Warnung (cols * rows))] else [])
   ++ (if V2.images_per_page self =? 0 then [range_failure]
       else pages_trace env (V2.try_body env self) (V2.image_files self)
              (V2.images_per_page self)
              (page_starts (V2.image_files self) (V2.images_per_page self)) 0
            ++ tail_trace (canvas_save env (V2.output_path self))),
   Ok tt).
Proof.
  intros Hf. unfold V2.run, V2.convert_images_to_pdf.
  pose proof (convert_loop_general env (V2.try_body env self) _
                (V2.images_per_page self) Hf) as E.
  destruct (V2.image_files self) as [| f0 fs]; [contradiction |].
  rewrite E. unfold call, emit, lift, ret, range_failure.
  destruct (V2.images_per_page self =? 0);
    destruct (negb (V2.images_per_page self =? cols * rows));
    try destruct (canvas_save env (V2.output_path self)) as [[] | e];
    cbn [bind try_except app]; rewrite ?app_nil_r, <- ?app_assoc; reflexivity.
Qed.

Lemma Svg_run_general (env : Env) (self : Svg.SVGToPDFConverter) :
  Svg.svg_files self <> [] ->
  Svg.run env self =
  (CanvasNew (Svg.output_path self) (Svg.page_size self)
     (if Svg.high_quality self then Some 1 else None)
   :: (if Svg.images_per_page self =? 0 then [range_failure]
       else pages_trace env (Svg.try_body env self) (Svg.svg_files self)
              (Svg.images_per_page self)
              (page_starts (Svg.svg_files self) (Svg.images_per_page self)) 0
            ++ tail_trace (canvas_save env (Svg.output_path self))),
   Ok tt).
Proof.
  intros Hf. unfold Svg.run, Svg.convert_svgs_to_pdf.
  pose proof (convert_loop_general env (Svg.try_body env self) _
                (Svg.images_per_page self) Hf) as E.
  destruct (Svg.svg_files self) as [| f0 fs]; [contradiction |].
  rewrite E. unfold call, emit, lift, ret, range_failure.
  destruct (Svg.images_per_page self =? 0);
    try destruct (canvas_save env (Svg.output_path self)) as [[] | e];
    cbn [bind try_except app]; rewrite ?app_nil_r, <- ?app_assoc; reflexivity.
Qed.

Lemma loop_events_quiet (t : list Event) :
  Forall (fun e => loop_event e = true) t ->
  filter is_finished t = [].
Proof.
  induction 1 as [| e t He _ IH]; [reflexivity |].
  cbn [filter]. rewrite IH. now destruct e.
Qed.

Lemma one_signal_shape (head pages : list Event) (zero : bool)
    (saved : result unit) :
  filter is_finished head = [] ->
  Forall (fun e => loop_event e = true) pages ->
  exists t b msg,
    head ++ (if zero then [range_failure] else pages ++ tail_trace saved)
    = t ++ [finished_signal b msg] /\ filter is_finished t = [].
Proof.
  intros Hh Hp. apply loop_events_quiet in Hp. destruct zero.
  - exists head, false, "Fehler bei der Konvertierung: range() arg 3 must not be zero".
    now split.
  - destruct saved as [[] | e]; cbn [tail_trace].
    + exists (head ++ pages ++ [Save]), true,
        "Konvertierung erfolgreich abgeschlossen!".
      split; [now rewrite <- !app_assoc |].
      now rewrite !filter_app, Hh, Hp.
    + exists (head ++ pages), false, ("Fehler bei der Konvertierung: " ++ e)%string.
      split; [now rewrite <- !app_assoc |].
      now rewrite !filter_app, Hh, Hp.
Qed.

(** X11. Every run, whatever the file list, the number of images per page
    and the behaviour of the libraries, returns normally and emits
    [finished_signal] exactly once, as its last event. In both converters. *)
Theorem X11_run_ends_with_one_completion_signal :
  forall (env : Env) (v2 : V2.ImageToPDFConverter) (sv : Svg.SVGToPDFConverter),
    ends_with_one_signal (V2.run env v2) /\
    ends_with_one_signal (Svg.run env sv).
Proof.
  intros env v2 sv. split.
  - destruct (V2.image_files v2) as [| f0 fs] eqn:E.
    + unfold ends_with_one_signal, V2.run, V2.convert_images_to_pdf. rewrite E.
      split; [reflexivity |]. exists [], false. eexists. split; reflexivity.
    + rewrite V2_run_general by (rewrite E; discriminate).
      split; [reflexivity |]. cbn [events fst].
      apply (one_signal_shape
               (CanvasNew (V2.output_path v2) (V2.page_size v2)
                  (if V2.high_quality v2 then Some 1 else None)
                :: (if negb (V2.images_per_page v2 =? cols * rows)
                    then [status_updated (Warnung (cols * rows))] else []))).
      * now destruct (negb (V2.images_per_page v2 =? cols * rows)).
      * apply pages_trace_loop_events. apply V2_try_body_turn.
  - destruct (Svg.svg_files sv) as [| f0 fs] eqn:E.
    + unfold ends_with_one_signal, Svg.run, Svg.convert_svgs_to_pdf. rewrite E.
      split; [reflexivity |]. exists [], false. eexists. split; reflexivity.
    + rewrite Svg_run_general by (rewrite E; discriminate).
      split; [reflexivity |]. cbn [events fst].
      apply (one_signal_shape
               [CanvasNew (Svg.output_path sv) (Svg.page_size sv)
                  (if Svg.high_quality sv then Some 1 else None)]);
        [reflexivity |].
      apply pages_trace_loop_events. apply Svg_try_body_turn.
Qed.

(** X12. The number of images per page is not checked by the converter.
    With 0 the run creates the canvas and then fails with the message of
    [range]; no page is processed and nothing is saved. With a negative
    number the page loop does not run at all: no file is processed, the
    empty document is saved and, if that succeeds, success is reported. *)
Theorem X12_non_positive_images_per_page :
  forall (env : Env) (v2 : V2.ImageToPDFConverter) (sv : Svg.SVGToPDFConverter),
    V2.image_files v2 <> [] -> Svg.svg_files sv <> [] ->
    (V2.images_per_page v2 = 0 ->
       events (V2.run env v2)
       = [CanvasNew (V2.output_path v2) (V2.page_size v2)
            (if V2.high_quality v2 then Some 1 else None);
          status_updated (Warnung 9); range_failure]) /\
    (Svg.images_per_page sv = 0 ->
       events (Svg.run env sv)
       = [CanvasNew (Svg.output_path sv) (Svg.page_size sv)
            (if Svg.high_quality sv then Some 1 else None);
          range_failure]) /\
    (V2.images_per_page v2 < 0 ->
       events (V2.run env v2)
       = [CanvasNew (V2.output_path v2) (V2.page_size v2)
            (if V2.high_quality v2 then Some 1 else None);
          status_updated (Warnung 9)]
         ++ tail_trace (canvas_save env (V2.output_path v2))) /\
    (Svg.images_per_page sv < 0 ->
       events (Svg.run env sv)
       = [CanvasNew (Svg.output_path sv) (Svg.page_size sv)
            (if Svg.high_quality sv then Some 1 else None)]
         ++ tail_trace (canvas_save env (Svg.output_path sv))).
Proof.
  intros env v2 sv H2 Hs.
  rewrite V2_run_general, Svg_run_general by assumption. cbn [events fst].
  repeat split.
  - intros ->. reflexivity.
  - intros ->. reflexivity.
  - intros N. rewrite page_starts_negative by assumption.
    destruct (Z.eqb_spec (V2.images_per_page v2) 0) as [? | _]; [lia |].
    destruct (Z.eqb_spec (V2.images_per_page v2) (cols * rows)) as [E | _];
      [unfold cols, rows in E; lia | reflexivity].
  - intros N. rewrite page_starts_negative by assumption.
    destruct (Z.eqb_spec (Svg.images_per_page sv) 0) as [? | _]; [lia |].
    reflexivity.
Qed.

Lemma X12_witness :
  events (V2.run env0 (v2_a4 ["a.svg"] 0))
  = [CanvasNew "out.pdf" A4 (Some 1); status_updated (Warnung 9); range_failure] /\
  events (Svg.run env0 (svg_a4 ["a.svg"] (-3) true))
  = [CanvasNew "out.pdf" A4 (Some 1); Save; success].
Proof.
  destruct (X12_non_positive_images_per_page env0 (v2_a4 ["a.svg"] 0)
              (svg_a4 ["a.svg"] (-3) true)
              ltac:(discriminate) ltac:(discriminate)) as [Z2 [_ [_ Ns]]].
  split; [exact (Z2 eq_refl) | exact (Ns eq_refl)].
Defined.

(** ** Page messages *)

Lemma page_msgs_app (a b : list Event) :
  page_msgs_of (a ++ b) = page_msgs_of a ++ page_msgs_of b.
Proof. apply flat_map_app. Qed.

Lemma turn_events_no_page (t : list Event) :
  Forall (fun e => turn_event e = true) t -> page_msgs_of t = [].
Proof.
  induction 1 as [| e t He _ IH]; [reflexivity |].
  cbn [page_msgs_of flat_map]. fold (page_msgs_of t). rewrite IH.
  destruct e as [| | | | | | [] | |]; try reflexivity; discriminate.
Qed.

Lemma pages_trace_page_msgs (env : Env) (try_body : Z -> Z -> string -> M control)
    (files : list string) (images_per_page : Z) (page_nums : list Z) :
  (forall row col f, only turn_event (try_body row col f)) ->
  forall fp,
    page_msgs_of (pages_trace env try_body files images_per_page page_nums fp)
    = map (fun page_num => page_num / images_per_page + 1) page_nums.
Proof.
  intros Hturn. induction page_nums as [| page_num rest IH]; intros fp;
    [reflexivity |].
  cbn [pages_trace map].
  change (status_updated ?m :: ?t) with ([status_updated m] ++ t).
  rewrite !page_msgs_app, IH.
  rewrite (turn_events_no_page _ (loop_trace_turn_events env try_body files Hturn _ _)).
  now destruct (0 <? page_num).
Qed.

Lemma range_up_page_numbers (step stop : Z) (fuel : nat) :
  0 < step ->
  forall m,
    map (fun page_num => page_num / step + 1) (range_up fuel (m * step) stop step)
    = zseq (m + 1) (List.length (range_up fuel (m * step) stop step)).
Proof.
  intros Hs. induction fuel as [| fuel IH]; intros m; [reflexivity |].
  cbn [range_up]. destruct (m * step <? stop); [| reflexivity].
  cbn [map List.length zseq]. rewrite Z.div_mul by lia. f_equal.
  replace (m * step + step) with ((m + 1) * step) by lia. apply IH.
Qed.

(** X13. The pages are announced as 1, 2, ..., [ceil(N / imagesPerPage)]:
    one "Verarbeite Seite k" message for each page, in order, none left out
    and none repeated. In both converters. *)
Theorem X13_pages_are_numbered_consecutively :
  forall (env : Env) (v2 : V2.ImageToPDFConverter) (sv : Svg.SVGToPDFConverter),
    V2.image_files v2 <> [] -> 0 < V2.images_per_page v2 ->
    Svg.svg_files sv <> [] -> 0 < Svg.images_per_page sv ->
    page_msgs_of (events (V2.run env v2))
    = zseq 1 (Z.to_nat (ceil_div (py_len (V2.image_files v2))
                          (V2.images_per_page v2))) /\
    page_msgs_of (events (Svg.run env sv))
    = zseq 1 (Z.to_nat (ceil_div (py_len (Svg.svg_files sv))
                          (Svg.images_per_page sv))).
Proof.
  intros env v2 sv Hf2 Hp2 Hfs Hps.
  destruct (range_pages _ _ (total_files_pos _ Hf2) Hp2) as [L2 _].
  destruct (range_pages _ _ (total_files_pos _ Hfs) Hps) as [Ls _].
  pose proof (range_up_page_numbers (V2.images_per_page v2)
                (total_files (V2.image_files v2))
                (Z.to_nat (total_files (V2.image_files v2))) Hp2 0) as R2.
  pose proof (range_up_page_numbers (Svg.images_per_page sv)
                (total_files (Svg.svg_files sv))
                (Z.to_nat (total_files (Svg.svg_files sv))) Hps 0) as Rs.
  cbn [Z.mul Z.add] in R2, Rs. rewrite L2 in R2. rewrite Ls in Rs.
  rewrite V2_run_eq, Svg_run_eq by assumption. cbn [events fst]. split.
  - change (CanvasNew ?a ?b ?c :: ?l) with ([CanvasNew a b c] ++ l).
    rewrite !page_msgs_app, pages_trace_page_msgs by apply V2_try_body_turn.
    rewrite R2.
    replace (page_msgs_of (if negb (V2.images_per_page v2 =? cols * rows)
                           then [status_updated (Warnung (cols * rows))] else []))
      with (@nil Z) by now destruct (negb (V2.images_per_page v2 =? cols * rows)).
    replace (page_msgs_of (tail_trace (canvas_save env (V2.output_path v2))))
      with (@nil Z) by now destruct (canvas_save env (V2.output_path v2)).
    cbn [page_msgs_of flat_map app]. now rewrite app_nil_r.
  - change (CanvasNew ?a ?b ?c :: ?l) with ([CanvasNew a b c] ++ l).
    rewrite !page_msgs_app, pages_trace_page_msgs by apply Svg_try_body_turn.
    rewrite Rs.
    replace (page_msgs_of (tail_trace (canvas_save env (Svg.output_path sv))))
      with (@nil Z) by now destruct (canvas_save env (Svg.output_path sv)).
    cbn [page_msgs_of flat_map app]. now rewrite app_nil_r.
Qed.

Lemma X13_witness :
  page_msgs_of (events (V2.run env0 (v2_a4 ten 3))) = [1; 2; 3; 4].
Proof.
  exact (proj1 (X13_pages_are_numbered_consecutively env0 (v2_a4 ten 3)
                  (svg_a4 ten 3 true)
                  ltac:(discriminate) eq_refl ltac:(discriminate) eq_refl)).
Defined.

(** ** Drawing calls *)

Lemma V2_place_silent (self : V2.ImageToPDFConverter) (row col : Z) (w h : Q) :
  events (V2.place self row col w h) = [].
Proof.
  unfold V2.place, py_truediv.
  destruct (Qeq_bool w 0); [reflexivity |]. now destruct (Qeq_bool h 0).
Qed.

Lemma Svg_place_silent (self : Svg.SVGToPDFConverter) (x y w h : Q) :
  events (Svg.place self x y w h) = [].
Proof.
  unfold Svg.place, py_truediv.
  destruct (Qeq_bool w 0); [reflexivity |]. now destruct (Qeq_bool h 0).
Qed.

Lemma V2_scale_and_draw_one_draw env self ext row col f d w h :
  one_draw f (outcome (V2.place self row col w h))
    (events (V2.scale_and_draw env self ext row col f d w h)).
Proof.
  unfold V2.scale_and_draw.
  pose proof (V2_place_silent self row col w h) as S.
  destruct (V2.place self row col w h) as [tp [p | e]]; cbn in S; subst tp;
    [| left; reflexivity].
  rewrite bind_pair_Ok. cbn [app outcome snd].
  unfold call, lift, emit, ret, raise.
  destruct (V2.high_quality self), (String.eqb ext ".svg");
    try destruct d; try destruct (in_list ext V2.raster_suffixes);
    try destruct (renderPDF_draw env f (scale p) (centered_x p) (centered_y p))
      as [[] |];
    try destruct (drawImage env f (centered_x p) (centered_y p)
                    (scaled_width p) (scaled_height p)) as [[] |];
    cbn; try (left; reflexivity);
    right; exists p; eexists; (split; [reflexivity |]);
    (split; [| reflexivity]); unfold draws_at; auto.
Qed.

Lemma V2_try_body_one_draw env self row col f :
  exists w h,
    one_draw f (outcome (V2.place self row col w h))
      (events (V2.try_body env self row col f)).
Proof.
  unfold V2.try_body.
  destruct (String.eqb (suffix_lower env f) ".svg").
  - destruct (svg2rlg env f) as [d | e]; [| exists 0%Q, 0%Q; now left].
    unfold lift. rewrite bind_pair_Ok. cbn [app].
    destruct d as [d |]; [destruct (falsy (width d) || falsy (height d)) |];
      eexists; eexists; apply V2_scale_and_draw_one_draw.
  - destruct (in_list (suffix_lower env f) V2.raster_suffixes).
    + destruct (ImageReader_getSize env f) as [[w h] | e];
        [| exists 0%Q, 0%Q; now left].
      unfold lift. rewrite bind_pair_Ok. cbn [app].
      eexists; eexists; apply V2_scale_and_draw_one_draw.
    + exists 0%Q, 0%Q. now left.
Qed.

Lemma Svg_draw_one_draw env self row col f w h :
  one_draw f
    (outcome (Svg.place self (Svg.cell_x self col) (Svg.cell_y self row) w h))
    (events
       (p <- Svg.place self (Svg.cell_x self col) (Svg.cell_y self row) w h ;;
        (if Svg.high_quality self
         then emit (SetPageCompression 1) else ret tt) ;;
        call (renderPDF_draw env f (scale p) (centered_x p) (centered_y p))
          (RenderDraw f (scale p) (centered_x p) (centered_y p)) ;;
        emit (status_updated
                (Verarbeitet (basename env f) "Skalierung" (scale p))) ;;
        ret Normal)).
Proof.
  pose proof (Svg_place_silent self (Svg.cell_x self col)
                (Svg.cell_y self row) w h) as S.
  destruct (Svg.place self (Svg.cell_x self col) (Svg.cell_y self row) w h)
    as [tp [p | e]]; cbn in S; subst tp; [| left; reflexivity].
  rewrite bind_pair_Ok. cbn [app outcome snd].
  unfold call, lift, emit, ret.
  destruct (Svg.high_quality self);
    destruct (renderPDF_draw env f (scale p) (centered_x p) (centered_y p))
      as [[] |];
    cbn; try (left; reflexivity);
    right; exists p; eexists; (split; [reflexivity |]);
    (split; [| reflexivity]); unfold draws_at; auto.
Qed.

Lemma Svg_try_body_one_draw env self row col f :
  exists w h,
    one_draw f
      (outcome (Svg.place self (Svg.cell_x self col) (Svg.cell_y self row) w h))
      (events (Svg.try_body env self row col f)).
Proof.
  unfold Svg.try_body.
  destruct (svg2rlg env f) as [d | e]; [| exists 0%Q, 0%Q; now left].
  unfold lift. rewrite bind_pair_Ok. cbn [app].
  destruct d as [d |]; [| exists 0%Q, 0%Q; now left].
  destruct (falsy (width d) || falsy (height d)); eexists; eexists;
    apply Svg_draw_one_draw.
Qed.

(** X14. The turn of a file makes at most one drawing call, and that call is
    for this file with exactly the scale, position and size that [place]
    computes for its grid slot; so what holds of [place] holds of what is
    drawn. In both converters. *)
Theorem X14_drawing_call_carries_the_placement :
  forall (env : Env) (v2 : V2.ImageToPDFConverter) (sv : Svg.SVGToPDFConverter)
         (row col : Z) (f : string),
    (filter is_draw (events (V2.try_body env v2 row col f)) = [] \/
     exists w h p e,
       V2.place v2 row col w h = ([], Ok p) /\ draws_at f p e /\
       filter is_draw (events (V2.try_body env v2 row col f)) = [e]) /\
    (filter is_draw (events (Svg.try_body env sv row col f)) = [] \/
     exists w h p e,
       Svg.place sv (Svg.cell_x sv col) (Svg.cell_y sv row) w h = ([], Ok p) /\
       draws_at f p e /\
       filter is_draw (events (Svg.try_body env sv row col f)) = [e]).
Proof.
  intros env v2 sv row col f. split.
  - destruct (V2_try_body_one_draw env v2 row col f) as [w [h [N | [p [e [P [D E]]]]]]];
      [now left | right].
    exists w, h, p, e. split; [| now split].
    rewrite (M_eta (V2.place v2 row col w h)), V2_place_silent. now f_equal.
  - destruct (Svg_try_body_one_draw env sv row col f)
      as [w [h [N | [p [e [P [D E]]]]]]]; [now left | right].
    exists w, h, p, e. split; [| now split].
    rewrite (M_eta (Svg.place sv _ _ w h)), Svg_place_silent. now f_equal.
Qed.

Lemma drawn_files_app (a b : list Event) :
  drawn_files (a ++ b) = drawn_files a ++ drawn_files b.
Proof. apply flat_map_app. Qed.

Lemma drawn_files_filter (t : list Event) :
  drawn_files t = drawn_files (filter is_draw t).
Proof.
  induction t as [| e t IH]; [reflexivity |].
  cbn [drawn_files flat_map filter]. fold (drawn_files t).
  destruct e; cbn [is_draw drawn_files flat_map app];
    fold (drawn_files (filter is_draw t)); now rewrite IH.
Qed.

Lemma one_draw_drawn (f : string) (placed : result Placement) (t : list Event) :
  one_draw f placed t -> drawn_files t = [] \/ drawn_files t = [f].
Proof.
  rewrite (drawn_files_filter t).
  intros [-> | [p [e [_ [[-> | ->] ->]]]]]; [now left | now right | now right].
Qed.

Section DrawnFiles.
Variable env : Env.
Variable try_body : Z -> Z -> string -> M control.
Variable files : list string.
Variable images_per_page : Z.
Hypothesis Hfiles : files <> [].
Hypothesis Hone :
  forall row col f,
    drawn_files (events (try_body row col f)) = [] \/
    drawn_files (events (try_body row col f)) = [f].

Lemma turn_trace_drawn (slot : Z * string) (fp : Z) :
  drawn_files (turn_trace env try_body files slot fp)
  = if drawn try_body slot then [snd slot] else [].
Proof.
  destruct slot as [i f]. unfold turn_trace, drawn, grid_slot. cbn [fst snd].
  rewrite loop_body_eq by assumption.
  assert (E : drawn_files
                (events
                   match outcome (try_body (i / cols) (i mod cols) f) with
                   | Ok Normal =>
                       (events (try_body (i / cols) (i mod cols) f)
                        ++ [progress_updated (percent (total_files files) (fp + 1))],
                        Ok (fp + 1))
                   | Ok Continue =>
                       (events (try_body (i / cols) (i mod cols) f), Ok fp)
                   | Raise e =>
                       (events (try_body (i / cols) (i mod cols) f)
                        ++ [status_updated (Fehler (basename env f) e)], Ok fp)
                   end)
              = drawn_files (events (try_body (i / cols) (i mod cols) f))).
  { destruct (outcome (try_body (i / cols) (i mod cols) f)) as [[|] | e];
      cbn [events fst]; rewrite ?drawn_files_app; cbn; now rewrite ?app_nil_r. }
  rewrite E. now destruct (Hone (i / cols) (i mod cols) f) as [-> | ->].
Qed.

Lemma loop_trace_drawn (l : list (Z * string)) :
  forall fp,
    drawn_files (loop_trace env try_body files l fp)
    = map snd (filter (drawn try_body) l).
Proof.
  induction l as [| slot l IH]; intros fp; [reflexivity |].
  cbn [loop_trace filter]. rewrite drawn_files_app, turn_trace_drawn, IH.
  now destruct (drawn try_body slot).
Qed.

Lemma pages_trace_drawn (page_nums : list Z) :
  forall fp,
    drawn_files (pages_trace env try_body files images_per_page page_nums fp)
    = map snd (filter (drawn try_body) (slots_of files images_per_page page_nums)).
Proof.
  induction page_nums as [| page_num rest IH]; intros fp; [reflexivity |].
  cbn [pages_trace slots_of flat_map].
  fold (slots_of files images_per_page rest).
  change (status_updated ?m :: ?t) with ([status_updated m] ++ t).
  rewrite !drawn_files_app, loop_trace_drawn, IH, filter_app, map_app.
  now destruct (0 <? page_num).
Qed.
End DrawnFiles.

(** X15. The files drawn in a run are a sub-list of the file list: taken in
    list order, every entry at most once; no file is drawn twice for one
    entry and none that is not listed. In both converters. *)
Theorem X15_files_are_drawn_in_order_at_most_once :
  forall (env : Env) (v2 : V2.ImageToPDFConverter) (sv : Svg.SVGToPDFConverter),
    V2.image_files v2 <> [] -> 0 < V2.images_per_page v2 ->
    Svg.svg_files sv <> [] -> 0 < Svg.images_per_page sv ->
    (drawn_files (events (V2.run env v2))
     = map snd (filter (drawn (V2.try_body env v2))
                  (slots (V2.image_files v2) (V2.images_per_page v2))) /\
     map snd (slots (V2.image_files v2) (V2.images_per_page v2))
     = V2.image_files v2) /\
    (drawn_files (events (Svg.run env sv))
     = map snd (filter (drawn (Svg.try_body env sv))
                  (slots (Svg.svg_files sv) (Svg.images_per_page sv))) /\
     map snd (slots (Svg.svg_files sv) (Svg.images_per_page sv))
     = Svg.svg_files sv).
Proof.
  intros env v2 sv Hf2 Hp2 Hfs Hps.
  rewrite V2_run_eq, Svg_run_eq by assumption. cbn [events fst]. split; split.
  - change (CanvasNew ?a ?b ?c :: ?l) with ([CanvasNew a b c] ++ l).
    rewrite !drawn_files_app, pages_trace_drawn.
    + replace (drawn_files (if negb (V2.images_per_page v2 =? cols * rows)
                            then [status_updated (Warnung (cols * rows))] else []))
        with (@nil string)
        by now destruct (negb (V2.images_per_page v2 =? cols * rows)).
      replace (drawn_files (tail_trace (canvas_save env (V2.output_path v2))))
        with (@nil string) by now destruct (canvas_save env (V2.output_path v2)).
      cbn [drawn_files flat_map app]. now rewrite app_nil_r.
    + assumption.
    + intros row col f.
      destruct (V2_try_body_one_draw env v2 row col f) as [w [h D]].
      now apply one_draw_drawn in D.
  - now apply slots_files.
  - change (CanvasNew ?a ?b ?c :: ?l) with ([CanvasNew a b c] ++ l).
    rewrite !drawn_files_app, pages_trace_drawn.
    + replace (drawn_files (tail_trace (canvas_save env (Svg.output_path sv))))
        with (@nil string) by now destruct (canvas_save env (Svg.output_path sv)).
      cbn [drawn_files flat_map app]. now rewrite app_nil_r.
    + assumption.
    + intros row col f.
      destruct (Svg_try_body_one_draw env sv row col f) as [w [h D]].
      now apply one_draw_drawn in D.
  - now apply slots_files.
Qed.

Lemma X15_witness :
  drawn_files
    (events (V2.run env0 (v2_a4 ["a.svg"; "b.txt"; "bad.svg"; "none.svg"; "p.png"] 2)))
  = ["a.svg"; "p.png"].
Proof.
  exact (proj1 (proj1 (X15_files_are_drawn_in_order_at_most_once env0
                         (v2_a4 ["a.svg"; "b.txt"; "bad.svg"; "none.svg"; "p.png"] 2)
                         (svg_a4 ["a.svg"] 9 true)
                         ltac:(discriminate) eq_refl ltac:(discriminate) eq_refl))).
Defined.

(** ** Images without a usable size *)

Lemma V2_place_zero_width (self : V2.ImageToPDFConverter) (row col : Z) (w h : Q) :
  (w == 0)%Q \/ (h == 0)%Q ->
  V2.place self row col w h = ([], Raise ZeroDivisionError).
Proof.
  intros H. unfold V2.place, py_truediv.
  destruct (Qeq_bool w 0) eqn:Ew; [reflexivity |].
  destruct (Qeq_bool h 0) eqn:Eh; [reflexivity |].
  destruct H as [H | H]; apply Qeq_bool_iff in H; congruence.
Qed.

(** X16. In img2pdf_v2.py an SVG file for which [svg2rlg] returns no drawing
    object, and a raster image whose reported width or height is 0, run into
    a division by zero: the turn emits the error message with that cause and
    nothing else, nothing is drawn, and the file is not counted. (In
    image_2_pdf.py the missing drawing object passes silently and is
    counted.) *)
Theorem X16_missing_size_is_a_division_by_zero :
  forall (env : Env) (v2 : V2.ImageToPDFConverter) (i : Z) (f : string) (fp : Z),
    V2.image_files v2 <> [] ->
    (suffix_lower env f = ".svg" -> svg2rlg env f = Ok None ->
     loop_body env (V2.try_body env v2) (V2.image_files v2) i f fp
     = ([status_updated (Fehler (basename env f) ZeroDivisionError)], Ok fp)) /\
    (forall w h,
        suffix_lower env f <> ".svg" ->
        in_list (suffix_lower env f) V2.raster_suffixes = true ->
        ImageReader_getSize env f = Ok (w, h) ->
        w = 0 \/ h = 0 ->
        loop_body env (V2.try_body env v2) (V2.image_files v2) i f fp
        = ([status_updated (Fehler (basename env f) ZeroDivisionError)], Ok fp)).
Proof.
  intros env v2 i f fp Hf. split.
  - intros Hs Hd.
    assert (E : V2.try_body env v2 (i / cols) (i mod cols) f
                = ([], Raise ZeroDivisionError)).
    { unfold V2.try_body. rewrite Hs, Hd. cbn [String.eqb Ascii.eqb Bool.eqb].
      unfold lift. rewrite bind_pair_Ok. cbn [app].
      unfold V2.scale_and_draw.
      rewrite V2_place_zero_width by (left; reflexivity). reflexivity. }
    rewrite loop_body_eq, E by assumption. reflexivity.
  - intros w h Hs Hr Hg Hz.
    assert (E : V2.try_body env v2 (i / cols) (i mod cols) f
                = ([], Raise ZeroDivisionError)).
    { unfold V2.try_body. apply String.eqb_neq in Hs. rewrite Hs, Hr, Hg.
      unfold lift. rewrite bind_pair_Ok. cbn [app].
      unfold V2.scale_and_draw.
      rewrite V2_place_zero_width; [reflexivity |].
      destruct Hz as [-> | ->]; [left | right]; reflexivity. }
    rewrite loop_body_eq, E by assumption. reflexivity.
Qed.

Lemma X16_witness :
  loop_body env0 (V2.try_body env0 (v2_a4 ["a.svg"; "none.svg"] 9))
    ["a.svg"; "none.svg"] 1 "none.svg" 1
  = ([status_updated (Fehler "none.svg" "float division by zero")], Ok 1).
Proof.
  exact (proj1 (X16_missing_size_is_a_division_by_zero env0
                  (v2_a4 ["a.svg"; "none.svg"] 9) 1 "none.svg" 1
                  ltac:(discriminate)) eq_refl eq_refl).
Defined.

(** ** Shape of the scaled image *)

(** X17. Scaling is uniform and as large as the cell allows: the scaled
    width and height are in the proportion of the intrinsic ones, and the
    scaled image spans the whole cell (img2pdf_v2.py) or the cell less the
    padding of 10 points (image_2_pdf.py) in at least one direction. *)
Theorem X17_aspect_ratio_kept_and_cell_filled :
  forall (v2 : V2.ImageToPDFConverter) (sv : Svg.SVGToPDFConverter)
         (row col : Z) (x y w h : Q) (p q : Placement),
    (0 < w)%Q -> (0 < h)%Q ->
    V2.place v2 row col w h = ([], Ok p) ->
    Svg.place sv x y w h = ([], Ok q) ->
    ((scaled_width p * h == scaled_height p * w)%Q /\
     ((scaled_width p == V2.cell_width v2)%Q \/
      (scaled_height p == V2.cell_height v2)%Q)) /\
    ((scaled_width q * h == scaled_height q * w)%Q /\
     ((scaled_width q == Svg.cell_width sv - 10)%Q \/
      (scaled_height q == Svg.cell_height sv - 10)%Q)).
Proof.
  intros v2 sv row col x y w h p q Hw Hh Hp Hq.
  rewrite V2_place_eq in Hp by lra. rewrite Svg_place_eq in Hq by lra.
  injection Hp as <-. injection Hq as <-. cbn [scaled_width scaled_height].
  split; (split; [ring |]).
  - destruct (Q.min_spec (V2.cell_width v2 / w) (V2.cell_height v2 / h))
      as [[_ E] | [_ E]]; rewrite E; [left | right]; apply Qmult_div_r; lra.
  - destruct (Q.min_spec ((Svg.cell_width sv - 10) / w)
                ((Svg.cell_height sv - 10) / h))
      as [[_ E] | [_ E]]; rewrite E; [left | right]; apply Qmult_div_r; lra.
Qed.

Lemma X17_witness :
  exists p,
    V2.place (v2_a4 ["a.svg"] 9) 0 0 100 50 = ([], Ok p) /\
    (scaled_width p * 50 == scaled_height p * 100)%Q.
Proof.
  assert (Hp := V2_place_eq (v2_a4 ["a.svg"] 9) 0 0 100 50
                  ltac:(discriminate) ltac:(discriminate)).
  assert (Hq := Svg_place_eq (svg_a4 ["a.svg"] 9 true) 0 0 100 50
                  ltac:(discriminate) ltac:(discriminate)).
  eexists. split; [exact Hp |].
  exact (proj1 (proj1 (X17_aspect_ratio_kept_and_cell_filled
                         (v2_a4 ["a.svg"] 9) (svg_a4 ["a.svg"] 9 true)
                         0 0 0 0 100 50 _ _ eq_refl eq_refl Hp Hq))).
Defined.

Lemma fit_own_size (a b : Q) :
  (0 < a)%Q -> (0 < b)%Q -> (Qmin (a / a) (b / b) == 1)%Q.
Proof.
  intros Ha Hb.
  assert (Ea : (a / a == 1)%Q) by (field; lra).
  assert (Eb : (b / b == 1)%Q) by (field; lra).
  destruct (Q.min_spec (a / a) (b / b)) as [[_ E] | [_ E]]; rewrite E; assumption.
Qed.

(** X18. An SVG whose drawing object reports a width or height of 0 is laid
    out as if it had the size of its cell (img2pdf_v2.py) or of the cell
    less 10 points (image_2_pdf.py): the scale is 1, and the drawing call,
    if it is made, places it on the cell origin, respectively 5 points
    inside it. Page sizes are positive, above 70 points in image_2_pdf.py. *)
Theorem X18_svg_without_size_takes_the_cell :
  forall (env : Env) (v2 : V2.ImageToPDFConverter) (sv : Svg.SVGToPDFConverter)
         (row col : Z) (f : string) (d : Drawing),
    suffix_lower env f = ".svg" ->
    svg2rlg env f = Ok (Some d) ->
    falsy (width d) || falsy (height d) = true ->
    (0 < V2.page_width v2)%Q -> (0 < V2.page_height v2)%Q ->
    (70 < Svg.page_width sv)%Q -> (70 < Svg.page_height sv)%Q ->
    (exists p,
        V2.place v2 row col (V2.cell_width v2) (V2.cell_height v2) = ([], Ok p) /\
        (scale p == 1)%Q /\
        (scaled_width p == V2.cell_width v2)%Q /\
        (scaled_height p == V2.cell_height v2)%Q /\
        (centered_x p == V2.cell_x v2 col)%Q /\
        (centered_y p == V2.cell_y v2 row)%Q /\
        (filter is_draw (events (V2.try_body env v2 row col f)) = [] \/
         exists e, draws_at f p e /\
                   filter is_draw (events (V2.try_body env v2 row col f)) = [e])) /\
    (exists q,
        Svg.place sv (Svg.cell_x sv col) (Svg.cell_y sv row)
          (Svg.cell_width sv - 10) (Svg.cell_height sv - 10) = ([], Ok q) /\
        (scale q == 1)%Q /\
        (scaled_width q == Svg.cell_width sv - 10)%Q /\
        (scaled_height q == Svg.cell_height sv - 10)%Q /\
        (centered_x q == Svg.cell_x sv col + 5)%Q /\
        (centered_y q == Svg.cell_y sv row + 5)%Q /\
        (filter is_draw (events (Svg.try_body env sv row col f)) = [] \/
         exists e, draws_at f q e /\
                   filter is_draw (events (Svg.try_body env sv row col f)) = [e])).
Proof.
  intros env v2 sv row col f d Hs Hd Hz Vw Vh Sw Sh.
  destruct (V2_cell_sizes v2) as [Vcw Vch].
  destruct (Svg_cell_sizes sv) as [Scw Sch].
  split.
  - pose proof (V2_place_eq v2 row col (V2.cell_width v2) (V2.cell_height v2)
                  ltac:(lra) ltac:(lra)) as P.
    pose proof (fit_own_size (V2.cell_width v2) (V2.cell_height v2)
                  ltac:(lra) ltac:(lra)) as One.
    eexists. split; [exact P |]. cbn zeta.
    cbn [scale scaled_width scaled_height centered_x centered_y].
    rewrite One. unfold V2.cell_x, V2.cell_y.
    split; [reflexivity |]. split; [ring |]. split; [ring |].
    split; [qlra |]. split; [qlra |].
    assert (T : V2.try_body env v2 row col f
                = V2.scale_and_draw env v2 ".svg" row col f (Some d)
                    (V2.cell_width v2) (V2.cell_height v2)).
    { unfold V2.try_body. rewrite Hs, Hd. cbn [String.eqb Ascii.eqb Bool.eqb].
      unfold lift. rewrite bind_pair_Ok. cbn [app]. rewrite Hz.
      now destruct (V2.scale_and_draw env v2 ".svg" row col f (Some d)
                      (V2.cell_width v2) (V2.cell_height v2)). }
    rewrite T.
    destruct (V2_scale_and_draw_one_draw env v2 ".svg" row col f (Some d)
                (V2.cell_width v2) (V2.cell_height v2))
      as [N | [p [e [Hp [D E]]]]]; [now left | right].
    rewrite P in Hp. cbn [outcome snd] in Hp. injection Hp as <-.
    exists e. now split.
  - pose proof (Svg_place_eq sv (Svg.cell_x sv col) (Svg.cell_y sv row)
                  (Svg.cell_width sv - 10) (Svg.cell_height sv - 10)
                  ltac:(lra) ltac:(lra)) as P.
    pose proof (fit_own_size (Svg.cell_width sv - 10) (Svg.cell_height sv - 10)
                  ltac:(lra) ltac:(lra)) as One.
    eexists. split; [exact P |]. cbn zeta.
    cbn [scale scaled_width scaled_height centered_x centered_y].
    rewrite One.
    split; [reflexivity |]. split; [ring |]. split; [ring |].
    split; [qlra |]. split; [qlra |].
    assert (T : events (Svg.try_body env sv row col f)
                = events
                    (p <- Svg.place sv (Svg.cell_x sv col) (Svg.cell_y sv row)
                            (Svg.cell_width sv - 10) (Svg.cell_height sv - 10) ;;
                     (if Svg.high_quality sv
                      then emit (SetPageCompression 1) else ret tt) ;;
                     call (renderPDF_draw env f (scale p) (centered_x p)
                             (centered_y p))
                       (RenderDraw f (scale p) (centered_x p) (centered_y p)) ;;
                     emit (status_updated
                             (Verarbeitet (basename env f) "Skalierung" (scale p))) ;;
                     ret Normal)).
    { unfold Svg.try_body. rewrite Hd.
      unfold lift. rewrite bind_pair_Ok. cbn [app]. now rewrite Hz. }
    rewrite T.
    destruct (Svg_draw_one_draw env sv row col f
                (Svg.cell_width sv - 10) (Svg.cell_height sv - 10))
      as [N | [p [e [Hp [D E]]]]]; [now left | right].
    rewrite P in Hp. cbn [outcome snd] in Hp. injection Hp as <-.
    exists e. now split.
Qed.

Lemma X18_witness :
  exists p,
    V2.place (v2_a4 ["z.svg"] 9) 0 1
      (V2.cell_width (v2_a4 ["z.svg"] 9)) (V2.cell_height (v2_a4 ["z.svg"] 9))
    = ([], Ok p) /\
    (scale p == 1)%Q /\
    (centered_x p == V2.cell_x (v2_a4 ["z.svg"] 9) 1)%Q.
Proof.
  destruct (X18_svg_without_size_takes_the_cell env_flat (v2_a4 ["z.svg"] 9)
              (svg_a4 ["z.svg"] 9 true) 0 1 "z.svg"
              {| width := 0; height := 50 |}
              eq_refl eq_refl eq_refl eq_refl eq_refl eq_refl eq_refl)
    as [[p [P [S [_ [_ [X _]]]]]] _].
  exists p. split; [exact P |]. split; [exact S | exact X].
Defined.

(** ** One message for each file *)

Lemma file_msgs_app (a b : list Event) :
  file_msgs_of (a ++ b) = file_msgs_of a ++ file_msgs_of b.
Proof. apply flat_map_app. Qed.

Lemma V2_scale_and_draw_msgs env self ext row col f d w h :
  String.eqb ext ".svg" = true \/ in_list ext V2.raster_suffixes = true ->
  match outcome (V2.scale_and_draw env self ext row col f d w h) with
  | Ok _ =>
      file_msgs_of (events (V2.scale_and_draw env self ext row col f d w h))
      = [basename env f]
  | Raise _ =>
      file_msgs_of (events (V2.scale_and_draw env self ext row col f d w h)) = []
  end.
Proof.
  intros Hext. unfold V2.scale_and_draw.
  pose proof (V2_place_silent self row col w h) as S.
  destruct (V2.place self row col w h) as [tp [p | e]]; cbn in S; subst tp;
    [| reflexivity].
  rewrite !bind_pair_Ok. cbn [app outcome events fst snd].
  unfold call, lift, emit, ret, raise.
  destruct (V2.high_quality self), (String.eqb ext ".svg");
    try destruct d; try destruct (in_list ext V2.raster_suffixes);
    try destruct (renderPDF_draw env f (scale p) (centered_x p) (centered_y p))
      as [[] |];
    try destruct (drawImage env f (centered_x p) (centered_y p)
                    (scaled_width p) (scaled_height p)) as [[] |];
    cbn; try reflexivity; destruct Hext; discriminate.
Qed.

Lemma V2_loop_body_msgs env self files i f fp :
  files <> [] ->
  file_msgs_of (events (loop_body env (V2.try_body env self) files i f fp))
  = [basename env f].
Proof.
  intros Hf. rewrite loop_body_eq by assumption.
  assert (T : match outcome (V2.try_body env self (i / cols) (i mod cols) f) with
              | Ok _ =>
                  file_msgs_of
                    (events (V2.try_body env self (i / cols) (i mod cols) f))
                  = [basename env f]
              | Raise _ =>
                  file_msgs_of
                    (events (V2.try_body env self (i / cols) (i mod cols) f)) = []
              end).
  { unfold V2.try_body.
    destruct (String.eqb (suffix_lower env f) ".svg") eqn:Es.
    - destruct (svg2rlg env f) as [d | e]; [| reflexivity].
      unfold lift. rewrite bind_pair_Ok. cbn [app outcome events fst snd].
      destruct d as [d |]; [destruct (falsy (width d) || falsy (height d)) |];
        apply V2_scale_and_draw_msgs; now left.
    - destruct (in_list (suffix_lower env f) V2.raster_suffixes) eqn:Er.
      + destruct (ImageReader_getSize env f) as [[w h] | e]; [| reflexivity].
        unfold lift. rewrite bind_pair_Ok. cbn [app outcome events fst snd].
        apply V2_scale_and_draw_msgs. now right.
      + reflexivity. }
  destruct (outcome (V2.try_body env self (i / cols) (i mod cols) f)) as [[|] | e];
    cbn [events fst]; rewrite ?file_msgs_app, T; reflexivity.
Qed.

Lemma Svg_loop_body_msgs env self files i f fp :
  files <> [] ->
  file_msgs_of (events (loop_body env (Svg.try_body env self) files i f fp))
  = if reported env f then [basename env f] else [].
Proof.
  intros Hf. rewrite loop_body_eq by assumption. unfold reported.
  unfold Svg.try_body.
  destruct (svg2rlg env f) as [d | e]; [| reflexivity].
  unfold lift. rewrite bind_pair_Ok. cbn [app outcome events fst snd].
  destruct d as [d |]; [| reflexivity].
  destruct (falsy (width d) || falsy (height d));
    match goal with
    | |- context [Svg.place ?s ?x ?y ?w ?h] =>
        pose proof (Svg_place_silent s x y w h) as S;
        destruct (Svg.place s x y w h) as [tp [p | e]]; cbn in S; subst tp;
        [| reflexivity]
    end;
    rewrite !bind_pair_Ok; cbn [app outcome events fst snd];
    unfold call, lift, emit, ret;
    destruct (Svg.high_quality self);
    destruct (renderPDF_draw env f (scale p) (centered_x p) (centered_y p))
      as [[] |];
    reflexivity.
Qed.

Section FileMessages.
Variable env : Env.
Variable try_body : Z -> Z -> string -> M control.
Variable files : list string.
Variable images_per_page : Z.
Variable says : string -> list string.
Hypothesis Hmsg :
  forall i f fp,
    file_msgs_of (events (loop_body env try_body files i f fp)) = says f.

Lemma loop_trace_msgs (l : list (Z * string)) :
  forall fp,
    file_msgs_of (loop_trace env try_body files l fp)
    = flat_map says (map snd l).
Proof.
  induction l as [| [i f] l IH]; intros fp; [reflexivity |].
  cbn [loop_trace map flat_map]. rewrite file_msgs_app, IH.
  unfold turn_trace. cbn [fst snd]. now rewrite Hmsg.
Qed.

Lemma pages_trace_msgs (page_nums : list Z) :
  forall fp,
    file_msgs_of (pages_trace env try_body files images_per_page page_nums fp)
    = flat_map says (map snd (slots_of files images_per_page page_nums)).
Proof.
  induction page_nums as [| page_num rest IH]; intros fp; [reflexivity |].
  cbn [pages_trace slots_of flat_map].
  fold (slots_of files images_per_page rest).
  change (status_updated ?m :: ?t) with ([status_updated m] ++ t).
  rewrite !file_msgs_app, loop_trace_msgs, IH, map_app, flat_map_app.
  now destruct (0 <? page_num).
Qed.
End FileMessages.

Lemma flat_map_filter_map {A B} (keep : A -> bool) (g : A -> B) (l : list A) :
  flat_map (fun x => if keep x then [g x] else []) l = map g (filter keep l).
Proof.
  induction l as [| x l IH]; [reflexivity |].
  cbn [flat_map filter]. rewrite IH. now destruct (keep x).
Qed.

Lemma flat_map_single {A B} (g : A -> B) (l : list A) :
  flat_map (fun x => [g x]) l = map g l.
Proof. induction l as [| x l IH]; [reflexivity |]. cbn. now rewrite IH. Qed.

(** X19. In img2pdf_v2.py every file of the list is reported by exactly one
    status message of its own (processed, skipped or failed), in list order.
    In image_2_pdf.py the same holds except for the files without a drawing
    object, which are not reported at all. *)
Theorem X19_one_status_message_for_each_file :
  forall (env : Env) (v2 : V2.ImageToPDFConverter) (sv : Svg.SVGToPDFConverter),
    V2.image_files v2 <> [] -> 0 < V2.images_per_page v2 ->
    Svg.svg_files sv <> [] -> 0 < Svg.images_per_page sv ->
    file_msgs_of (events (V2.run env v2)) = map (basename env) (V2.image_files v2) /\
    file_msgs_of (events (Svg.run env sv))
    = map (basename env) (filter (reported env) (Svg.svg_files sv)).
Proof.
  intros env v2 sv Hf2 Hp2 Hfs Hps.
  rewrite V2_run_eq, Svg_run_eq by assumption. cbn [events fst]. split.
  - change (CanvasNew ?a ?b ?c :: ?l) with ([CanvasNew a b c] ++ l).
    rewrite !file_msgs_app.
    rewrite (pages_trace_msgs env (V2.try_body env v2) (V2.image_files v2)
               (V2.images_per_page v2) (fun f => [basename env f])).
    + fold (slots (V2.image_files v2) (V2.images_per_page v2)).
      rewrite slots_files by assumption.
      replace (file_msgs_of (if negb (V2.images_per_page v2 =? cols * rows)
                             then [status_updated (Warnung (cols * rows))] else []))
        with (@nil string)
        by now destruct (negb (V2.images_per_page v2 =? cols * rows)).
      replace (file_msgs_of (tail_trace (canvas_save env (V2.output_path v2))))
        with (@nil string) by now destruct (canvas_save env (V2.output_path v2)).
      cbn [file_msgs_of flat_map app]. rewrite app_nil_r.
      apply flat_map_single.
    + intros i f fp. now apply V2_loop_body_msgs.
  - change (CanvasNew ?a ?b ?c :: ?l) with ([CanvasNew a b c] ++ l).
    rewrite !file_msgs_app.
    rewrite (pages_trace_msgs env (Svg.try_body env sv) (Svg.svg_files sv)
               (Svg.images_per_page sv)
               (fun f => if reported env f then [basename env f] else [])).
    + fold (slots (Svg.svg_files sv) (Svg.images_per_page sv)).
      rewrite slots_files by assumption.
      replace (file_msgs_of (tail_trace (canvas_save env (Svg.output_path sv))))
        with (@nil string) by now destruct (canvas_save env (Svg.output_path sv)).
      cbn [file_msgs_of flat_map app]. rewrite app_nil_r.
      apply flat_map_filter_map.
    + intros i f fp. now apply Svg_loop_body_msgs.
Qed.

Lemma X19_witness :
  file_msgs_of
    (events (V2.run env0 (v2_a4 ["a.svg"; "b.txt"; "bad.svg"; "none.svg"; "p.png"] 2)))
  = ["a.svg"; "b.txt"; "bad.svg"; "none.svg"; "p.png"] /\
  file_msgs_of (events (Svg.run env0 (svg_a4 ["a.svg"; "none.svg"; "bad.svg"] 9 true)))
  = ["a.svg"; "bad.svg"].
Proof.
  exact (X19_one_status_message_for_each_file env0
           (v2_a4 ["a.svg"; "b.txt"; "bad.svg"; "none.svg"; "p.png"] 2)
           (svg_a4 ["a.svg"; "none.svg"; "bad.svg"] 9 true)
           ltac:(discriminate) eq_refl ltac:(discriminate) eq_refl).
Defined.
